(** * Options strategy engine: a shallow embedding of [js/optionsStrategies.js]

    The development follows the class [OptionsStrategies]: the static
    strategy catalog, [getStrategy], [calculateProfitLoss],
    [calculateProfitLossArray], [findBreakevens], [calculateMaxProfit],
    [calculateMaxLoss], [generatePriceRange], [calculateNetPremium],
    [generateDefaultLegs] and [validateStrategy].

    Numbers.  The engine is embedded on two models of a JavaScript number.

    The exact layer (the definitions at top level) takes a number to be an
    exact rational, one of the two infinities, or NaN, and computes without
    rounding; every operation returns its rational in lowest terms, so
    results are compared with Leibniz equality.  It carries the results
    that do not depend on how a double rounds: runs in which every
    intermediate value is exact in binary64, the control flow over legs and
    templates, the comparisons with zero made by the validation, the
    arguments handed to the pricer and the propagation of its exceptions,
    and the grids of a current price that is zero or negative.

    The binary64 layer (module [B64]) takes a number to be a primitive
    [float]: the IEEE-754 double that JavaScript computes with, rounded to
    nearest with ties to even, with both zeros, both infinities, NaN,
    overflow and underflow.  The functions of the engine are embedded on it
    once more, with the same text.  It carries every result in which a sum,
    a product or a quotient may be rounded: the turns of the price loop and
    whether it ends, the samples of the expiration curve, and what
    [Math.min] and [Math.max] make of them.

    Effects.  The engine is pure except for two things, both made explicit
    in [outcome]: the [for] loop of [generatePriceRange] need not terminate
    (it is run with fuel), and the pricer [BlackScholes.getOptionPrice],
    which lives in another file, may throw. *)

From Stdlib Require Import QArith Qround Qabs ZArith List String Ascii Bool.
From Stdlib Require Import Lia Lqa Sorted DecimalString.
From Stdlib Require Floats.
Import ListNotations.

(* ===================================================================== *)
(** * JavaScript numbers, exact layer *)
(* ===================================================================== *)

Module JS.

Inductive number : Type :=
| Num (q : Q)
| PosInf
| NegInf
| NaN.

Definition Qlt_bool (x y : Q) : bool := negb (Qle_bool y x).

Definition is_zero (q : Q) : bool := Qeq_bool q 0.
Definition is_pos (q : Q) : bool := Qlt_bool 0 q.

(** The infinity whose sign is that of [q] ([q] non-zero). *)
Definition inf_of_sign (q : Q) : number := if is_pos q then PosInf else NegInf.

Definition neg (x : number) : number :=
  match x with
  | Num a => Num (Qred (- a))
  | PosInf => NegInf
  | NegInf => PosInf
  | NaN => NaN
  end.

(** [x + y] *)
Definition add (x y : number) : number :=
  match x, y with
  | NaN, _ | _, NaN => NaN
  | Num a, Num b => Num (Qred (a + b))
  | PosInf, NegInf | NegInf, PosInf => NaN
  | PosInf, _ | _, PosInf => PosInf
  | NegInf, _ | _, NegInf => NegInf
  end.

(** [x - y] *)
Definition sub (x y : number) : number :=
  match x, y with
  | NaN, _ | _, NaN => NaN
  | Num a, Num b => Num (Qred (a - b))
  | PosInf, PosInf | NegInf, NegInf => NaN
  | PosInf, _ | _, NegInf => PosInf
  | NegInf, _ | _, PosInf => NegInf
  end.

(** [x * y] *)
Definition mul (x y : number) : number :=
  match x, y with
  | NaN, _ | _, NaN => NaN
  | Num a, Num b => Num (Qred (a * b))
  | Num a, PosInf | PosInf, Num a => if is_zero a then NaN else inf_of_sign a
  | Num a, NegInf | NegInf, Num a => if is_zero a then NaN else inf_of_sign (- a)
  | PosInf, PosInf | NegInf, NegInf => PosInf
  | PosInf, NegInf | NegInf, PosInf => NegInf
  end.

(** [x / y]; a zero divisor is +0, so [a / 0] is the infinity of the sign
    of [a], and [0 / 0] is NaN. *)
Definition div (x y : number) : number :=
  match x, y with
  | NaN, _ | _, NaN => NaN
  | Num a, Num b =>
      if is_zero b then (if is_zero a then NaN else inf_of_sign a)
      else Num (Qred (a / b))
  | Num _, (PosInf | NegInf) => Num 0
  | PosInf, Num b => if is_zero b then PosInf else inf_of_sign b
  | NegInf, Num b => if is_zero b then NegInf else inf_of_sign (- b)
  | (PosInf | NegInf), (PosInf | NegInf) => NaN
  end.

(** [x <= y]; false as soon as one side is NaN. *)
Definition le (x y : number) : bool :=
  match x, y with
  | NaN, _ | _, NaN => false
  | Num a, Num b => Qle_bool a b
  | NegInf, _ | _, PosInf => true
  | _, _ => false
  end.

(** [x < y] *)
Definition lt (x y : number) : bool :=
  match x, y with
  | NaN, _ | _, NaN => false
  | Num a, Num b => Qlt_bool a b
  | PosInf, _ | _, NegInf => false
  | _, _ => true
  end.

(** [x >= y] and [x > y] *)
Definition ge (x y : number) : bool := le y x.
Definition gt (x y : number) : bool := lt y x.

(** [x === y] on numbers; NaN is equal to nothing. *)
Definition eq (x y : number) : bool :=
  match x, y with
  | Num a, Num b => Qeq_bool a b
  | PosInf, PosInf | NegInf, NegInf => true
  | _, _ => false
  end.

(** [Math.max(x, y)] and [Math.min(x, y)]: NaN if an argument is NaN. *)
Definition max (x y : number) : number :=
  match x, y with
  | NaN, _ | _, NaN => NaN
  | _, _ => if le x y then y else x
  end.

Definition min (x y : number) : number :=
  match x, y with
  | NaN, _ | _, NaN => NaN
  | _, _ => if le x y then x else y
  end.

(** [Math.max(...xs)] and [Math.min(...xs)]; with no argument they are
    [-Infinity] and [Infinity]. *)
Definition max_list (xs : list number) : number := fold_left max xs NegInf.
Definition min_list (xs : list number) : number := fold_left min xs PosInf.

(** [Math.abs(x)] *)
Definition abs (x : number) : number :=
  match x with
  | Num a => Num (Qred (Qabs a))
  | PosInf | NegInf => PosInf
  | NaN => NaN
  end.

(** [Math.round(x)]: the nearest integer, halves towards +Infinity. *)
Definition round (x : number) : number :=
  match x with
  | Num a => Num (inject_Z (Qfloor (a + (1 # 2))))
  | _ => x
  end.

(** Truthiness of a number: [0] and NaN are falsy. *)
Definition truthy (x : number) : bool :=
  match x with
  | Num a => negb (is_zero a)
  | PosInf | NegInf => true
  | NaN => false
  end.

(** A property read from an object: [None] is [undefined]. *)
Definition value := option number.

(** ToNumber: [undefined] becomes NaN. *)
Definition toNumber (v : value) : number :=
  match v with
  | Some x => x
  | None => NaN
  end.

(** [!v] *)
Definition not (v : value) : bool :=
  match v with
  | Some x => negb (truthy x)
  | None => true
  end.

(** [v || d] for a numeric default [d]. *)
Definition or_default (v : value) (d : number) : number :=
  match v with
  | Some x => if truthy x then x else d
  | None => d
  end.

(** [xs[i]] used as a number: an index outside the array reads
    [undefined], which every comparison and arithmetic operation turns into
    NaN ([undefined === x] is false like [NaN === x]). *)
Definition index (xs : list number) (i : Z) : number :=
  if (i <? 0)%Z then NaN else nth (Z.to_nat i) xs NaN.

End JS.

Import JS.

Declare Scope js_scope.
Delimit Scope js_scope with js.
Bind Scope js_scope with number.
Notation "x + y" := (JS.add x y) : js_scope.
Notation "x - y" := (JS.sub x y) : js_scope.
Notation "x * y" := (JS.mul x y) : js_scope.
Notation "x / y" := (JS.div x y) : js_scope.
Notation "x <= y" := (JS.le x y) : js_scope.
Notation "x < y" := (JS.lt x y) : js_scope.
Notation "x >= y" := (JS.ge x y) : js_scope.
Notation "x > y" := (JS.gt x y) : js_scope.
Notation "x === y" := (JS.eq x y) (at level 70, no associativity) : js_scope.

(* ===================================================================== *)
(** * Outcomes of a call *)
(* ===================================================================== *)

Inductive outcome (A : Type) : Type :=
| Ret (a : A)            (* the call returns [a] *)
| Throw (msg : string)   (* an exception escapes the call *)
| OutOfFuel.             (* the call was still looping when the fuel ran out *)

Arguments Ret {A} a.
Arguments Throw {A} msg.
Arguments OutOfFuel {A}.

Definition bind {A B : Type} (m : outcome A) (k : A -> outcome B) : outcome B :=
  match m with
  | Ret a => k a
  | Throw msg => Throw msg
  | OutOfFuel => OutOfFuel
  end.

Notation "x <- m ;; k" := (bind m (fun x => k))
  (at level 61, m at next level, right associativity).

(** [xs.map(f)] for a callback that may throw. *)
Fixpoint mapM {A B : Type} (f : A -> outcome B) (xs : list A) : outcome (list B) :=
  match xs with
  | [] => Ret []
  | x :: rest =>
      y <- f x ;;
      ys <- mapM f rest ;;
      Ret (y :: ys)
  end.

(* ===================================================================== *)
(** * Data model *)
(* ===================================================================== *)

Inductive Action : Type := buy | sell | own.
Inductive LegType : Type := call | put | stock.

(** A leg template of a strategy: [{ action, type, quantity, strikeOffset }]. *)
Record StrategyLeg : Type := mkStrategyLeg {
  action : Action;
  type : LegType;
  quantity : number;
  strikeOffset : value
}.

(** A strategy of the catalog. *)
Record Strategy : Type := mkStrategy {
  name : string;
  description : string;
  complexity : string;
  riskLevel : string;
  legs : list StrategyLeg
}.

(** A concrete leg, as the application holds it: the fields an option leg
    carries and the one a stock leg carries; an absent field is [None]. *)
Record Leg : Type := mkLeg {
  strike : value;
  premium : value;
  volatility : value;
  riskFreeRate : value;
  costBasis : value
}.

(** The object handed to [BlackScholes.getOptionPrice]. *)
Record OptionParams : Type := mkOptionParams {
  op_type : LegType;
  op_strike : value;
  op_timeToExpiry : number;
  op_riskFreeRate : number;
  op_volatility : number
}.

(** [{ isValid, errors }] *)
Record ValidationResult : Type := mkValidationResult {
  isValid : bool;
  errors : list string
}.

Definition optionLeg (k p : Q) : Leg :=
  mkLeg (Some (Num k)) (Some (Num p)) (Some (Num 0.25)) (Some (Num 0.05)) None.

Definition stockLeg (c : Q) : Leg :=
  mkLeg None None (Some (Num 0.25)) (Some (Num 0.05)) (Some (Num c)).

(* ===================================================================== *)
(** * The strategy catalog *)
(* ===================================================================== *)

Module Catalog.

Local Open Scope string_scope.

Definition tl0 (a : Action) (t : LegType) (q : Q) : StrategyLeg :=
  mkStrategyLeg a t (Num q) None.
Definition tl (a : Action) (t : LegType) (q : Q) (off : Q) : StrategyLeg :=
  mkStrategyLeg a t (Num q) (Some (Num off)).

Definition long_call : Strategy :=
  mkStrategy "Long Call"
    "Buy a call option. Bullish strategy with unlimited upside potential and limited downside risk."
    "beginner" "low" [tl0 buy call 1].

Definition long_put : Strategy :=
  mkStrategy "Long Put"
    "Buy a put option. Bearish strategy with high profit potential and limited downside risk."
    "beginner" "low" [tl0 buy put 1].

Definition short_call : Strategy :=
  mkStrategy "Short Call"
    "Sell a call option. Bearish/neutral strategy with limited profit and unlimited risk."
    "intermediate" "high" [tl0 sell call 1].

Definition short_put : Strategy :=
  mkStrategy "Short Put"
    "Sell a put option. Bullish/neutral strategy with limited profit and high risk."
    "intermediate" "high" [tl0 sell put 1].

Definition bull_call_spread : Strategy :=
  mkStrategy "Bull Call Spread"
    "Buy lower strike call, sell higher strike call. Limited risk and limited reward bullish strategy."
    "intermediate" "medium" [tl buy call 1 0; tl sell call 1 5].

Definition bear_call_spread : Strategy :=
  mkStrategy "Bear Call Spread"
    "Sell lower strike call, buy higher strike call. Limited risk and limited reward bearish strategy."
    "intermediate" "medium" [tl sell call 1 0; tl buy call 1 5].

Definition bull_put_spread : Strategy :=
  mkStrategy "Bull Put Spread"
    "Sell higher strike put, buy lower strike put. Limited risk and limited reward bullish strategy."
    "intermediate" "medium" [tl sell put 1 0; tl buy put 1 (-5)].

Definition bear_put_spread : Strategy :=
  mkStrategy "Bear Put Spread"
    "Buy higher strike put, sell lower strike put. Limited risk and limited reward bearish strategy."
    "intermediate" "medium" [tl buy put 1 0; tl sell put 1 (-5)].

Definition long_straddle : Strategy :=
  mkStrategy "Long Straddle"
    "Buy call and put at same strike. Profits from high volatility in either direction."
    "intermediate" "medium" [tl0 buy call 1; tl0 buy put 1].

Definition short_straddle : Strategy :=
  mkStrategy "Short Straddle"
    "Sell call and put at same strike. Profits from low volatility but has unlimited risk."
    "advanced" "high" [tl0 sell call 1; tl0 sell put 1].

Definition long_strangle : Strategy :=
  mkStrategy "Long Strangle"
    "Buy call and put at different strikes. Profits from high volatility, lower cost than straddle."
    "intermediate" "medium" [tl buy call 1 5; tl buy put 1 (-5)].

Definition short_strangle : Strategy :=
  mkStrategy "Short Strangle"
    "Sell call and put at different strikes. Profits from low volatility, unlimited risk."
    "advanced" "high" [tl sell call 1 5; tl sell put 1 (-5)].

Definition iron_condor : Strategy :=
  mkStrategy "Iron Condor"
    "Sell call spread and put spread. Profits from low volatility with defined risk."
    "advanced" "medium"
    [tl buy put 1 (-10); tl sell put 1 (-5); tl sell call 1 5; tl buy call 1 10].

Definition butterfly : Strategy :=
  mkStrategy "Butterfly Spread"
    "Buy two options at outer strikes, sell two at middle strike. Low risk, low reward."
    "advanced" "low" [tl buy call 1 (-5); tl sell call 2 0; tl buy call 1 5].

Definition covered_call : Strategy :=
  mkStrategy "Covered Call"
    "Own 100 shares and sell a call. Conservative income strategy with limited upside."
    "beginner" "low" [tl0 own stock 100; tl0 sell call 1].

Definition protective_put : Strategy :=
  mkStrategy "Protective Put"
    "Own 100 shares and buy a put. Insurance strategy to protect against downside."
    "beginner" "low" [tl0 own stock 100; tl0 buy put 1].

End Catalog.

(* ===================================================================== *)
(** * The engine *)
(* ===================================================================== *)

Section Engine.

Local Open Scope js_scope.

(** [BlackScholes.getOptionPrice(option, stockPrice, timeToExpiry)] is
    defined in another file of the application; the engine is verified for
    every pricer, including those that throw on a bad argument. *)
Variable getOptionPrice : OptionParams -> number -> number -> outcome number.

(** The body of the [forEach] callback of [calculateProfitLoss], after
    [strategyLeg] has been found: the profit or loss of one leg. *)
Definition legProfitLoss (strategyLeg : StrategyLeg) (leg : Leg)
    (stockPrice timeToExpiry : number) : outcome number :=
  match type strategyLeg with
  | stock =>
      match action strategyLeg with
      | own => Ret ((stockPrice - toNumber (costBasis leg)) * quantity strategyLeg)
      | _ => Ret (Num 0)
      end
  | _ =>
      optionValue <-
        (if timeToExpiry === Num 0 then
           match type strategyLeg with
           | call => Ret (JS.max (stockPrice - toNumber (strike leg)) (Num 0))
           | _ => Ret (JS.max (toNumber (strike leg) - stockPrice) (Num 0))
           end
         else
           getOptionPrice
             (mkOptionParams (type strategyLeg) (strike leg) timeToExpiry
                (or_default (riskFreeRate leg) (Num 0.05))
                (or_default (volatility leg) (Num 0.25)))
             stockPrice timeToExpiry) ;;
      match action strategyLeg with
      | buy => Ret ((optionValue - toNumber (premium leg)) * quantity strategyLeg * Num 100)
      | sell => Ret ((toNumber (premium leg) - optionValue) * quantity strategyLeg * Num 100)
      | own => Ret (Num 0)
      end
  end.

(** [legs.forEach((leg, index) => { ... totalPL += legPL })], from [index]
    on, with the running [totalPL]. *)
Fixpoint profitLossFrom (strategy : Strategy) (stockPrice timeToExpiry : number)
    (ls : list Leg) (index : nat) (totalPL : number) : outcome number :=
  match ls with
  | [] => Ret totalPL
  | leg :: rest =>
      match nth_error (legs strategy) index with
      | None => profitLossFrom strategy stockPrice timeToExpiry rest (S index) totalPL
      | Some strategyLeg =>
          legPL <- legProfitLoss strategyLeg leg stockPrice timeToExpiry ;;
          profitLossFrom strategy stockPrice timeToExpiry rest (S index) (totalPL + legPL)
      end
  end.

(** [calculateProfitLoss(strategy, legs, stockPrice, timeToExpiry = 0)] *)
Definition calculateProfitLoss (strategy : Strategy) (ls : list Leg)
    (stockPrice timeToExpiry : number) : outcome number :=
  profitLossFrom strategy stockPrice timeToExpiry ls 0 (Num 0).

(** [calculateProfitLossArray(strategy, legs, stockPrices, timeToExpiry = 0)] *)
Definition calculateProfitLossArray (strategy : Strategy) (ls : list Leg)
    (stockPrices : list number) (timeToExpiry : number) : outcome (list number) :=
  mapM (fun price => calculateProfitLoss strategy ls price timeToExpiry) stockPrices.

(** The [for] loop of [generatePriceRange]:
    [for (price = minPrice; price <= maxPrice; price += step) prices.push(...)]. *)
Fixpoint priceLoop (fuel : nat) (price maxPrice step : number)
    (prices : list number) : outcome (list number) :=
  match fuel with
  | O => OutOfFuel
  | S fuel' =>
      if price <= maxPrice then
        priceLoop fuel' (price + step) maxPrice step
          (prices ++ [JS.round (price * Num 100) / Num 100])
      else Ret prices
  end.

(** [generatePriceRange(currentPrice, rangeFactor = 1.5)] *)
Definition generatePriceRange (fuel : nat) (currentPrice rangeFactor : number)
    : outcome (list number) :=
  let minPrice := currentPrice * (Num 2 - rangeFactor) in
  let maxPrice := currentPrice * rangeFactor in
  let step := (maxPrice - minPrice) / Num 200 in
  priceLoop fuel minPrice maxPrice step [].

Definition defaultRangeFactor : number := Num 1.5.

(** One turn of the loop of [findBreakevens], at index [i]. *)
Definition breakevenStep (priceRange profits : list number)
    (breakevens : list number) (i : nat) : list number :=
  let i0 := (Z.of_nat i - 1)%Z in
  let i1 := Z.of_nat i in
  if (index profits i0 <= Num 0) && (index profits i1 >= Num 0)
     || (index profits i0 >= Num 0) && (index profits i1 <= Num 0)
  then
    let ratio := JS.abs (index profits i0)
                 / (JS.abs (index profits i0) + JS.abs (index profits i1)) in
    let breakeven := index priceRange i0
                     + ratio * (index priceRange i1 - index priceRange i0) in
    breakevens ++ [breakeven]
  else breakevens.

(** [for (let i = 1; i < profits.length; i++) { ... }] *)
Definition breakevenScan (priceRange profits : list number) : list number :=
  fold_left (breakevenStep priceRange profits) (seq 1 (List.length profits - 1)%nat) [].

(** [findBreakevens(strategy, legs, currentPrice)] *)
Definition findBreakevens (fuel : nat) (strategy : Strategy) (ls : list Leg)
    (currentPrice : number) : outcome (list number) :=
  priceRange <- generatePriceRange fuel currentPrice defaultRangeFactor ;;
  profits <- calculateProfitLossArray strategy ls priceRange (Num 0) ;;
  Ret (breakevenScan priceRange profits).

(** [calculateMaxProfit(strategy, legs, currentPrice)] *)
Definition calculateMaxProfit (fuel : nat) (strategy : Strategy) (ls : list Leg)
    (currentPrice : number) : outcome number :=
  priceRange <- generatePriceRange fuel currentPrice (Num 2) ;;
  profits <- calculateProfitLossArray strategy ls priceRange (Num 0) ;;
  let maxProfit := max_list profits in
  let n := Z.of_nat (List.length profits) in
  if (index profits (n - 1)%Z > index profits (n - 2)%Z)
     && (index profits (n - 1)%Z === maxProfit)
  then Ret PosInf
  else Ret maxProfit.

(** [calculateMaxLoss(strategy, legs, currentPrice)] *)
Definition calculateMaxLoss (fuel : nat) (strategy : Strategy) (ls : list Leg)
    (currentPrice : number) : outcome number :=
  priceRange <- generatePriceRange fuel currentPrice (Num 2) ;;
  profits <- calculateProfitLossArray strategy ls priceRange (Num 0) ;;
  let maxLoss := min_list profits in
  let n := Z.of_nat (List.length profits) in
  if (index profits 0%Z < index profits 1%Z) && (index profits 0%Z === maxLoss)
     || (index profits (n - 1)%Z < index profits (n - 2)%Z)
        && (index profits (n - 1)%Z === maxLoss)
  then Ret NegInf
  else Ret maxLoss.

(** [legs.forEach((leg, index) => { ... netPremium += / -= ... })] of
    [calculateNetPremium], from [index] on. *)
Fixpoint netPremiumFrom (strategy : Strategy) (ls : list Leg) (index : nat)
    (netPremium : number) : number :=
  match ls with
  | [] => netPremium
  | leg :: rest =>
      match nth_error (legs strategy) index with
      | None => netPremiumFrom strategy rest (S index) netPremium
      | Some strategyLeg =>
          match type strategyLeg with
          | stock => netPremiumFrom strategy rest (S index) netPremium
          | _ =>
              match action strategyLeg with
              | buy =>
                  netPremiumFrom strategy rest (S index)
                    (netPremium + toNumber (premium leg) * quantity strategyLeg * Num 100)
              | sell =>
                  netPremiumFrom strategy rest (S index)
                    (netPremium - toNumber (premium leg) * quantity strategyLeg * Num 100)
              | own => netPremiumFrom strategy rest (S index) netPremium
              end
          end
      end
  end.

(** [calculateNetPremium(strategy, legs)] *)
Definition calculateNetPremium (strategy : Strategy) (ls : list Leg) : number :=
  netPremiumFrom strategy ls 0 (Num 0).

End Engine.

(* ===================================================================== *)
(** * Validation *)
(* ===================================================================== *)

Section Validation.

Local Open Scope string_scope.

(** The decimal digits of [n], as template literals print a small index. *)
Definition showNat (n : nat) : string := NilEmpty.string_of_uint (Nat.to_uint n).

Definition msgInvalidStrategy : string := "Invalid strategy selected".
Definition msgLegCount : string :=
  "Number of legs does not match strategy requirements".
Definition msgInvalidStrike (index : nat) : string :=
  "Leg " ++ showNat (index + 1) ++ ": Invalid strike price".
Definition msgInvalidPremium (index : nat) : string :=
  "Leg " ++ showNat (index + 1) ++ ": Invalid premium".

(** The two checks of the [forEach] callback of [validateStrategy] on an
    option leg; each pushes at most one message. *)
Definition checkStrike (leg : Leg) (index : nat) (errs : list string) : list string :=
  if JS.not (strike leg) || (toNumber (strike leg) <= Num 0)%js
  then errs ++ [msgInvalidStrike index] else errs.

Definition checkPremium (leg : Leg) (index : nat) (errs : list string) : list string :=
  if JS.not (premium leg) || (toNumber (premium leg) < Num 0)%js
  then errs ++ [msgInvalidPremium index] else errs.

(** [legs.forEach((leg, index) => { ... errors.push(...) })], from [index]
    on, with the [errors] pushed so far. *)
Fixpoint validateFrom (strategy : Strategy) (ls : list Leg) (index : nat)
    (errs : list string) : list string :=
  match ls with
  | [] => errs
  | leg :: rest =>
      match nth_error (legs strategy) index with
      | None => validateFrom strategy rest (S index) errs
      | Some strategyLeg =>
          match type strategyLeg with
          | stock => validateFrom strategy rest (S index) errs
          | _ =>
              validateFrom strategy rest (S index)
                (checkPremium leg index (checkStrike leg index errs))
          end
      end
  end.

(** [validateStrategy(strategy, legs)]; a missing strategy is [None]. *)
Definition validateStrategy (strategy : option Strategy) (ls : list Leg)
    : ValidationResult :=
  match strategy with
  | None => mkValidationResult false [msgInvalidStrategy]
  | Some strategy =>
      let errs :=
        if negb (Nat.eqb (List.length ls) (List.length (legs strategy)))
        then [msgLegCount] else [] in
      let errs := validateFrom strategy ls 0 errs in
      mkValidationResult (Nat.eqb (List.length errs) 0) errs
  end.

End Validation.

(* ===================================================================== *)
(** * Specification-side definitions *)
(* ===================================================================== *)

(** Modelled from the spec: the pricer [BlackScholes.getOptionPrice] is not
    part of the engine's file.  This instance has the domain checks the
    specification gives the Pricer (volatility, strike and spot positive,
    time to expiry not negative; otherwise the call fails fast).  The
    Black-Scholes value is not modelled: in its place the instance returns
    the volatility it was called with, which makes the arguments that
    [calculateProfitLoss] passes observable. *)
Definition contractPricer (o : OptionParams) (stockPrice timeToExpiry : number)
    : outcome number :=
  if negb (Num 0 < op_volatility o)%js
     || negb (Num 0 <= timeToExpiry)%js
     || negb (Num 0 < toNumber (op_strike o))%js
     || negb (Num 0 < stockPrice)%js
  then Throw "invalid pricing input"
  else Ret (op_volatility o).

(** [Math.round(p * 100) / 100] on a rational. *)
Definition centsQ (p : Q) : Q :=
  Qred (inject_Z (Qfloor (Qred (p * 100) + (1 # 2))) / 100).

Definition StrictlyIncreasing (xs : list number) : Prop :=
  Sorted (fun x y => (x < y)%js = true) xs.

Fixpoint increasingb (xs : list number) : bool :=
  match xs with
  | x :: ((y :: _) as rest) => (x < y)%js && increasingb rest
  | _ => true
  end.

(** The signed premium of one leg: [+premium*quantity*100] for a bought
    option, [-premium*quantity*100] for a sold one, nothing otherwise. *)
Definition premiumTerm (strategyLeg : StrategyLeg) (leg : Leg) : list number :=
  match type strategyLeg, action strategyLeg with
  | stock, _ => []
  | _, buy => [(toNumber (premium leg) * quantity strategyLeg * Num 100)%js]
  | _, sell => [JS.neg (toNumber (premium leg) * quantity strategyLeg * Num 100)%js]
  | _, own => []
  end.

(** The sum of the signed premiums of the legs paired with their templates. *)
Definition netPremiumSum (strategy : Strategy) (ls : list Leg) : number :=
  fold_left JS.add
    (flat_map (fun p => premiumTerm (fst p) (snd p)) (combine (legs strategy) ls))
    (Num 0).

(** The bounds and the step of [generatePriceRange] on rationals. *)
Definition minPriceQ (cp rf : Q) : Q := Qred (cp * Qred (2 - rf)).
Definition maxPriceQ (cp rf : Q) : Q := Qred (cp * rf).
Definition stepQ (cp rf : Q) : Q :=
  Qred (Qred (maxPriceQ cp rf - minPriceQ cp rf) / 200).

(** A leg whose missing volatility and rate are filled with 0.25 and 0.05. *)
Definition withDefaults (leg : Leg) : Leg :=
  mkLeg (strike leg) (premium leg)
    (match volatility leg with None => Some (Num 0.25) | v => v end)
    (match riskFreeRate leg with None => Some (Num 0.05) | r => r end)
    (costBasis leg).

(** The settlement of an option leg whose current value is [optionValue]:
    [(currentValue - premium) * quantity * 100] when bought,
    [(premium - currentValue) * quantity * 100] when sold. *)
Definition settle (strategyLeg : StrategyLeg) (leg : Leg) (optionValue : number)
    : number :=
  match action strategyLeg with
  | buy => ((optionValue - toNumber (premium leg)) * quantity strategyLeg * Num 100)%js
  | sell => ((toNumber (premium leg) - optionValue) * quantity strategyLeg * Num 100)%js
  | own => Num 0
  end.

(* ===================================================================== *)
(** * Default legs *)
(* ===================================================================== *)

(** [marketParams], as the application holds it. *)
Record MarketParams : Type := mkMarketParams {
  mp_currentPrice : number;
  mp_volatility : number;
  mp_riskFreeRate : number;
  mp_daysToExpiration : number
}.

(** A leg built by [generateDefaultLegs]: the three fields copied from the
    template, and the numeric fields the engine reads. *)
Record DefaultLeg : Type := mkDefaultLeg {
  dl_action : Action;
  dl_type : LegType;
  dl_quantity : number;
  dl_fields : Leg
}.

Section Defaults.

Local Open Scope js_scope.

Variable getOptionPrice : OptionParams -> number -> number -> outcome number.

(** The body of the [forEach] callback of [generateDefaultLegs]. *)
Definition generateDefaultLeg (currentPrice : number) (marketParams : MarketParams)
    (timeToExpiry : number) (strategyLeg : StrategyLeg) : outcome DefaultLeg :=
  let rate := mp_riskFreeRate marketParams / Num 100 in
  let vol := mp_volatility marketParams / Num 100 in
  match type strategyLeg with
  | stock =>
      Ret (mkDefaultLeg (action strategyLeg) (type strategyLeg) (quantity strategyLeg)
             (mkLeg None None (Some vol) (Some rate) (Some currentPrice)))
  | _ =>
      let offset := or_default (strikeOffset strategyLeg) (Num 0) in
      let k := JS.round (currentPrice + offset) in
      p <- getOptionPrice
             (mkOptionParams (type strategyLeg) (Some k) timeToExpiry rate vol)
             currentPrice timeToExpiry ;;
      Ret (mkDefaultLeg (action strategyLeg) (type strategyLeg) (quantity strategyLeg)
             (mkLeg (Some k) (Some (JS.round (p * Num 100) / Num 100))
                (Some vol) (Some rate) None))
  end.

End Defaults.

(* ===================================================================== *)
(** * Further specification-side definitions *)
(* ===================================================================== *)

(** A field that is present and strictly above 0. *)
Definition positiveValue (v : value) : Prop :=
  exists x, v = Some x /\ (Num 0 < x)%js = true.

(** A pricer that returns the same finite value on every input; used to
    run the callback of [generateDefaultLegs]. *)
Definition constantPricer (q : Q) (_ : OptionParams) (_ _ : number)
    : outcome number := Ret (Num q).

(** A pricer that throws on every input. *)
Definition failingPricer (msg : string) (_ : OptionParams) (_ _ : number)
    : outcome number := Throw msg.

(* ===================================================================== *)
(** * The engine on binary64 numbers *)
(* ===================================================================== *)

(** The same functions once more, on the numbers JavaScript computes with:
    IEEE-754 binary64, rounded to nearest with ties to even, with both
    zeros, both infinities and NaN.  Results that depend on rounding, on
    overflow or on underflow are stated on this module.  A decimal literal
    denotes the double nearest to it, as in JavaScript.  There is one
    comparison for each direction: [x > y] is written [y <? x] and
    [x >= y] is written [y <=? x]; [x === y] on numbers is [x =? y]. *)
Module B64.

Import PrimFloat.
Local Open Scope float_scope.
Set Warnings "-inexact-float".

(** A whole number as a double; exact below [2^53]. *)
Definition of_Z (z : Z) : float :=
  match z with
  | Z0 => 0
  | Zpos _ => of_uint63 (Uint63Axioms.of_Z z)
  | Zneg p => - of_uint63 (Uint63Axioms.of_Z (Zpos p))
  end.

(** The two zeros, told apart. *)
Definition is_neg_zero (x : float) : bool := Leibniz.eqb x neg_zero.
Definition is_pos_zero (x : float) : bool := Leibniz.eqb x zero.

(** One step of [Math.max(...)]: a NaN argument makes the result NaN,
    [+0] is above [-0], and otherwise the larger number is kept. *)
Definition max_step (highest x : float) : float :=
  if is_nan highest || is_nan x then nan
  else if is_pos_zero x && is_neg_zero highest then zero
  else if highest <? x then x
  else highest.

(** One step of [Math.min(...)]: [-0] is below [+0]. *)
Definition min_step (lowest x : float) : float :=
  if is_nan lowest || is_nan x then nan
  else if is_neg_zero x && is_pos_zero lowest then neg_zero
  else if x <? lowest then x
  else lowest.

(** [Math.max(...xs)] and [Math.min(...xs)]; with no argument they are
    [-Infinity] and [Infinity]. *)
Definition max_list (xs : list float) : float := fold_left max_step xs neg_infinity.
Definition min_list (xs : list float) : float := fold_left min_step xs infinity.

(** [Math.max(x, y)] *)
Definition max (x y : float) : float := max_list [x; y].

(** [Math.round(x)]: the integer nearest to [x], a half going towards
    [+Infinity]; computed exactly, as [floor(x + 1/2)] on the rational
    value of [x].  The sign of a zero result is that of [x]. *)
Definition round (x : float) : float :=
  match FloatOps.Prim2SF x with
  | SpecFloat.S754_finite s m e =>
      if (0 <=? e)%Z then x
      else
        let v := if s then Zneg m else Zpos m in
        match ((2 * v + 2 ^ (- e)) / 2 ^ (1 - e))%Z with
        | Z0 => if s then neg_zero else zero
        | n => of_Z n
        end
  | _ => x
  end.

(** Truthiness of a number: both zeros and NaN are falsy. *)
Definition truthy (x : float) : bool := negb ((x =? 0) || is_nan x).

(** A property read from an object: [None] is [undefined]. *)
Definition value := option float.

(** ToNumber: [undefined] becomes NaN. *)
Definition toNumber (v : value) : float :=
  match v with
  | Some x => x
  | None => nan
  end.

(** [!v] *)
Definition not (v : value) : bool :=
  match v with
  | Some x => negb (truthy x)
  | None => true
  end.

(** [v || d] for a numeric default [d]. *)
Definition or_default (v : value) (d : float) : float :=
  match v with
  | Some x => if truthy x then x else d
  | None => d
  end.

(** [xs[i]] used as a number: outside the array it reads [undefined],
    which arithmetic and comparisons treat like NaN. *)
Definition index (xs : list float) (i : Z) : float :=
  if (i <? 0)%Z then nan else nth (Z.to_nat i) xs nan.

(** ** Data model *)

(** A leg template of a strategy: [{ action, type, quantity, strikeOffset }]. *)
Record StrategyLeg : Type := mkStrategyLeg {
  action : Action;
  type : LegType;
  quantity : float;
  strikeOffset : value
}.

(** A strategy of the catalog. *)
Record Strategy : Type := mkStrategy {
  name : string;
  description : string;
  complexity : string;
  riskLevel : string;
  legs : list StrategyLeg
}.

(** A concrete leg, as the application holds it; an absent field is [None]. *)
Record Leg : Type := mkLeg {
  strike : value;
  premium : value;
  volatility : value;
  riskFreeRate : value;
  costBasis : value
}.

(** The object handed to [BlackScholes.getOptionPrice]. *)
Record OptionParams : Type := mkOptionParams {
  op_type : LegType;
  op_strike : value;
  op_timeToExpiry : float;
  op_riskFreeRate : float;
  op_volatility : float
}.

(** An option leg and a stock leg with the fields the application gives
    them. *)
Definition optionLeg (k p : float) : Leg :=
  mkLeg (Some k) (Some p) (Some 0.25) (Some 0.05) None.

Definition stockLeg (c : float) : Leg :=
  mkLeg None None (Some 0.25) (Some 0.05) (Some c).

(** ** The catalog *)

Module Catalog.

Local Open Scope string_scope.
Local Open Scope float_scope.

Definition tl0 (a : Action) (t : LegType) (q : float) : StrategyLeg :=
  mkStrategyLeg a t q None.
Definition tl (a : Action) (t : LegType) (q off : float) : StrategyLeg :=
  mkStrategyLeg a t q (Some off).

Definition long_call : Strategy :=
  mkStrategy "Long Call"
    "Buy a call option. Bullish strategy with unlimited upside potential and limited downside risk."
    "beginner" "low" [tl0 buy call 1].

Definition long_put : Strategy :=
  mkStrategy "Long Put"
    "Buy a put option. Bearish strategy with high profit potential and limited downside risk."
    "beginner" "low" [tl0 buy put 1].

Definition short_call : Strategy :=
  mkStrategy "Short Call"
    "Sell a call option. Bearish/neutral strategy with limited profit and unlimited risk."
    "intermediate" "high" [tl0 sell call 1].

Definition short_put : Strategy :=
  mkStrategy "Short Put"
    "Sell a put option. Bullish/neutral strategy with limited profit and high risk."
    "intermediate" "high" [tl0 sell put 1].

Definition bull_call_spread : Strategy :=
  mkStrategy "Bull Call Spread"
    "Buy lower strike call, sell higher strike call. Limited risk and limited reward bullish strategy."
    "intermediate" "medium" [tl buy call 1 0; tl sell call 1 5].

Definition bear_call_spread : Strategy :=
  mkStrategy "Bear Call Spread"
    "Sell lower strike call, buy higher strike call. Limited risk and limited reward bearish strategy."
    "intermediate" "medium" [tl sell call 1 0; tl buy call 1 5].

Definition bull_put_spread : Strategy :=
  mkStrategy "Bull Put Spread"
    "Sell higher strike put, buy lower strike put. Limited risk and limited reward bullish strategy."
    "intermediate" "medium" [tl sell put 1 0; tl buy put 1 (-5)].

Definition bear_put_spread : Strategy :=
  mkStrategy "Bear Put Spread"
    "Buy higher strike put, sell lower strike put. Limited risk and limited reward bearish strategy."
    "intermediate" "medium" [tl buy put 1 0; tl sell put 1 (-5)].

Definition long_straddle : Strategy :=
  mkStrategy "Long Straddle"
    "Buy call and put at same strike. Profits from high volatility in either direction."
    "intermediate" "medium" [tl0 buy call 1; tl0 buy put 1].

Definition short_straddle : Strategy :=
  mkStrategy "Short Straddle"
    "Sell call and put at same strike. Profits from low volatility but has unlimited risk."
    "advanced" "high" [tl0 sell call 1; tl0 sell put 1].

Definition long_strangle : Strategy :=
  mkStrategy "Long Strangle"
    "Buy call and put at different strikes. Profits from high volatility, lower cost than straddle."
    "intermediate" "medium" [tl buy call 1 5; tl buy put 1 (-5)].

Definition short_strangle : Strategy :=
  mkStrategy "Short Strangle"
    "Sell call and put at different strikes. Profits from low volatility, unlimited risk."
    "advanced" "high" [tl sell call 1 5; tl sell put 1 (-5)].

Definition iron_condor : Strategy :=
  mkStrategy "Iron Condor"
    "Sell call spread and put spread. Profits from low volatility with defined risk."
    "advanced" "medium"
    [tl buy put 1 (-10); tl sell put 1 (-5); tl sell call 1 5; tl buy call 1 10].

Definition butterfly : Strategy :=
  mkStrategy "Butterfly Spread"
    "Buy two options at outer strikes, sell two at middle strike. Low risk, low reward."
    "advanced" "low" [tl buy call 1 (-5); tl sell call 2 0; tl buy call 1 5].

Definition covered_call : Strategy :=
  mkStrategy "Covered Call"
    "Own 100 shares and sell a call. Conservative income strategy with limited upside."
    "beginner" "low" [tl0 own stock 100; tl0 sell call 1].

Definition protective_put : Strategy :=
  mkStrategy "Protective Put"
    "Own 100 shares and buy a put. Insurance strategy to protect against downside."
    "beginner" "low" [tl0 own stock 100; tl0 buy put 1].

(** [static strategies = { ... }], keys in source order. *)
Definition strategies : list (string * Strategy) :=
  [ ("long-call", long_call); ("long-put", long_put);
    ("short-call", short_call); ("short-put", short_put);
    ("bull-call-spread", bull_call_spread); ("bear-call-spread", bear_call_spread);
    ("bull-put-spread", bull_put_spread); ("bear-put-spread", bear_put_spread);
    ("long-straddle", long_straddle); ("short-straddle", short_straddle);
    ("long-strangle", long_strangle); ("short-strangle", short_strangle);
    ("iron-condor", iron_condor); ("butterfly", butterfly);
    ("covered-call", covered_call); ("protective-put", protective_put) ].

End Catalog.

(** What [this.strategies[strategyKey]] can find: an entry of the catalog,
    or a member that the object literal inherits from [Object.prototype]
    (a function, or for [__proto__] the prototype itself: truthy, and
    without a [legs] property). *)
Inductive Member : Type :=
| Entry (strategy : Strategy)
| Inherited (key : string).

(** The properties of [Object.prototype] (ECMAScript 20.1.3 and B.2.2). *)
Definition objectPrototypeKeys : list string :=
  [ "constructor"; "hasOwnProperty"; "isPrototypeOf"; "propertyIsEnumerable";
    "toLocaleString"; "toString"; "valueOf"; "__proto__";
    "__defineGetter__"; "__defineSetter__"; "__lookupGetter__";
    "__lookupSetter__" ]%string.

(** [getStrategy(strategyKey)]: [this.strategies[strategyKey] || null].
    Own properties come first, then the prototype; every member found is
    truthy, so [null] is returned only when nothing is found. *)
Definition getStrategy (strategyKey : string) : option Member :=
  match find (fun kv => String.eqb (fst kv) strategyKey) Catalog.strategies with
  | Some kv => Some (Entry (snd kv))
  | None =>
      if existsb (String.eqb strategyKey) objectPrototypeKeys
      then Some (Inherited strategyKey)
      else None
  end.

(** ** The engine *)

(** The type of [BlackScholes.getOptionPrice], which lives in another file. *)
Definition Pricer : Type := OptionParams -> float -> float -> outcome float.

Section Engine.

Variable getOptionPrice : Pricer.

(** The body of the [forEach] callback of [calculateProfitLoss], after
    [strategyLeg] has been found: the profit or loss of one leg. *)
Definition legProfitLoss (strategyLeg : StrategyLeg) (leg : Leg)
    (stockPrice timeToExpiry : float) : outcome float :=
  match type strategyLeg with
  | stock =>
      match action strategyLeg with
      | own => Ret ((stockPrice - toNumber (costBasis leg)) * quantity strategyLeg)
      | _ => Ret 0
      end
  | _ =>
      optionValue <-
        (if timeToExpiry =? 0 then
           match type strategyLeg with
           | call => Ret (max (stockPrice - toNumber (strike leg)) 0)
           | _ => Ret (max (toNumber (strike leg) - stockPrice) 0)
           end
         else
           getOptionPrice
             (mkOptionParams (type strategyLeg) (strike leg) timeToExpiry
                (or_default (riskFreeRate leg) 0.05)
                (or_default (volatility leg) 0.25))
             stockPrice timeToExpiry) ;;
      match action strategyLeg with
      | buy => Ret ((optionValue - toNumber (premium leg)) * quantity strategyLeg * 100)
      | sell => Ret ((toNumber (premium leg) - optionValue) * quantity strategyLeg * 100)
      | own => Ret 0
      end
  end.

(** [legs.forEach((leg, index) => { ... totalPL += legPL })], from [index]
    on, with the running [totalPL]. *)
Fixpoint profitLossFrom (strategy : Strategy) (stockPrice timeToExpiry : float)
    (ls : list Leg) (index : nat) (totalPL : float) : outcome float :=
  match ls with
  | [] => Ret totalPL
  | leg :: rest =>
      match nth_error (legs strategy) index with
      | None => profitLossFrom strategy stockPrice timeToExpiry rest (S index) totalPL
      | Some strategyLeg =>
          legPL <- legProfitLoss strategyLeg leg stockPrice timeToExpiry ;;
          profitLossFrom strategy stockPrice timeToExpiry rest (S index) (totalPL + legPL)
      end
  end.

(** [calculateProfitLoss(strategy, legs, stockPrice, timeToExpiry = 0)] *)
Definition calculateProfitLoss (strategy : Strategy) (ls : list Leg)
    (stockPrice timeToExpiry : float) : outcome float :=
  profitLossFrom strategy stockPrice timeToExpiry ls 0 0.

(** [calculateProfitLossArray(strategy, legs, stockPrices, timeToExpiry = 0)] *)
Definition calculateProfitLossArray (strategy : Strategy) (ls : list Leg)
    (stockPrices : list float) (timeToExpiry : float) : outcome (list float) :=
  mapM (fun price => calculateProfitLoss strategy ls price timeToExpiry) stockPrices.

(** The [for] loop of [generatePriceRange]:
    [for (price = minPrice; price <= maxPrice; price += step) prices.push(...)]. *)
Fixpoint priceLoop (fuel : nat) (price maxPrice step : float)
    (prices : list float) : outcome (list float) :=
  match fuel with
  | O => OutOfFuel
  | S fuel' =>
      if price <=? maxPrice then
        priceLoop fuel' (price + step) maxPrice step
          (prices ++ [round (price * 100) / 100])
      else Ret prices
  end.

(** The three constants of [generatePriceRange]. *)
Definition minPrice (currentPrice rangeFactor : float) : float :=
  currentPrice * (2 - rangeFactor).
Definition maxPrice (currentPrice rangeFactor : float) : float :=
  currentPrice * rangeFactor.
Definition step (currentPrice rangeFactor : float) : float :=
  (maxPrice currentPrice rangeFactor - minPrice currentPrice rangeFactor) / 200.

(** [generatePriceRange(currentPrice, rangeFactor = 1.5)] *)
Definition generatePriceRange (fuel : nat) (currentPrice rangeFactor : float)
    : outcome (list float) :=
  priceLoop fuel (minPrice currentPrice rangeFactor)
    (maxPrice currentPrice rangeFactor) (step currentPrice rangeFactor) [].

Definition defaultRangeFactor : float := 1.5.

(** One turn of the loop of [findBreakevens], at index [i]. *)
Definition breakevenStep (priceRange profits : list float)
    (breakevens : list float) (i : nat) : list float :=
  let i0 := (Z.of_nat i - 1)%Z in
  let i1 := Z.of_nat i in
  if (index profits i0 <=? 0) && (0 <=? index profits i1)
     || (0 <=? index profits i0) && (index profits i1 <=? 0)
  then
    let ratio := abs (index profits i0)
                 / (abs (index profits i0) + abs (index profits i1)) in
    let breakeven := index priceRange i0
                     + ratio * (index priceRange i1 - index priceRange i0) in
    breakevens ++ [breakeven]
  else breakevens.

(** [for (let i = 1; i < profits.length; i++) { ... }] *)
Definition breakevenScan (priceRange profits : list float) : list float :=
  fold_left (breakevenStep priceRange profits) (seq 1 (List.length profits - 1)%nat) [].

(** [findBreakevens(strategy, legs, currentPrice)] *)
Definition findBreakevens (fuel : nat) (strategy : Strategy) (ls : list Leg)
    (currentPrice : float) : outcome (list float) :=
  priceRange <- generatePriceRange fuel currentPrice defaultRangeFactor ;;
  profits <- calculateProfitLossArray strategy ls priceRange 0 ;;
  Ret (breakevenScan priceRange profits).

(** [calculateMaxProfit(strategy, legs, currentPrice)] *)
Definition calculateMaxProfit (fuel : nat) (strategy : Strategy) (ls : list Leg)
    (currentPrice : float) : outcome float :=
  priceRange <- generatePriceRange fuel currentPrice 2 ;;
  profits <- calculateProfitLossArray strategy ls priceRange 0 ;;
  let maxProfit := max_list profits in
  let n := Z.of_nat (List.length profits) in
  if (index profits (n - 2)%Z <? index profits (n - 1)%Z)
     && (index profits (n - 1)%Z =? maxProfit)
  then Ret infinity
  else Ret maxProfit.

(** [calculateMaxLoss(strategy, legs, currentPrice)] *)
Definition calculateMaxLoss (fuel : nat) (strategy : Strategy) (ls : list Leg)
    (currentPrice : float) : outcome float :=
  priceRange <- generatePriceRange fuel currentPrice 2 ;;
  profits <- calculateProfitLossArray strategy ls priceRange 0 ;;
  let maxLoss := min_list profits in
  let n := Z.of_nat (List.length profits) in
  if (index profits 0%Z <? index profits 1%Z) && (index profits 0%Z =? maxLoss)
     || (index profits (n - 1)%Z <? index profits (n - 2)%Z)
        && (index profits (n - 1)%Z =? maxLoss)
  then Ret neg_infinity
  else Ret maxLoss.

End Engine.

(** ** Validation *)

(** The two checks of the [forEach] callback of [validateStrategy] on an
    option leg. *)
Definition checkStrike (leg : Leg) (index : nat) (errs : list string) : list string :=
  if not (strike leg) || (toNumber (strike leg) <=? 0)
  then errs ++ [msgInvalidStrike index] else errs.

Definition checkPremium (leg : Leg) (index : nat) (errs : list string) : list string :=
  if not (premium leg) || (toNumber (premium leg) <? 0)
  then errs ++ [msgInvalidPremium index] else errs.

(** [legs.forEach((leg, index) => { ... errors.push(...) })], from [index]
    on. *)
Fixpoint validateFrom (strategy : Strategy) (ls : list Leg) (index : nat)
    (errs : list string) : list string :=
  match ls with
  | [] => errs
  | leg :: rest =>
      match nth_error (legs strategy) index with
      | None => validateFrom strategy rest (S index) errs
      | Some strategyLeg =>
          match type strategyLeg with
          | stock => validateFrom strategy rest (S index) errs
          | _ =>
              validateFrom strategy rest (S index)
                (checkPremium leg index (checkStrike leg index errs))
          end
      end
  end.

(** [validateStrategy(strategy, legs)]; a missing strategy is [None]. *)
Definition validateStrategy (strategy : option Strategy) (ls : list Leg)
    : ValidationResult :=
  match strategy with
  | None => mkValidationResult false [msgInvalidStrategy]
  | Some strategy =>
      let errs :=
        if negb (Nat.eqb (List.length ls) (List.length (legs strategy)))
        then [msgLegCount] else [] in
      let errs := validateFrom strategy ls 0 errs in
      mkValidationResult (Nat.eqb (List.length errs) 0) errs
  end.

(** ** Default legs *)

(** [marketParams]: the fields [generateDefaultLegs] reads. *)
Record MarketParams : Type := mkMarketParams {
  mp_currentPrice : float;
  mp_volatility : float;
  mp_riskFreeRate : float;
  mp_daysToExpiration : float
}.

(** A leg as [generateDefaultLegs] builds it: the copied template fields
    and the fields of [Leg]. *)
Record DefaultLeg : Type := mkDefaultLeg {
  dl_action : Action;
  dl_type : LegType;
  dl_quantity : float;
  dl_fields : Leg
}.

(** Reading [legs] of a member that has none gives [undefined], and
    calling [forEach] on it throws. *)
Definition msgNoLegs : string :=
  "TypeError: Cannot read properties of undefined (reading 'forEach')".

Section Defaults.

Variable getOptionPrice : Pricer.

(** The body of the [forEach] callback of [generateDefaultLegs]. *)
Definition generateDefaultLeg (currentPrice : float) (marketParams : MarketParams)
    (timeToExpiry : float) (strategyLeg : StrategyLeg) : outcome DefaultLeg :=
  let rate := mp_riskFreeRate marketParams / 100 in
  let vol := mp_volatility marketParams / 100 in
  match type strategyLeg with
  | stock =>
      Ret (mkDefaultLeg (action strategyLeg) (type strategyLeg) (quantity strategyLeg)
             (mkLeg None None (Some vol) (Some rate) (Some currentPrice)))
  | _ =>
      let offset := or_default (strikeOffset strategyLeg) 0 in
      let k := round (currentPrice + offset) in
      p <- getOptionPrice
             (mkOptionParams (type strategyLeg) (Some k) timeToExpiry rate vol)
             currentPrice timeToExpiry ;;
      Ret (mkDefaultLeg (action strategyLeg) (type strategyLeg) (quantity strategyLeg)
             (mkLeg (Some k) (Some (round (p * 100) / 100))
                (Some vol) (Some rate) None))
  end.

(** [generateDefaultLegs(strategyKey, currentPrice, marketParams)] *)
Definition generateDefaultLegs (strategyKey : string) (currentPrice : float)
    (marketParams : MarketParams) : outcome (list DefaultLeg) :=
  match getStrategy strategyKey with
  | None => Ret []
  | Some (Inherited _) => Throw msgNoLegs
  | Some (Entry strategy) =>
      let timeToExpiry := mp_daysToExpiration marketParams / 365 in
      mapM (generateDefaultLeg currentPrice marketParams timeToExpiry) (legs strategy)
  end.

End Defaults.

(** ** Specification-side definitions *)

(** A pricer for runs at expiration, where the engine does not call it. *)
Definition idlePricer : Pricer :=
  fun _ _ _ => Throw "the pricer is not called at expiration".

(** Neither NaN nor an infinity. *)
Definition finite (x : float) : Prop := is_finite x = true.

Definition notNaN (x : float) : Prop := is_nan x = false.

(** Each value is [<] the next. *)
Definition StrictlyIncreasing (xs : list float) : Prop :=
  Sorted (fun x y => (x <? y) = true) xs.

Fixpoint increasingb (xs : list float) : bool :=
  match xs with
  | x :: ((y :: _) as rest) => (x <? y) && increasingb rest
  | _ => true
  end.

(** [m] is a minimum, or a maximum, of the samples [xs]. *)
Definition isSampleMin (m : float) (xs : list float) : Prop :=
  In m xs /\ forall x, In x xs -> (m <=? x) = true.

Definition isSampleMax (m : float) (xs : list float) : Prop :=
  In m xs /\ forall x, In x xs -> (x <=? m) = true.

(** An edge sample of the curve is a minimum of the curve and is strictly
    lower than its inward neighbour. *)
Definition EdgeFalling (profits : list float) : Prop :=
  let n := Z.of_nat (List.length profits) in
  (isSampleMin (index profits 0) profits
   /\ (index profits 0 <? index profits 1) = true)
  \/ (isSampleMin (index profits (n - 1)) profits
      /\ (index profits (n - 1) <? index profits (n - 2)) = true).

(** The last sample of the curve is a maximum of the curve and is strictly
    higher than the sample before it. *)
Definition EdgeRising (profits : list float) : Prop :=
  let n := Z.of_nat (List.length profits) in
  isSampleMax (index profits (n - 1)) profits
  /\ (index profits (n - 2) <? index profits (n - 1)) = true.

(** A leg lacks a field that the payoff rule of its template reads: the
    cost basis of owned stock, or the strike or the premium of a bought or
    sold option. *)
Definition lacksField (strategyLeg : StrategyLeg) (leg : Leg) : Prop :=
  (type strategyLeg = stock /\ action strategyLeg = own /\ costBasis leg = None)
  \/ (type strategyLeg <> stock /\ action strategyLeg <> own
      /\ (strike leg = None \/ premium leg = None)).

(** A template as the catalog writes them: a positive whole quantity, a
    strike offset that is absent or a whole number, and an action that
    matches the type: [own] for stock, [buy] or [sell] for an option. *)
Definition catalogTemplate (strategyLeg : StrategyLeg) : Prop :=
  (exists n : positive, quantity strategyLeg = of_Z (Zpos n))
  /\ (strikeOffset strategyLeg = None
      \/ exists z : Z, strikeOffset strategyLeg = Some (of_Z z))
  /\ match type strategyLeg with
     | stock => action strategyLeg = own
     | _ => action strategyLeg = buy \/ action strategyLeg = sell
     end.

(** A pricer that returns a number for every argument. *)
Definition returningPricer (pricer : Pricer) : Prop :=
  forall o stockPrice timeToExpiry,
    exists p : float, pricer o stockPrice timeToExpiry = Ret p.

(** The default leg [dl] is the one of template [strategyLeg]: it copies
    action, type and quantity and carries rate and volatility as fractions;
    a stock leg has the current price as cost basis and neither strike nor
    premium; an option leg has the strike [Math.round(currentPrice +
    offset)], the premium [Math.round(p * 100) / 100] of the value [p] that
    the pricer returns for that strike, and no cost basis. *)
Definition defaultLegOf (pricer : Pricer) (currentPrice : float)
    (marketParams : MarketParams) (strategyLeg : StrategyLeg) (dl : DefaultLeg)
    : Prop :=
  let rate := mp_riskFreeRate marketParams / 100 in
  let vol := mp_volatility marketParams / 100 in
  let timeToExpiry := mp_daysToExpiration marketParams / 365 in
  dl_action dl = action strategyLeg
  /\ dl_type dl = type strategyLeg
  /\ dl_quantity dl = quantity strategyLeg
  /\ riskFreeRate (dl_fields dl) = Some rate
  /\ volatility (dl_fields dl) = Some vol
  /\ match type strategyLeg with
     | stock => costBasis (dl_fields dl) = Some currentPrice
                /\ strike (dl_fields dl) = None
                /\ premium (dl_fields dl) = None
     | _ =>
         let k := round (currentPrice + or_default (strikeOffset strategyLeg) 0) in
         strike (dl_fields dl) = Some k
         /\ (exists p : float,
               pricer (mkOptionParams (type strategyLeg) (Some k) timeToExpiry rate vol)
                 currentPrice timeToExpiry = Ret p
               /\ premium (dl_fields dl) = Some (round (p * 100) / 100))
         /\ costBasis (dl_fields dl) = None
     end.

(** The opposite position: every bought option sold, every sold option
    bought. *)
Definition mirrorLeg (strategyLeg : StrategyLeg) : StrategyLeg :=
  mkStrategyLeg
    (match action strategyLeg with buy => sell | sell => buy | own => own end)
    (type strategyLeg) (quantity strategyLeg) (strikeOffset strategyLeg).

Definition mirror (strategy : Strategy) : Strategy :=
  mkStrategy (name strategy) (description strategy) (complexity strategy)
    (riskLevel strategy) (map mirrorLeg (legs strategy)).

Definition optionsOnly (strategy : Strategy) : Prop :=
  Forall (fun strategyLeg => type strategyLeg <> stock) (legs strategy).

(** On specified floats: [b] is the opposite of [a], up to the sign of a
    zero. *)
Definition is_zero_sf (a : SpecFloat.spec_float) : Prop :=
  match a with SpecFloat.S754_zero _ => True | _ => False end.

Definition opposite_sf (a b : SpecFloat.spec_float) : Prop :=
  b = SpecFloat.SFopp a \/ (is_zero_sf a /\ is_zero_sf b).

(** The same on doubles. *)
Definition opposite (x y : float) : Prop :=
  opposite_sf (FloatOps.Prim2SF x) (FloatOps.Prim2SF y).

(** [b] is the number [-a]: NaN when [a] is NaN, and otherwise [===] to
    [-a]. *)
Definition negationOf (a b : float) : Prop :=
  (is_nan a = true /\ is_nan b = true) \/ (b =? - a) = true.

(** The test of the loop of [findBreakevens] at index [i]. *)
Definition crossingAt (profits : list float) (i : nat) : bool :=
  let i0 := (Z.of_nat i - 1)%Z in
  let i1 := Z.of_nat i in
  (index profits i0 <=? 0) && (0 <=? index profits i1)
  || (0 <=? index profits i0) && (index profits i1 <=? 0).

End B64.

(* ===================================================================== *)
(** * Facts about numbers *)
(* ===================================================================== *)

Lemma Qlt_bool_iff (x y : Q) : Qlt_bool x y = true <-> x < y.
Proof.
  unfold Qlt_bool. rewrite negb_true_iff. split; intro H.
  - apply Qnot_le_lt. intro Hle. apply Qle_bool_iff in Hle. congruence.
  - destruct (Qle_bool y x) eqn:E; [|reflexivity].
    apply Qle_bool_iff in E. exfalso. exact (Qlt_not_le _ _ H E).
Qed.

Lemma Qlt_bool_false_iff (x y : Q) : Qlt_bool x y = false <-> y <= x.
Proof.
  unfold Qlt_bool. rewrite negb_false_iff. apply Qle_bool_iff.
Qed.

Lemma Qle_bool_false_iff (x y : Q) : Qle_bool x y = false <-> y < x.
Proof.
  rewrite <- Qlt_bool_iff. unfold Qlt_bool. rewrite negb_true_iff. reflexivity.
Qed.

Lemma sub_add_neg (x y : number) : (x - y)%js = (x + JS.neg y)%js.
Proof.
  destruct x as [a| | |], y as [b| | |]; try reflexivity.
  cbn [JS.sub JS.add JS.neg]. f_equal. apply Qred_complete.
  rewrite Qred_correct. reflexivity.
Qed.

Lemma round2_Num (p : Q) :
  (JS.round (Num p * Num 100) / Num 100)%js = Num (centsQ p).
Proof. reflexivity. Qed.

(* ===================================================================== *)
(** * The price loop and its fuel *)
(* ===================================================================== *)

Lemma priceLoop_fuel_add (fuel k : nat) (price maxPrice step : number)
    (prices r : list number) :
  priceLoop fuel price maxPrice step prices = Ret r ->
  priceLoop (fuel + k) price maxPrice step prices = Ret r.
Proof.
  revert price prices. induction fuel as [|fuel IH]; intros price prices H.
  - discriminate.
  - simpl in *. destruct (price <= maxPrice)%js; auto.
Qed.

Lemma generatePriceRange_fuel_add (fuel k : nat) (currentPrice rangeFactor : number)
    (r : list number) :
  generatePriceRange fuel currentPrice rangeFactor = Ret r ->
  generatePriceRange (fuel + k) currentPrice rangeFactor = Ret r.
Proof. unfold generatePriceRange. apply priceLoop_fuel_add. Qed.

Lemma increasingb_sound (xs : list number) :
  increasingb xs = true -> StrictlyIncreasing xs.
Proof.
  unfold StrictlyIncreasing.
  induction xs as [|x [|y rest] IH]; intro H.
  - constructor.
  - repeat constructor.
  - simpl in H. apply andb_true_iff in H as [Hxy Hrest].
    constructor; [apply IH; exact Hrest | constructor; exact Hxy].
Qed.

(* ===================================================================== *)
(** * Concrete runs *)
(* ===================================================================== *)

(** C1.  Long call, one leg with strike 100 and premium 5, quantity 1 (the
    template's): at expiration [calculateProfitLoss] returns exactly -500 at
    stock price 100 and exactly +500 at stock price 110; for every strike,
    premium and stock price it is the buy rule
    [(intrinsicValue - premium) * quantity * 100] added to the initial 0. *)
Theorem long_call_profit_at_expiration :
  forall (pricer : OptionParams -> number -> number -> outcome number)
         (vol rate cb : value),
    (let leg := mkLeg (Some (Num 100)) (Some (Num 5)) vol rate cb in
     calculateProfitLoss pricer Catalog.long_call [leg] (Num 100) (Num 0)
       = Ret (Num (-500))
     /\ calculateProfitLoss pricer Catalog.long_call [leg] (Num 110) (Num 0)
       = Ret (Num 500))
    /\ (forall k p stockPrice,
         calculateProfitLoss pricer Catalog.long_call
           [mkLeg (Some k) (Some p) vol rate cb] stockPrice (Num 0)
         = Ret (Num 0 + (JS.max (stockPrice - k) (Num 0) - p) * Num 1 * Num 100)%js).
Proof.
  intros pricer vol rate cb. split; [split|]; reflexivity.
Qed.

(** C2.  [generatePriceRange(100, 1.5)] returns, as soon as the fuel covers
    its 201 turns, a strictly increasing sequence of exactly 201 values whose
    first is 50 and whose last is 150. *)
Theorem price_grid_100 :
  exists grid : list number,
    (forall k, generatePriceRange (202 + k) (Num 100) (Num 1.5) = Ret grid)
    /\ List.length grid = 201%nat
    /\ hd_error grid = Some (Num 50)
    /\ last grid NaN = Num 150
    /\ StrictlyIncreasing grid.
Proof.
  eexists. split; [|split; [|split; [|split]]].
  - intro k. apply generatePriceRange_fuel_add. vm_compute. reflexivity.
  - vm_compute. reflexivity.
  - vm_compute. reflexivity.
  - vm_compute. reflexivity.
  - apply increasingb_sound. vm_compute. reflexivity.
Qed.

(** C3, as the code has it.  For the long call with strike 100 and premium 5
    and current price 100, [findBreakevens] returns the two-element list
    [[105; 105]]: the curve is exactly zero at the grid point 105, and the
    interval that ends there and the interval that starts there both
    register a crossing. *)
Theorem long_call_breakevens :
  forall (pricer : OptionParams -> number -> number -> outcome number)
         (vol rate cb : value) (k : nat),
    findBreakevens pricer (202 + k) Catalog.long_call
      [mkLeg (Some (Num 100)) (Some (Num 5)) vol rate cb] (Num 100)
    = Ret [Num 105; Num 105].
Proof.
  intros pricer vol rate cb k. unfold findBreakevens.
  erewrite generatePriceRange_fuel_add by (vm_compute; reflexivity).
  vm_compute. reflexivity.
Qed.

(** C3 fails as stated: the list returned is not the one-element list
    [[105]]. *)
Lemma single_breakeven_refuted :
  findBreakevens contractPricer 202 Catalog.long_call [optionLeg 100 5] (Num 100)
  <> Ret [Num 105].
Proof. vm_compute. discriminate. Qed.

(** C4 at the failing input.  A long call whose leg has strike 100 and
    premium exactly 0 meets the claim's conditions, and [validateStrategy]
    rejects it with the message for an invalid premium. *)
Theorem validate_rejects_zero_premium :
  validateStrategy (Some Catalog.long_call) [optionLeg 100 0]
  = mkValidationResult false ["Leg 1: Invalid premium"%string].
Proof. reflexivity. Qed.

(** C10 at the failing input.  Bull call spread, strikes 100 and 105, both
    premiums 5, current price 100: the curve is exactly zero at the 101 grid
    points from 50 to 100, each of the 100 pairs of adjacent zeros is
    detected as a crossing with divisor [|0| + |0| = 0], and the breakeven
    pushed for it is NaN. *)
Theorem bull_call_spread_breakevens_nan :
  findBreakevens contractPricer 202 Catalog.bull_call_spread
    [optionLeg 100 5; optionLeg 105 5] (Num 100)
  = Ret (repeat NaN 100 ++ [Num 100]).
Proof. vm_compute. reflexivity. Qed.

(* ===================================================================== *)
(** * Net premium *)
(* ===================================================================== *)

Lemma skipn_nth_error_None {A : Type} (l : list A) (i : nat) :
  nth_error l i = None -> skipn i l = [].
Proof.
  intro H. apply nth_error_None in H. apply skipn_all2. exact H.
Qed.

Lemma skipn_nth_error_Some {A : Type} (l : list A) (i : nat) (x : A) :
  nth_error l i = Some x -> skipn i l = x :: skipn (S i) l.
Proof.
  revert i. induction l as [|y l IH]; intros [|i] H; try discriminate.
  - injection H as ->. reflexivity.
  - simpl in H. apply IH in H. exact H.
Qed.

Lemma netPremiumFrom_sum (strategy : Strategy) (ls : list Leg) :
  forall (index : nat) (netPremium : number),
    netPremiumFrom strategy ls index netPremium
    = fold_left JS.add
        (flat_map (fun p => premiumTerm (fst p) (snd p))
           (combine (skipn index (legs strategy)) ls))
        netPremium.
Proof.
  induction ls as [|leg rest IH]; intros index netPremium.
  - rewrite combine_nil. reflexivity.
  - cbn [netPremiumFrom].
    destruct (nth_error (legs strategy) index) as [strategyLeg|] eqn:E.
    + rewrite (skipn_nth_error_Some _ _ _ E).
      cbn [combine flat_map fst snd]. rewrite fold_left_app.
      unfold premiumTerm.
      destruct (type strategyLeg), (action strategyLeg);
        rewrite IH; cbn [fold_left]; try reflexivity;
        rewrite sub_add_neg; reflexivity.
    + rewrite IH, (skipn_nth_error_None _ _ E).
      rewrite skipn_all2; [reflexivity|].
      apply nth_error_None in E. lia.
Qed.

(** C8.  For every strategy and leg list [calculateNetPremium] is the sum,
    over the legs paired with their templates, of [+premium*quantity*100]
    for a bought option and [-premium*quantity*100] for a sold one, stock
    legs contributing nothing; for the covered call (own stock, sell call
    with premium 3, quantity 1) it is -300. *)
Theorem net_premium_is_signed_sum :
  (forall strategy ls, calculateNetPremium strategy ls = netPremiumSum strategy ls)
  /\ (forall (shares : Leg) (k vol rate cb : value),
       calculateNetPremium Catalog.covered_call
         [shares; mkLeg k (Some (Num 3)) vol rate cb] = Num (-300)).
Proof.
  split.
  - intros strategy ls. unfold calculateNetPremium, netPremiumSum.
    rewrite netPremiumFrom_sum. reflexivity.
  - intros. reflexivity.
Qed.

(* ===================================================================== *)
(** * The price grid *)
(* ===================================================================== *)

(** With a zero step the loop never leaves: whatever the fuel, it is
    exhausted. *)
Lemma priceLoop_stuck (mx st : Q) :
  st == 0 ->
  forall (fuel : nat) (p : Q) (prices : list number),
    p <= mx ->
    priceLoop fuel (Num p) (Num mx) (Num st) prices = OutOfFuel.
Proof.
  intros Hst fuel. induction fuel as [|fuel IH]; intros p prices Hle.
  - reflexivity.
  - cbn [priceLoop JS.le JS.add].
    assert (E1 : Qle_bool p mx = true) by (apply Qle_bool_iff; exact Hle).
    rewrite E1. apply IH. rewrite Qred_correct, Hst. lra.
Qed.

Lemma generatePriceRange_unfold (fuel : nat) (cp rf : Q) :
  generatePriceRange fuel (Num cp) (Num rf)
  = priceLoop fuel (Num (minPriceQ cp rf)) (Num (maxPriceQ cp rf))
      (Num (stepQ cp rf)) [].
Proof. reflexivity. Qed.

Lemma minPriceQ_eq (cp rf : Q) : minPriceQ cp rf == cp * (2 - rf).
Proof. unfold minPriceQ. rewrite !Qred_correct. reflexivity. Qed.

Lemma maxPriceQ_eq (cp rf : Q) : maxPriceQ cp rf == cp * rf.
Proof. unfold maxPriceQ. rewrite !Qred_correct. reflexivity. Qed.

Lemma stepQ_eq (cp rf : Q) : 100 * stepQ cp rf == cp * (rf - 1).
Proof.
  unfold stepQ. rewrite !Qred_correct, minPriceQ_eq, maxPriceQ_eq. field.
Qed.

(* ===================================================================== *)
(** * Pricing inputs of an option leg *)
(* ===================================================================== *)

Lemma lt_zero_not_eq (t : number) : (Num 0 < t)%js = true -> (t === Num 0)%js = false.
Proof.
  destruct t as [q| | |]; try reflexivity; try discriminate.
  cbn [JS.lt JS.eq]. intro H. apply Qlt_bool_iff in H.
  destruct (Qeq_bool q 0) eqn:E; [|reflexivity].
  apply Qeq_bool_eq in E. lra.
Qed.

Lemma or_default_withDefaults (leg : Leg) :
  or_default (volatility (withDefaults leg)) (Num 0.25)
  = or_default (volatility leg) (Num 0.25)
  /\ or_default (riskFreeRate (withDefaults leg)) (Num 0.05)
     = or_default (riskFreeRate leg) (Num 0.05).
Proof.
  unfold withDefaults. cbn [volatility riskFreeRate].
  destruct (volatility leg), (riskFreeRate leg); split; reflexivity.
Qed.

(** C5, as the code has it.  For every option leg and time to expiry above
    0, [calculateProfitLoss] values the leg by calling the pricer with the
    leg's stored risk-free rate and volatility when both are present and
    truthy, and settles the value returned by the buy or sell rule; an
    exception comes from the pricer only.  A leg whose volatility or rate is
    missing is valued exactly as the same leg with volatility 0.25 or rate
    0.05: no input error is reported for it. *)
Theorem option_leg_pricing_inputs
    (pricer : OptionParams -> number -> number -> outcome number)
    (strategyLeg : StrategyLeg) (leg : Leg) (stockPrice T r v : number) :
  type strategyLeg <> stock ->
  (Num 0 < T)%js = true ->
  riskFreeRate leg = Some r -> truthy r = true ->
  volatility leg = Some v -> truthy v = true ->
  legProfitLoss pricer strategyLeg leg stockPrice T
  = (optionValue <-
       pricer (mkOptionParams (type strategyLeg) (strike leg) T r v) stockPrice T ;;
     Ret (settle strategyLeg leg optionValue))
  /\ (forall leg' : Leg,
        legProfitLoss pricer strategyLeg leg' stockPrice T
        = legProfitLoss pricer strategyLeg (withDefaults leg') stockPrice T).
Proof.
  intros Hty HT Hr Hrt Hv Hvt.
  apply lt_zero_not_eq in HT. split.
  - unfold legProfitLoss, settle. rewrite HT, Hr, Hv. cbn [or_default].
    rewrite Hrt, Hvt.
    destruct (type strategyLeg); [| |congruence];
      destruct (pricer _ stockPrice T); cbn [bind]; try reflexivity;
      destruct (action strategyLeg); reflexivity.
  - intro leg'. unfold legProfitLoss. rewrite HT.
    destruct (or_default_withDefaults leg') as [-> ->].
    destruct (type strategyLeg); reflexivity.
Qed.

Lemma option_leg_pricing_inputs_witness :
  let strategyLeg := Catalog.tl0 buy call 1 in
  let leg := optionLeg 100 5 in
  let T := Num (30 # 365) in
  (type strategyLeg <> stock /\ (Num 0 < T)%js = true
   /\ riskFreeRate leg = Some (Num 0.05) /\ truthy (Num 0.05) = true
   /\ volatility leg = Some (Num 0.25) /\ truthy (Num 0.25) = true)
  /\ legProfitLoss contractPricer strategyLeg leg (Num 110) T
     = (optionValue <-
          contractPricer
            (mkOptionParams call (Some (Num 100)) T (Num 0.05) (Num 0.25))
            (Num 110) T ;;
        Ret (settle strategyLeg leg optionValue))
  /\ (forall leg' : Leg,
        legProfitLoss contractPricer strategyLeg leg' (Num 110) T
        = legProfitLoss contractPricer strategyLeg (withDefaults leg') (Num 110) T).
Proof.
  intros strategyLeg leg T.
  split; [repeat split; discriminate|].
  apply (option_leg_pricing_inputs contractPricer strategyLeg leg
           (Num 110) T (Num 0.05) (Num 0.25));
    solve [reflexivity | discriminate].
Defined.

(** C5 fails as stated: a long call leg without volatility and rate, and
    one whose volatility and rate are 0, are both valued 30 days before
    expiry as if the volatility were 0.25 (the pricer below returns the
    volatility it receives, so the leg is worth [(0.25 - 5) * 1 * 100]);
    no error is reported, although the same pricer refuses a volatility
    of 0. *)
Lemma missing_volatility_gets_default :
  calculateProfitLoss contractPricer Catalog.long_call
    [mkLeg (Some (Num 100)) (Some (Num 5)) None None None]
    (Num 110) (Num (30 # 365)) = Ret (Num (-475))
  /\ calculateProfitLoss contractPricer Catalog.long_call
       [mkLeg (Some (Num 100)) (Some (Num 5)) (Some (Num 0)) (Some (Num 0)) None]
       (Num 110) (Num (30 # 365)) = Ret (Num (-475))
  /\ contractPricer
       (mkOptionParams call (Some (Num 100)) (Num (30 # 365)) (Num 0.05) (Num 0))
       (Num 110) (Num (30 # 365)) = Throw "invalid pricing input".
Proof. split; [reflexivity | split; reflexivity]. Qed.

(* ===================================================================== *)
(** * What validation accepts and what it reports *)
(* ===================================================================== *)

Lemma checks_pass (leg : Leg) (index : nat) (errs : list string) (k p : Q) :
  strike leg = Some (Num k) -> 0 < k ->
  premium leg = Some (Num p) -> 0 < p ->
  checkPremium leg index (checkStrike leg index errs) = errs.
Proof.
  intros Hk Hkpos Hp Hppos. unfold checkPremium, checkStrike.
  rewrite Hk, Hp. cbn [JS.not truthy toNumber JS.le JS.lt]. unfold is_zero.
  assert (E1 : Qeq_bool k 0 = false).
  { destruct (Qeq_bool k 0) eqn:E; [apply Qeq_bool_eq in E; lra | reflexivity]. }
  assert (E2 : Qle_bool k 0 = false) by (apply Qle_bool_false_iff; exact Hkpos).
  assert (E3 : Qeq_bool p 0 = false).
  { destruct (Qeq_bool p 0) eqn:E; [apply Qeq_bool_eq in E; lra | reflexivity]. }
  assert (E4 : Qlt_bool p 0 = false) by (apply Qlt_bool_false_iff; lra).
  rewrite E1, E2, E3, E4. reflexivity.
Qed.

(** Away from the zero premium the validation does accept: a leg list of
    the right length whose option legs have a strike above 0 and a premium
    above 0 is valid, with no error. *)
Lemma validateFrom_accepts (strategy : Strategy) (ls : list Leg) :
  forall (index : nat) (errs : list string),
    (forall i strategyLeg leg,
        nth_error (legs strategy) (index + i) = Some strategyLeg ->
        nth_error ls i = Some leg ->
        type strategyLeg <> stock ->
        exists k p, strike leg = Some (Num k) /\ 0 < k
                    /\ premium leg = Some (Num p) /\ 0 < p) ->
    validateFrom strategy ls index errs = errs.
Proof.
  induction ls as [|leg rest IH]; intros index errs Hok.
  - reflexivity.
  - assert (Hrest : forall i strategyLeg leg',
               nth_error (legs strategy) (S index + i) = Some strategyLeg ->
               nth_error rest i = Some leg' ->
               type strategyLeg <> stock ->
               exists k p, strike leg' = Some (Num k) /\ 0 < k
                           /\ premium leg' = Some (Num p) /\ 0 < p).
    { intros i sl leg' H1 H2 H3. apply (Hok (S i) sl); [|exact H2|exact H3].
      rewrite <- H1. f_equal. lia. }
    cbn [validateFrom].
    destruct (nth_error (legs strategy) index) as [strategyLeg|] eqn:E;
      [|apply IH; exact Hrest].
    destruct (type strategyLeg) eqn:Et; try (apply IH; exact Hrest).
    + destruct (Hok 0%nat strategyLeg leg) as [k [p [Hk [Hkp [Hp Hpp]]]]];
        [rewrite Nat.add_0_r; exact E | reflexivity | congruence |].
      rewrite (checks_pass leg index errs k p Hk Hkp Hp Hpp). apply IH. exact Hrest.
    + destruct (Hok 0%nat strategyLeg leg) as [k [p [Hk [Hkp [Hp Hpp]]]]];
        [rewrite Nat.add_0_r; exact E | reflexivity | congruence |].
      rewrite (checks_pass leg index errs k p Hk Hkp Hp Hpp). apply IH. exact Hrest.
Qed.

Lemma validateStrategy_accepts_positive (strategy : Strategy) (ls : list Leg) :
  List.length ls = List.length (legs strategy) ->
  (forall i strategyLeg leg,
      nth_error (legs strategy) i = Some strategyLeg ->
      nth_error ls i = Some leg ->
      type strategyLeg <> stock ->
      exists k p, strike leg = Some (Num k) /\ 0 < k
                  /\ premium leg = Some (Num p) /\ 0 < p) ->
  validateStrategy (Some strategy) ls = mkValidationResult true [].
Proof.
  intros Hlen Hok. unfold validateStrategy.
  rewrite Hlen, Nat.eqb_refl. cbn [negb].
  rewrite (validateFrom_accepts strategy ls 0 [] Hok). reflexivity.
Qed.

(** The checks do not stop at the first violation: every message pushed so
    far is kept, and a leg can add both of its messages. *)
Lemma validateFrom_keeps (strategy : Strategy) (ls : list Leg) :
  forall (index : nat) (errs : list string),
    exists more, validateFrom strategy ls index errs = errs ++ more.
Proof.
  induction ls as [|leg rest IH]; intros index errs.
  - exists []. rewrite app_nil_r. reflexivity.
  - cbn [validateFrom].
    destruct (nth_error (legs strategy) index) as [strategyLeg|]; [|apply IH].
    destruct (type strategyLeg); try apply IH;
      unfold checkPremium, checkStrike;
      destruct (_ || _)%bool, (_ || _)%bool;
      match goal with
      | |- exists more, validateFrom _ _ _ ?e = _ =>
          destruct (IH (S index) e) as [more ->]
      end;
      rewrite <- ?app_assoc; eexists; reflexivity.
Qed.

Example validate_reports_every_violation :
  validateStrategy (Some Catalog.bull_call_spread) [optionLeg 0 (-1)]
  = mkValidationResult false
      [ "Number of legs does not match strategy requirements"%string;
        "Leg 1: Invalid strike price"%string;
        "Leg 1: Invalid premium"%string ].
Proof. reflexivity. Qed.

(* ===================================================================== *)
(** * Expiration valuation and the pricer *)
(* ===================================================================== *)

Lemma legProfitLoss_expiry_pure (strategyLeg : StrategyLeg) (leg : Leg)
    (stockPrice : number) :
  exists v : number,
    forall pricer : OptionParams -> number -> number -> outcome number,
      legProfitLoss pricer strategyLeg leg stockPrice (Num 0) = Ret v.
Proof.
  unfold legProfitLoss. change (Num 0 === Num 0)%js with true. cbv iota.
  destruct (type strategyLeg), (action strategyLeg);
    eexists; intro pricer; cbn [bind]; reflexivity.
Qed.

Lemma profitLossFrom_expiry_pure (strategy : Strategy) (stockPrice : number)
    (ls : list Leg) :
  forall (index : nat) (totalPL : number),
    exists v : number,
      forall pricer : OptionParams -> number -> number -> outcome number,
        profitLossFrom pricer strategy stockPrice (Num 0) ls index totalPL = Ret v.
Proof.
  induction ls as [|leg rest IH]; intros index totalPL.
  - exists totalPL. reflexivity.
  - cbn [profitLossFrom].
    destruct (nth_error (legs strategy) index) as [strategyLeg|]; [|apply IH].
    destruct (legProfitLoss_expiry_pure strategyLeg leg stockPrice) as [legPL HlegPL].
    destruct (IH (S index) (totalPL + legPL)%js) as [v Hv].
    exists v. intro pricer. rewrite HlegPL. cbn [bind]. apply Hv.
Qed.

(** At expiration ([timeToExpiry = 0]) the engine never consults the pricer:
    whatever the strategy, the legs (well-formed or not) and the prices,
    [calculateProfitLoss] and [calculateProfitLossArray] return, never
    throw, and return the same value for every pricer; the curve has one
    sample per price. *)
Theorem expiration_ignores_pricer (strategy : Strategy) (ls : list Leg) :
  (forall stockPrice : number,
      exists v : number,
        forall pricer, calculateProfitLoss pricer strategy ls stockPrice (Num 0) = Ret v)
  /\ (forall stockPrices : list number,
        exists profits : list number,
          List.length profits = List.length stockPrices
          /\ forall pricer,
               calculateProfitLossArray pricer strategy ls stockPrices (Num 0)
               = Ret profits).
Proof.
  split.
  - intro stockPrice. apply profitLossFrom_expiry_pure.
  - intro stockPrices. induction stockPrices as [|price rest IH].
    + exists []. split; reflexivity.
    + destruct IH as [profits [Hlen Hp]].
      destruct (profitLossFrom_expiry_pure strategy price ls 0 (Num 0)) as [v Hv].
      exists (v :: profits). split; [cbn [List.length]; congruence|].
      intro pricer. unfold calculateProfitLossArray in *. cbn [mapM].
      unfold calculateProfitLoss at 1. rewrite Hv. cbn [bind].
      rewrite Hp. reflexivity.
Qed.

(** [calculateProfitLossArray] returns a curve exactly when every price is
    valued without exception, and then sample [i] is the profit or loss at
    price [i]: same length, same order. *)
Theorem profit_loss_array_pointwise
    (pricer : OptionParams -> number -> number -> outcome number)
    (strategy : Strategy) (ls : list Leg) (timeToExpiry : number)
    (stockPrices profits : list number) :
  calculateProfitLossArray pricer strategy ls stockPrices timeToExpiry = Ret profits
  <-> Forall2
        (fun price pl =>
           calculateProfitLoss pricer strategy ls price timeToExpiry = Ret pl)
        stockPrices profits.
Proof.
  unfold calculateProfitLossArray. revert profits.
  induction stockPrices as [|price rest IH]; intro profits.
  - cbn [mapM]. split; intro H.
    + injection H as <-. constructor.
    + inversion H. reflexivity.
  - cbn [mapM]. split; intro H.
    + destruct (calculateProfitLoss pricer strategy ls price timeToExpiry)
        as [pl| |] eqn:E; try discriminate.
      cbn [bind] in H.
      destruct (mapM _ rest) as [pls| |] eqn:Er; try discriminate.
      cbn [bind] in H. injection H as <-.
      constructor; [exact E | apply IH; reflexivity].
    + inversion H as [|? pl ? pls Hpl Hrest]; subst.
      rewrite Hpl. cbn [bind]. apply IH in Hrest. rewrite Hrest. reflexivity.
Qed.

(* ===================================================================== *)
(** * Legs beyond the templates *)
(* ===================================================================== *)

Lemma profitLossFrom_firstn
    (pricer : OptionParams -> number -> number -> outcome number)
    (strategy : Strategy) (stockPrice timeToExpiry : number) (ls : list Leg) :
  forall (index : nat) (totalPL : number),
    profitLossFrom pricer strategy stockPrice timeToExpiry ls index totalPL
    = profitLossFrom pricer strategy stockPrice timeToExpiry
        (firstn (List.length (legs strategy) - index) ls) index totalPL.
Proof.
  induction ls as [|leg rest IH]; intros index totalPL.
  - rewrite firstn_nil. reflexivity.
  - cbn [profitLossFrom].
    destruct (nth_error (legs strategy) index) as [strategyLeg|] eqn:E.
    + assert (Hlt : (index < List.length (legs strategy))%nat).
      { apply nth_error_Some. congruence. }
      replace (List.length (legs strategy) - index)%nat
        with (S (List.length (legs strategy) - S index)) by lia.
      cbn [firstn profitLossFrom]. rewrite E.
      destruct (legProfitLoss pricer strategyLeg leg stockPrice timeToExpiry);
        cbn [bind]; [apply IH | reflexivity | reflexivity].
    + apply nth_error_None in E.
      replace (List.length (legs strategy) - index)%nat with 0%nat by lia.
      cbn [firstn profitLossFrom]. rewrite IH.
      replace (List.length (legs strategy) - S index)%nat with 0%nat by lia.
      reflexivity.
Qed.

Lemma netPremiumFrom_firstn (strategy : Strategy) (ls : list Leg) :
  forall (index : nat) (netPremium : number),
    netPremiumFrom strategy ls index netPremium
    = netPremiumFrom strategy
        (firstn (List.length (legs strategy) - index) ls) index netPremium.
Proof.
  induction ls as [|leg rest IH]; intros index netPremium.
  - rewrite firstn_nil. reflexivity.
  - cbn [netPremiumFrom].
    destruct (nth_error (legs strategy) index) as [strategyLeg|] eqn:E.
    + assert (Hlt : (index < List.length (legs strategy))%nat).
      { apply nth_error_Some. congruence. }
      replace (List.length (legs strategy) - index)%nat
        with (S (List.length (legs strategy) - S index)) by lia.
      cbn [firstn netPremiumFrom]. rewrite E.
      destruct (type strategyLeg), (action strategyLeg); apply IH.
    + apply nth_error_None in E.
      replace (List.length (legs strategy) - index)%nat with 0%nat by lia.
      cbn [firstn netPremiumFrom]. rewrite IH.
      replace (List.length (legs strategy) - S index)%nat with 0%nat by lia.
      reflexivity.
Qed.

(** A leg beyond the strategy's templates is never read: the profit or
    loss (at any time to expiry) and the net premium are those of the first
    [strategy.legs.length] legs. *)
Theorem surplus_legs_ignored
    (pricer : OptionParams -> number -> number -> outcome number)
    (strategy : Strategy) (ls : list Leg) (stockPrice timeToExpiry : number) :
  let kept := firstn (List.length (legs strategy)) ls in
  calculateProfitLoss pricer strategy ls stockPrice timeToExpiry
  = calculateProfitLoss pricer strategy kept stockPrice timeToExpiry
  /\ calculateNetPremium strategy ls = calculateNetPremium strategy kept.
Proof.
  intro kept. unfold kept, calculateProfitLoss, calculateNetPremium.
  rewrite profitLossFrom_firstn, netPremiumFrom_firstn.
  rewrite Nat.sub_0_r. split; reflexivity.
Qed.

(* ===================================================================== *)
(** * When a leg list is valid *)
(* ===================================================================== *)

Lemma checkStrike_app (leg : Leg) (index : nat) (errs : list string) :
  checkStrike leg index errs = errs ++ checkStrike leg index [].
Proof.
  unfold checkStrike. destruct (_ || _)%bool; [reflexivity|].
  rewrite app_nil_r. reflexivity.
Qed.

Lemma checkPremium_app (leg : Leg) (index : nat) (errs : list string) :
  checkPremium leg index errs = errs ++ checkPremium leg index [].
Proof.
  unfold checkPremium. destruct (_ || _)%bool; [reflexivity|].
  rewrite app_nil_r. reflexivity.
Qed.

Lemma validateFrom_app (strategy : Strategy) (ls : list Leg) :
  forall (index : nat) (errs : list string),
    validateFrom strategy ls index errs = errs ++ validateFrom strategy ls index [].
Proof.
  induction ls as [|leg rest IH]; intros index errs.
  - rewrite app_nil_r. reflexivity.
  - cbn [validateFrom].
    destruct (nth_error (legs strategy) index) as [strategyLeg|]; [|apply IH].
    destruct (type strategyLeg); try apply IH;
      rewrite IH, (IH _ (checkPremium _ _ _));
      rewrite checkPremium_app, checkStrike_app,
        (checkPremium_app _ _ (checkStrike _ _ [])), (checkStrike_app _ _ []);
      cbn [app]; rewrite <- !app_assoc; reflexivity.
Qed.

Lemma checkStrike_passes (leg : Leg) (index : nat) :
  checkStrike leg index [] = [] <-> positiveValue (strike leg).
Proof.
  unfold checkStrike, positiveValue.
  destruct (strike leg) as [[q| | |]|]; cbn [JS.not truthy toNumber JS.le negb orb].
  - unfold is_zero. destruct (Qeq_bool q 0) eqn:E0; cbn [negb orb].
    + apply Qeq_bool_eq in E0. split; [discriminate|].
      intros [x [Hx Hpos]]. injection Hx as <-. cbn [JS.lt] in Hpos.
      apply Qlt_bool_iff in Hpos. lra.
    + destruct (Qle_bool q 0) eqn:E1.
      * apply Qle_bool_iff in E1. split; [discriminate|].
        intros [x [Hx Hpos]]. injection Hx as <-. cbn [JS.lt] in Hpos.
        apply Qlt_bool_iff in Hpos. lra.
      * apply Qle_bool_false_iff in E1. split; [|reflexivity].
        intros _. exists (Num q). split; [reflexivity|].
        apply Qlt_bool_iff. exact E1.
  - split; [|reflexivity]. intros _. exists PosInf. split; reflexivity.
  - split; [discriminate|]. intros [x [Hx Hpos]]. injection Hx as <-. discriminate.
  - split; [discriminate|]. intros [x [Hx Hpos]]. injection Hx as <-. discriminate.
  - split; [discriminate|]. intros [x [Hx Hpos]]. discriminate.
Qed.

Lemma checkPremium_passes (leg : Leg) (index : nat) :
  checkPremium leg index [] = [] <-> positiveValue (premium leg).
Proof.
  unfold checkPremium, positiveValue.
  destruct (premium leg) as [[q| | |]|]; cbn [JS.not truthy toNumber JS.lt negb orb].
  - unfold is_zero. destruct (Qeq_bool q 0) eqn:E0; cbn [negb orb].
    + apply Qeq_bool_eq in E0. split; [discriminate|].
      intros [x [Hx Hpos]]. injection Hx as <-. cbn [JS.lt] in Hpos.
      apply Qlt_bool_iff in Hpos. lra.
    + apply Qeq_bool_neq in E0. destruct (Qlt_bool q 0) eqn:E1.
      * apply Qlt_bool_iff in E1. split; [discriminate|].
        intros [x [Hx Hpos]]. injection Hx as <-. cbn [JS.lt] in Hpos.
        apply Qlt_bool_iff in Hpos. lra.
      * apply Qlt_bool_false_iff in E1. split; [|reflexivity].
        intros _. exists (Num q). split; [reflexivity|].
        apply Qlt_bool_iff.
        destruct (Qlt_le_dec 0 q) as [H|H]; [exact H|].
        exfalso. apply E0. lra.
  - split; [|reflexivity]. intros _. exists PosInf. split; reflexivity.
  - split; [discriminate|]. intros [x [Hx Hpos]]. injection Hx as <-. discriminate.
  - split; [discriminate|]. intros [x [Hx Hpos]]. injection Hx as <-. discriminate.
  - split; [discriminate|]. intros [x [Hx Hpos]]. discriminate.
Qed.

(** The per-leg checks push nothing exactly when every leg that faces an
    option template has a strike and a premium strictly above 0. *)
Lemma validateFrom_clean_iff (strategy : Strategy) (ls : list Leg) :
  forall index : nat,
    validateFrom strategy ls index [] = []
    <-> (forall i strategyLeg leg,
            nth_error (legs strategy) (index + i) = Some strategyLeg ->
            nth_error ls i = Some leg ->
            type strategyLeg <> stock ->
            positiveValue (strike leg) /\ positiveValue (premium leg)).
Proof.
  induction ls as [|leg rest IH]; intro index.
  - split; [|reflexivity]. intros _ [|i] sl leg' _ H; discriminate.
  - assert (Hshift : forall i, (S index + i = index + S i)%nat) by (intro; lia).
    cbn [validateFrom].
    destruct (nth_error (legs strategy) index) as [strategyLeg|] eqn:E.
    + destruct (type strategyLeg) eqn:Et.
      1,2: rewrite validateFrom_app, checkPremium_app; split;
        [ intro H; apply app_eq_nil in H as [H1 Hrest];
          apply app_eq_nil in H1 as [Hs Hp];
          intros [|i] sl leg' H1 H2 H3;
          [ rewrite Nat.add_0_r in H1; cbn in H2; injection H2 as <-;
            split; [eapply checkStrike_passes; exact Hs
                   | eapply checkPremium_passes; exact Hp]
          | apply (IH (S index)) with (i := i) (strategyLeg := sl);
            [exact Hrest | rewrite Hshift; exact H1 | exact H2 | exact H3] ]
        | intro H;
          destruct (H 0%nat strategyLeg leg) as [Hs Hp];
          [ rewrite Nat.add_0_r; exact E | reflexivity | congruence |];
          apply (checkStrike_passes leg index) in Hs;
          apply (checkPremium_passes leg index) in Hp;
          rewrite Hs, Hp; cbn [app]; apply IH;
          intros i sl leg' H1 H2 H3; apply (H (S i) sl);
          [rewrite <- Hshift; exact H1 | exact H2 | exact H3] ].
      rewrite IH. split; intro H.
      * intros [|i] sl leg' H1 H2 H3.
        -- rewrite Nat.add_0_r in H1. congruence.
        -- apply (H i sl); [rewrite Hshift; exact H1 | exact H2 | exact H3].
      * intros i sl leg' H1 H2 H3. apply (H (S i) sl);
          [rewrite <- Hshift; exact H1 | exact H2 | exact H3].
    + rewrite IH. split; intro H.
      * intros [|i] sl leg' H1 H2 H3.
        -- rewrite Nat.add_0_r in H1. congruence.
        -- apply (H i sl); [rewrite Hshift; exact H1 | exact H2 | exact H3].
      * intros i sl leg' H1 H2 H3. apply (H (S i) sl);
          [rewrite <- Hshift; exact H1 | exact H2 | exact H3].
Qed.

(** [validateStrategy] answers [isValid = true] exactly when the number of
    legs is the number of templates and every leg that faces an option
    template has a strike and a premium that are present and strictly above
    0 ([Infinity] included; 0, NaN and negative values excluded).  Stock
    legs are not inspected.  Without a strategy the answer is never valid. *)
Theorem validateStrategy_valid_iff (strategy : Strategy) (ls : list Leg) :
  (isValid (validateStrategy (Some strategy) ls) = true
   <-> (List.length ls = List.length (legs strategy)
        /\ forall i strategyLeg leg,
             nth_error (legs strategy) i = Some strategyLeg ->
             nth_error ls i = Some leg ->
             type strategyLeg <> stock ->
             positiveValue (strike leg) /\ positiveValue (premium leg)))
  /\ isValid (validateStrategy None ls) = false.
Proof.
  split; [|reflexivity].
  unfold validateStrategy. cbn [isValid]. rewrite validateFrom_app.
  rewrite Nat.eqb_eq, length_zero_iff_nil.
  destruct (Nat.eqb (List.length ls) (List.length (legs strategy))) eqn:El;
    cbn [negb app].
  - apply Nat.eqb_eq in El. rewrite (validateFrom_clean_iff strategy ls 0).
    cbn [Nat.add]. tauto.
  - apply Nat.eqb_neq in El. split; [discriminate | tauto].
Qed.

(** When the legs supplied are individually acceptable, the only possible
    complaint is the count: the result is valid if the counts agree, and
    otherwise carries exactly one error, the leg-count message. *)
Theorem validateStrategy_count_only (strategy : Strategy) (ls : list Leg) :
  (forall i strategyLeg leg,
      nth_error (legs strategy) i = Some strategyLeg ->
      nth_error ls i = Some leg ->
      type strategyLeg <> stock ->
      positiveValue (strike leg) /\ positiveValue (premium leg)) ->
  validateStrategy (Some strategy) ls
  = if Nat.eqb (List.length ls) (List.length (legs strategy))
    then mkValidationResult true []
    else mkValidationResult false [msgLegCount].
Proof.
  intro Hok. unfold validateStrategy. rewrite validateFrom_app.
  assert (Hclean : validateFrom strategy ls 0 [] = []).
  { apply validateFrom_clean_iff. exact Hok. }
  rewrite Hclean, app_nil_r.
  destruct (Nat.eqb (List.length ls) (List.length (legs strategy))); reflexivity.
Qed.

Lemma validateStrategy_count_only_witness :
  validateStrategy (Some Catalog.bull_call_spread) [optionLeg 100 5]
  = mkValidationResult false [msgLegCount].
Proof.
  apply (validateStrategy_count_only Catalog.bull_call_spread [optionLeg 100 5]).
  intros [|i] strategyLeg leg H1 H2 H3.
  - injection H2 as <-. split; eexists; split; reflexivity.
  - destruct i; discriminate.
Defined.

(* ===================================================================== *)
(** * Prices that are not positive *)
(* ===================================================================== *)

Lemma generatePriceRange_zero_price (rf : Q) (fuel : nat) :
  generatePriceRange fuel (Num 0) (Num rf) = OutOfFuel.
Proof.
  rewrite generatePriceRange_unfold. apply priceLoop_stuck.
  - pose proof (stepQ_eq 0 rf) as Hs.
    assert (Hz : 0 * (rf - 1) == 0) by ring. rewrite Hz in Hs. lra.
  - rewrite minPriceQ_eq, maxPriceQ_eq.
    assert (Hz : 0 * (2 - rf) == 0 * rf) by ring. rewrite Hz. lra.
Qed.

(** With a current price of 0 the loop of [generatePriceRange] has bounds
    0 and 0 and step 0: for every finite range factor and every amount of
    fuel it is still running, and so are [findBreakevens],
    [calculateMaxProfit] and [calculateMaxLoss], whatever the strategy and
    the legs. *)
Theorem zero_price_never_returns
    (pricer : OptionParams -> number -> number -> outcome number)
    (strategy : Strategy) (ls : list Leg) (rf : Q) (fuel : nat) :
  generatePriceRange fuel (Num 0) (Num rf) = OutOfFuel
  /\ findBreakevens pricer fuel strategy ls (Num 0) = OutOfFuel
  /\ calculateMaxProfit pricer fuel strategy ls (Num 0) = OutOfFuel
  /\ calculateMaxLoss pricer fuel strategy ls (Num 0) = OutOfFuel.
Proof.
  split; [apply generatePriceRange_zero_price|].
  unfold findBreakevens, calculateMaxProfit, calculateMaxLoss, defaultRangeFactor.
  rewrite !generatePriceRange_zero_price. repeat split.
Qed.




(* ===================================================================== *)
(** * Validation of a default leg *)
(* ===================================================================== *)

Lemma Qfloor_pos_iff (x : Q) : (0 < Qfloor x)%Z <-> 1 <= x.
Proof.
  split; intro H.
  - pose proof (Qfloor_le x) as Hle.
    assert (H1 : inject_Z 1 <= inject_Z (Qfloor x)) by (rewrite <- Zle_Qle; lia).
    change (inject_Z 1) with 1 in H1. lra.
  - apply Qfloor_resp_le in H. change (Qfloor 1) with 1%Z in H. lia.
Qed.

Lemma positiveValue_inject_Z (z : Z) :
  positiveValue (Some (Num (inject_Z z))) <-> (0 < z)%Z.
Proof.
  unfold positiveValue. split.
  - intros [x [Hx Hpos]]. injection Hx as <-. cbn [JS.lt] in Hpos.
    apply Qlt_bool_iff in Hpos. change 0 with (inject_Z 0) in Hpos.
    rewrite <- Zlt_Qlt in Hpos. exact Hpos.
  - intro H. eexists. split; [reflexivity|]. cbn [JS.lt].
    apply Qlt_bool_iff. change 0 with (inject_Z 0). rewrite <- Zlt_Qlt. exact H.
Qed.

Lemma positiveValue_centsQ (p : Q) :
  positiveValue (Some (Num (centsQ p))) <-> (1 # 200) <= p.
Proof.
  assert (Hc : 0 < centsQ p <-> (0 < Qfloor (Qred (p * 100) + (1 # 2)))%Z).
  { unfold centsQ. rewrite Qred_correct. split; intro H.
    - destruct (Z_lt_le_dec 0 (Qfloor (Qred (p * 100) + (1 # 2)))) as [Hz|Hz];
        [exact Hz|].
      exfalso. rewrite Zle_Qle in Hz. change (inject_Z 0) with 0 in Hz.
      assert (Hd : inject_Z (Qfloor (Qred (p * 100) + (1 # 2))) / 100 <= 0).
      { apply Qle_shift_div_r; [reflexivity | lra]. }
      lra.
    - rewrite Zlt_Qlt in H. change (inject_Z 0) with 0 in H.
      apply Qlt_shift_div_l; [reflexivity | lra]. }
  unfold positiveValue. split.
  - intros [x [Hx Hpos]]. injection Hx as <-. cbn [JS.lt] in Hpos.
    apply Qlt_bool_iff in Hpos. apply Hc in Hpos. apply Qfloor_pos_iff in Hpos.
    rewrite Qred_correct in Hpos. lra.
  - intro H. eexists. split; [reflexivity|]. cbn [JS.lt].
    apply Qlt_bool_iff, Hc, Qfloor_pos_iff. rewrite Qred_correct. lra.
Qed.

(** When the defaults of an option leg pass validation.  The leg built by
    [generateDefaultLegs] from current price [cp], strike offset [off] and a
    theoretical price [p] passes the strike check of [validateStrategy]
    exactly when [cp + off >= 0.5] (the strike rounds to at least 1), and
    passes the premium check exactly when [p >= 0.005] (the premium rounds
    to at least one cent): the defaults of an option priced under half a
    cent are rejected. *)
Theorem default_leg_acceptance
    (pricer : OptionParams -> number -> number -> outcome number)
    (cp : Q) (marketParams : MarketParams) (timeToExpiry : number)
    (strategyLeg : StrategyLeg) (off p : Q) (index : nat) :
  type strategyLeg <> stock ->
  or_default (strikeOffset strategyLeg) (Num 0) = Num off ->
  pricer
    (mkOptionParams (type strategyLeg) (Some (JS.round (Num cp + Num off)))
       timeToExpiry
       (mp_riskFreeRate marketParams / Num 100)%js
       (mp_volatility marketParams / Num 100)%js)
    (Num cp) timeToExpiry = Ret (Num p) ->
  exists dl : DefaultLeg,
    generateDefaultLeg pricer (Num cp) marketParams timeToExpiry strategyLeg = Ret dl
    /\ (checkStrike (dl_fields dl) index [] = [] <-> (1 # 2) <= cp + off)
    /\ (checkPremium (dl_fields dl) index [] = [] <-> (1 # 200) <= p).
Proof.
  intros Hty Hoff Hp. unfold generateDefaultLeg. rewrite Hoff.
  destruct (type strategyLeg) eqn:Et; [| |congruence];
    rewrite Hp; cbn [bind]; rewrite round2_Num;
    eexists; (split; [reflexivity|]);
    rewrite checkStrike_passes, checkPremium_passes;
    cbn [dl_fields strike premium JS.add JS.round];
    rewrite positiveValue_inject_Z, positiveValue_centsQ, Qfloor_pos_iff,
      Qred_correct;
    (split; [split; intro H; lra | reflexivity]).
Qed.

Lemma default_leg_acceptance_witness :
  let marketParams := mkMarketParams (Num 100) (Num 25) (Num 5) (Num 30) in
  let strategyLeg := Catalog.tl0 buy call 1 in
  let T := Num (30 # 365) in
  (type strategyLeg <> stock
   /\ or_default (strikeOffset strategyLeg) (Num 0) = Num 0
   /\ constantPricer 0.004
        (mkOptionParams (type strategyLeg) (Some (JS.round (Num 100 + Num 0))) T
           (mp_riskFreeRate marketParams / Num 100)%js
           (mp_volatility marketParams / Num 100)%js)
        (Num 100) T = Ret (Num 0.004))
  /\ exists dl : DefaultLeg,
       generateDefaultLeg (constantPricer 0.004) (Num 100) marketParams T strategyLeg
       = Ret dl
       /\ (checkStrike (dl_fields dl) 0 [] = [] <-> (1 # 2) <= 100 + 0)
       /\ (checkPremium (dl_fields dl) 0 [] = [] <-> (1 # 200) <= 0.004).
Proof.
  intros marketParams strategyLeg T.
  split; [split; [discriminate | split; reflexivity]|].
  apply (default_leg_acceptance (constantPricer 0.004) 100 marketParams T
           strategyLeg 0 0.004 0).
  - discriminate.
  - reflexivity.
  - reflexivity.
Defined.

(* ===================================================================== *)
(** * Valuation before expiration *)
(* ===================================================================== *)

Lemma legProfitLoss_no_OutOfFuel_stock
    (pricer : OptionParams -> number -> number -> outcome number)
    (strategyLeg : StrategyLeg) (leg : Leg) (stockPrice timeToExpiry : number) :
  type strategyLeg = stock ->
  exists v, legProfitLoss pricer strategyLeg leg stockPrice timeToExpiry = Ret v.
Proof.
  intro Hty. unfold legProfitLoss. rewrite Hty.
  destruct (action strategyLeg); eexists; reflexivity.
Qed.

Lemma profitLossFrom_throws
    (pricer : OptionParams -> number -> number -> outcome number)
    (strategy : Strategy) (stockPrice timeToExpiry : number) (msg : string)
    (ls : list Leg) :
  (forall o s t, pricer o s t = Throw msg) ->
  (timeToExpiry === Num 0)%js = false ->
  forall (index : nat) (totalPL : number),
    (exists i strategyLeg leg,
        nth_error (legs strategy) (index + i) = Some strategyLeg
        /\ nth_error ls i = Some leg
        /\ type strategyLeg <> stock) ->
    profitLossFrom pricer strategy stockPrice timeToExpiry ls index totalPL
    = Throw msg.
Proof.
  intros Hthrow HT.
  induction ls as [|leg rest IH]; intros index totalPL [i [sl [leg' [H1 [H2 Hty]]]]].
  - destruct i; discriminate.
  - cbn [profitLossFrom].
    assert (Hopt : forall strategyLeg,
               type strategyLeg <> stock ->
               legProfitLoss pricer strategyLeg leg stockPrice timeToExpiry
               = Throw msg).
    { intros strategyLeg Hs. unfold legProfitLoss. rewrite HT, Hthrow.
      destruct (type strategyLeg); [reflexivity | reflexivity | congruence]. }
    destruct i as [|i].
    + rewrite Nat.add_0_r in H1. rewrite H1, (Hopt sl Hty). reflexivity.
    + assert (Hrest : exists i0 strategyLeg leg0,
                 nth_error (legs strategy) (S index + i0) = Some strategyLeg
                 /\ nth_error rest i0 = Some leg0 /\ type strategyLeg <> stock).
      { exists i, sl, leg'. split; [|split; [exact H2 | exact Hty]].
        rewrite <- H1. f_equal. lia. }
      destruct (nth_error (legs strategy) index) as [strategyLeg|];
        [|apply IH; exact Hrest].
      destruct (type strategyLeg) eqn:Et.
      * rewrite Hopt by congruence. reflexivity.
      * rewrite Hopt by congruence. reflexivity.
      * destruct (legProfitLoss_no_OutOfFuel_stock pricer strategyLeg leg
                    stockPrice timeToExpiry Et) as [v Hv].
        rewrite Hv. cbn [bind]. apply IH. exact Hrest.
Qed.

(** An exception of the pricer aborts the valuation: before expiration
    ([timeToExpiry] other than 0), if the pricer throws and the position
    has an option leg, [calculateProfitLoss] throws the same exception at
    every price and [calculateProfitLossArray] throws it for every
    non-empty list of prices; no partial sum or partial curve is
    returned. *)
Theorem pricer_exception_propagates
    (pricer : OptionParams -> number -> number -> outcome number)
    (strategy : Strategy) (ls : list Leg) (timeToExpiry : number) (msg : string) :
  (forall o s t, pricer o s t = Throw msg) ->
  (timeToExpiry === Num 0)%js = false ->
  (exists i strategyLeg leg,
      nth_error (legs strategy) i = Some strategyLeg
      /\ nth_error ls i = Some leg
      /\ type strategyLeg <> stock) ->
  (forall stockPrice : number,
      calculateProfitLoss pricer strategy ls stockPrice timeToExpiry = Throw msg)
  /\ (forall (stockPrice : number) (rest : list number),
        calculateProfitLossArray pricer strategy ls (stockPrice :: rest) timeToExpiry
        = Throw msg).
Proof.
  intros Hthrow HT Hopt.
  assert (Hone : forall stockPrice : number,
             calculateProfitLoss pricer strategy ls stockPrice timeToExpiry
             = Throw msg).
  { intro stockPrice. apply profitLossFrom_throws; assumption. }
  split; [exact Hone|].
  intros stockPrice rest. unfold calculateProfitLossArray. cbn [mapM].
  rewrite Hone. reflexivity.
Qed.

Lemma pricer_exception_propagates_witness :
  (forall o s t, failingPricer "no pricer" o s t = Throw "no pricer")
  /\ (Num (30 # 365) === Num 0)%js = false
  /\ (exists i strategyLeg leg,
         nth_error (legs Catalog.covered_call) i = Some strategyLeg
         /\ nth_error [stockLeg 100; optionLeg 105 3] i = Some leg
         /\ type strategyLeg <> stock)
  /\ (forall stockPrice : number,
         calculateProfitLoss (failingPricer "no pricer") Catalog.covered_call
           [stockLeg 100; optionLeg 105 3] stockPrice (Num (30 # 365))
         = Throw "no pricer")
  /\ (forall (stockPrice : number) (rest : list number),
         calculateProfitLossArray (failingPricer "no pricer") Catalog.covered_call
           [stockLeg 100; optionLeg 105 3] (stockPrice :: rest) (Num (30 # 365))
         = Throw "no pricer").
Proof.
  assert (Hopt : exists i strategyLeg leg,
             nth_error (legs Catalog.covered_call) i = Some strategyLeg
             /\ nth_error [stockLeg 100; optionLeg 105 3] i = Some leg
             /\ type strategyLeg <> stock).
  { exists 1%nat. eexists. eexists. split; [reflexivity|]. split; [reflexivity|].
    discriminate. }
  split; [reflexivity|]. split; [reflexivity|]. split; [exact Hopt|].
  apply (pricer_exception_propagates (failingPricer "no pricer") Catalog.covered_call
           [stockLeg 100; optionLeg 105 3] (Num (30 # 365)) "no pricer").
  - reflexivity.
  - reflexivity.
  - exact Hopt.
Defined.

(* ===================================================================== *)
(** * Binary64: comparisons *)
(* ===================================================================== *)

Section DoubleOrder.

Import PrimFloat SpecFloat FloatOps FloatAxioms.
Local Open Scope float_scope.
Set Warnings "-inexact-float".

(** [Math.round], [Math.max] and [Math.min] on the cases that set them
    apart from ordinary rounding and comparison. *)
Lemma b64_round_examples :
  B64.round 2.5 = 3 /\ B64.round (-2.5) = -2
  /\ B64.round 0.49999999999999994 = zero
  /\ B64.round 0.3 = zero /\ B64.round (-0.2) = neg_zero
  /\ B64.round (-0.5) = neg_zero
  /\ B64.round 102.49999999999999 = 102
  /\ B64.round 1e300 = 1e300
  /\ B64.round infinity = infinity /\ B64.round nan = nan.
Proof. repeat split. Qed.

Lemma b64_extrema_examples :
  B64.max_list [] = neg_infinity /\ B64.min_list [] = infinity
  /\ B64.max_list [neg_zero; zero] = zero /\ B64.max_list [zero; neg_zero] = zero
  /\ B64.min_list [zero; neg_zero] = neg_zero
  /\ B64.min_list [neg_zero; zero] = neg_zero
  /\ B64.max_list [1; nan; 2] = nan /\ B64.min_list [1; nan; 2] = nan
  /\ B64.max (-3) 0 = 0.
Proof. repeat split. Qed.

Lemma SFcompare_refl (a : spec_float) : a <> S754_nan -> SFcompare a a = Some Eq.
Proof.
  destruct a as [s|s| |s m e]; intro H; try congruence; simpl.
  - reflexivity.
  - destruct s; reflexivity.
  - rewrite Z.compare_refl, Pos.compare_cont_refl. destruct s; reflexivity.
Qed.

Lemma SFcompare_swap (a b : spec_float) :
  SFcompare b a = option_map CompOpp (SFcompare a b).
Proof.
  destruct a as [s1|s1| |s1 m1 e1], b as [s2|s2| |s2 m2 e2]; simpl;
    try reflexivity;
    try (destruct s1; reflexivity); try (destruct s2; reflexivity);
    try (destruct s1, s2; reflexivity).
  destruct s1, s2; simpl; try reflexivity;
    rewrite (Z.compare_antisym e1 e2);
    destruct (e1 ?= e2)%Z; simpl; try reflexivity;
    fold (Pos.compare m2 m1); fold (Pos.compare m1 m2);
    rewrite (Pos.compare_antisym m1 m2); try reflexivity.
Qed.

Lemma SFcompare_None (a b : spec_float) :
  SFcompare a b = None <-> a = S754_nan \/ b = S754_nan.
Proof.
  destruct a as [s1|s1| |s1 m1 e1], b as [s2|s2| |s2 m2 e2]; simpl;
    split; intro H; try discriminate; try (left; reflexivity);
    try (right; reflexivity); try reflexivity;
    destruct H; discriminate.
Qed.

Ltac compare_cases :=
  repeat match goal with
  | |- context [(?x ?= ?y)%Z] => destruct (Z.compare_spec x y)
  | H : context [(?x ?= ?y)%Z] |- _ => destruct (Z.compare_spec x y)
  | |- context [Pos.compare_cont Eq ?x ?y] =>
      change (Pos.compare_cont Eq x y) with (Pos.compare x y);
      destruct (Pos.compare_spec x y)
  | H : context [Pos.compare_cont Eq ?x ?y] |- _ =>
      change (Pos.compare_cont Eq x y) with (Pos.compare x y) in H;
      destruct (Pos.compare_spec x y)
  end.

Lemma SFleb_trans (a b c : spec_float) :
  SFleb a b = true -> SFleb b c = true -> SFleb a c = true.
Proof.
  unfold SFleb.
  destruct a as [s1|s1| |s1 m1 e1], b as [s2|s2| |s2 m2 e2],
           c as [s3|s3| |s3 m3 e3]; simpl;
    intros H1 H2; try discriminate; try reflexivity;
    repeat match goal with s : bool |- _ => destruct s end;
    simpl in *; try discriminate; try reflexivity;
    compare_cases; simpl in *; try discriminate; subst;
    try reflexivity; try lia.
Qed.

(** The three outcomes of a comparison of doubles. *)
Lemma b64_compare_cases (x y : float) :
  match SFcompare (Prim2SF x) (Prim2SF y) with
  | Some Lt => (x <? y) = true /\ (x <=? y) = true /\ (x =? y) = false
               /\ (y <? x) = false /\ (y <=? x) = false /\ (y =? x) = false
  | Some Eq => (x <? y) = false /\ (x <=? y) = true /\ (x =? y) = true
               /\ (y <? x) = false /\ (y <=? x) = true /\ (y =? x) = true
  | Some Gt => (x <? y) = false /\ (x <=? y) = false /\ (x =? y) = false
               /\ (y <? x) = true /\ (y <=? x) = true /\ (y =? x) = false
  | None => (x <? y) = false /\ (x <=? y) = false /\ (x =? y) = false
            /\ (y <? x) = false /\ (y <=? x) = false /\ (y =? x) = false
  end.
Proof.
  rewrite !ltb_spec, !leb_spec, !eqb_spec. unfold SFltb, SFleb, SFeqb.
  rewrite (SFcompare_swap (Prim2SF x) (Prim2SF y)).
  destruct (SFcompare (Prim2SF x) (Prim2SF y)) as [[| |]|]; cbn; repeat split.
Qed.

Lemma b64_is_nan_spec (x : float) : is_nan x = true <-> Prim2SF x = S754_nan.
Proof.
  unfold is_nan. rewrite eqb_spec. unfold SFeqb. split.
  - intro H. destruct (Prim2SF x) eqn:E; try reflexivity;
      rewrite SFcompare_refl in H by discriminate; discriminate.
  - intros ->. reflexivity.
Qed.

Lemma b64_is_nan_eq (x : float) : is_nan x = true -> x = nan.
Proof.
  intro H. apply Prim2SF_inj. apply b64_is_nan_spec in H. rewrite H. reflexivity.
Qed.

Lemma b64_notNaN_compare (x y : float) :
  B64.notNaN x -> B64.notNaN y ->
  exists c, SFcompare (Prim2SF x) (Prim2SF y) = Some c.
Proof.
  unfold B64.notNaN. intros Hx Hy.
  destruct (SFcompare (Prim2SF x) (Prim2SF y)) as [c|] eqn:E; [exists c; reflexivity|].
  apply SFcompare_None in E. destruct E as [E|E];
    apply b64_is_nan_spec in E; congruence.
Qed.

Lemma b64_leb_refl (x : float) : B64.notNaN x -> (x <=? x) = true.
Proof.
  unfold B64.notNaN. intro H. rewrite leb_spec. unfold SFleb.
  rewrite SFcompare_refl; [reflexivity|].
  intro E. apply b64_is_nan_spec in E. congruence.
Qed.

Lemma b64_leb_trans (x y z : float) :
  (x <=? y) = true -> (y <=? z) = true -> (x <=? z) = true.
Proof. rewrite !leb_spec. apply SFleb_trans. Qed.

Lemma b64_ltb_leb (x y : float) : (x <? y) = true -> (x <=? y) = true.
Proof.
  pose proof (b64_compare_cases x y) as H.
  destruct (SFcompare _ _) as [[| |]|]; intuition congruence.
Qed.

Lemma b64_ltb_not_leb (x y : float) : (x <? y) = true -> (y <=? x) = false.
Proof.
  pose proof (b64_compare_cases x y) as H.
  destruct (SFcompare _ _) as [[| |]|]; intuition congruence.
Qed.

(** Two numbers that are not NaN are comparable. *)
Lemma b64_leb_total (x y : float) :
  B64.notNaN x -> B64.notNaN y -> (x <? y) = false -> (y <=? x) = true.
Proof.
  intros Hx Hy. destruct (b64_notNaN_compare x y Hx Hy) as [c E].
  pose proof (b64_compare_cases x y) as H. rewrite E in H.
  destruct c; intuition congruence.
Qed.

Lemma b64_eqb_leb (x y : float) :
  (x =? y) = true <-> (x <=? y) = true /\ (y <=? x) = true.
Proof.
  pose proof (b64_compare_cases x y) as H.
  destruct (SFcompare _ _) as [[| |]|]; intuition congruence.
Qed.

Lemma b64_leb_notNaN (x y : float) :
  (x <=? y) = true -> B64.notNaN x /\ B64.notNaN y.
Proof.
  intro H. unfold B64.notNaN.
  split; destruct (is_nan _) eqn:E; try reflexivity;
    apply b64_is_nan_spec in E; rewrite leb_spec in H; unfold SFleb in H;
    rewrite E in H; [|destruct (Prim2SF x)]; discriminate.
Qed.

Lemma b64_finite_notNaN (x : float) : B64.finite x -> B64.notNaN x.
Proof.
  unfold B64.finite, B64.notNaN, is_finite. intro H.
  apply negb_true_iff, orb_false_iff in H. tauto.
Qed.

(** A finite number lies strictly between the infinities. *)
Lemma b64_finite_bounds (x : float) :
  B64.finite x -> (x <? infinity) = true /\ (neg_infinity <? x) = true.
Proof.
  unfold B64.finite, is_finite, is_infinity. intro H.
  apply negb_true_iff, orb_false_iff in H. destruct H as [Hn Hi].
  assert (Hx : Prim2SF x <> S754_nan).
  { intro E. apply b64_is_nan_spec in E. congruence. }
  rewrite eqb_spec, abs_spec in Hi. rewrite !ltb_spec.
  change (Prim2SF infinity) with (S754_infinity false) in *.
  change (Prim2SF neg_infinity) with (S754_infinity true).
  destruct (Prim2SF x) as [s|s| |s m e]; try congruence;
    try (destruct s; split; reflexivity).
  discriminate.
Qed.

End DoubleOrder.

(* ===================================================================== *)
(** * Binary64: [Math.min] and [Math.max] of the samples *)
(* ===================================================================== *)

Section DoubleExtrema.

Import PrimFloat SpecFloat FloatOps FloatAxioms.
Local Open Scope float_scope.

Lemma b64_neg_zero_eq (x : float) : B64.is_neg_zero x = true -> x = neg_zero.
Proof. apply Leibniz.eqb_spec. Qed.

Lemma b64_pos_zero_eq (x : float) : B64.is_pos_zero x = true -> x = zero.
Proof. apply Leibniz.eqb_spec. Qed.

Lemma b64_min_step_props (lowest x : float) :
  B64.notNaN lowest -> B64.notNaN x ->
  B64.notNaN (B64.min_step lowest x)
  /\ (B64.min_step lowest x = lowest \/ B64.min_step lowest x = x)
  /\ (B64.min_step lowest x <=? lowest) = true
  /\ (B64.min_step lowest x <=? x) = true.
Proof.
  intros Hl Hx. unfold B64.min_step. rewrite Hl, Hx. cbn [orb].
  destruct (B64.is_neg_zero x && B64.is_pos_zero lowest) eqn:Ez.
  - apply andb_true_iff in Ez as [E1 E2].
    apply b64_neg_zero_eq in E1. apply b64_pos_zero_eq in E2. subst.
    repeat split; try reflexivity. right. reflexivity.
  - destruct (x <? lowest) eqn:E.
    + split; [exact Hx|]. split; [right; reflexivity|].
      split; [apply b64_ltb_leb; exact E | apply b64_leb_refl; exact Hx].
    + split; [exact Hl|]. split; [left; reflexivity|].
      split; [apply b64_leb_refl; exact Hl | apply b64_leb_total; assumption].
Qed.

Lemma b64_max_step_props (highest x : float) :
  B64.notNaN highest -> B64.notNaN x ->
  B64.notNaN (B64.max_step highest x)
  /\ (B64.max_step highest x = highest \/ B64.max_step highest x = x)
  /\ (highest <=? B64.max_step highest x) = true
  /\ (x <=? B64.max_step highest x) = true.
Proof.
  intros Hh Hx. unfold B64.max_step. rewrite Hh, Hx. cbn [orb].
  destruct (B64.is_pos_zero x && B64.is_neg_zero highest) eqn:Ez.
  - apply andb_true_iff in Ez as [E1 E2].
    apply b64_pos_zero_eq in E1. apply b64_neg_zero_eq in E2. subst.
    repeat split; try reflexivity. right. reflexivity.
  - destruct (highest <? x) eqn:E.
    + split; [exact Hx|]. split; [right; reflexivity|].
      split; [apply b64_ltb_leb; exact E | apply b64_leb_refl; exact Hx].
    + split; [exact Hh|]. split; [left; reflexivity|].
      split; [apply b64_leb_refl; exact Hh | apply b64_leb_total; assumption].
Qed.

Lemma b64_fold_min_spec (xs : list float) :
  Forall B64.notNaN xs ->
  forall acc : float,
    B64.notNaN acc ->
    (fold_left B64.min_step xs acc = acc \/ In (fold_left B64.min_step xs acc) xs)
    /\ (fold_left B64.min_step xs acc <=? acc) = true
    /\ (forall x, In x xs -> (fold_left B64.min_step xs acc <=? x) = true).
Proof.
  induction 1 as [|x xs Hx Hxs IH]; intros acc Hacc.
  - cbn [fold_left]. split; [left; reflexivity|].
    split; [apply b64_leb_refl; exact Hacc | intros x []].
  - cbn [fold_left].
    destruct (b64_min_step_props acc x Hacc Hx) as [Hb [Hsel [Hle1 Hle2]]].
    destruct (IH _ Hb) as [Hin [Hle Hall]].
    split; [|split].
    + destruct Hin as [E|Hin]; [|right; right; exact Hin].
      rewrite E. destruct Hsel as [E'|E']; [left; exact E'|].
      right; left. symmetry. exact E'.
    + exact (b64_leb_trans _ _ _ Hle Hle1).
    + intros y [<-|Hy]; [exact (b64_leb_trans _ _ _ Hle Hle2) | exact (Hall y Hy)].
Qed.

Lemma b64_fold_max_spec (xs : list float) :
  Forall B64.notNaN xs ->
  forall acc : float,
    B64.notNaN acc ->
    (fold_left B64.max_step xs acc = acc \/ In (fold_left B64.max_step xs acc) xs)
    /\ (acc <=? fold_left B64.max_step xs acc) = true
    /\ (forall x, In x xs -> (x <=? fold_left B64.max_step xs acc) = true).
Proof.
  induction 1 as [|x xs Hx Hxs IH]; intros acc Hacc.
  - cbn [fold_left]. split; [left; reflexivity|].
    split; [apply b64_leb_refl; exact Hacc | intros x []].
  - cbn [fold_left].
    destruct (b64_max_step_props acc x Hacc Hx) as [Hb [Hsel [Hle1 Hle2]]].
    destruct (IH _ Hb) as [Hin [Hle Hall]].
    split; [|split].
    + destruct Hin as [E|Hin]; [|right; right; exact Hin].
      rewrite E. destruct Hsel as [E'|E']; [left; exact E'|].
      right; left. symmetry. exact E'.
    + exact (b64_leb_trans _ _ _ Hle1 Hle).
    + intros y [<-|Hy]; [exact (b64_leb_trans _ _ _ Hle2 Hle) | exact (Hall y Hy)].
Qed.

Lemma b64_Forall_finite_notNaN (xs : list float) :
  Forall B64.finite xs -> Forall B64.notNaN xs.
Proof. apply Forall_impl. exact b64_finite_notNaN. Qed.

(** [Math.min(...xs)] of a non-empty list of finite samples is one of the
    samples and is below all of them. *)
Lemma b64_min_list_spec (xs : list float) :
  Forall B64.finite xs -> xs <> [] -> B64.isSampleMin (B64.min_list xs) xs.
Proof.
  intros Hfin Hne. destruct xs as [|x xs]; [congruence|].
  inversion Hfin as [|? ? Hx Hxs]; subst.
  unfold B64.min_list. cbn [fold_left].
  assert (E : B64.min_step infinity x = x).
  { unfold B64.min_step.
    rewrite (b64_finite_notNaN x Hx).
    change (is_nan infinity) with false.
    change (B64.is_pos_zero infinity) with false.
    rewrite andb_false_r. cbn [orb].
    rewrite (proj1 (b64_finite_bounds x Hx)). reflexivity. }
  rewrite E.
  destruct (b64_fold_min_spec xs (b64_Forall_finite_notNaN xs Hxs) x
              (b64_finite_notNaN x Hx)) as [Hin [Hle Hall]].
  split.
  - destruct Hin as [->|Hin]; [left; reflexivity | right; exact Hin].
  - intros y [<-|Hy]; [exact Hle | exact (Hall y Hy)].
Qed.

Lemma b64_max_list_spec (xs : list float) :
  Forall B64.finite xs -> xs <> [] -> B64.isSampleMax (B64.max_list xs) xs.
Proof.
  intros Hfin Hne. destruct xs as [|x xs]; [congruence|].
  inversion Hfin as [|? ? Hx Hxs]; subst.
  unfold B64.max_list. cbn [fold_left].
  assert (E : B64.max_step neg_infinity x = x).
  { unfold B64.max_step.
    rewrite (b64_finite_notNaN x Hx).
    change (is_nan neg_infinity) with false.
    change (B64.is_neg_zero neg_infinity) with false.
    rewrite andb_false_r. cbn [orb].
    rewrite (proj2 (b64_finite_bounds x Hx)). reflexivity. }
  rewrite E.
  destruct (b64_fold_max_spec xs (b64_Forall_finite_notNaN xs Hxs) x
              (b64_finite_notNaN x Hx)) as [Hin [Hle Hall]].
  split.
  - destruct Hin as [->|Hin]; [left; reflexivity | right; exact Hin].
  - intros y [<-|Hy]; [exact Hle | exact (Hall y Hy)].
Qed.

(** A sample is [===] to [Math.min(...xs)] exactly when it is a minimum. *)
Lemma b64_eq_min_list_iff (xs : list float) (e : float) :
  Forall B64.finite xs -> In e xs ->
  ((e =? B64.min_list xs) = true <-> B64.isSampleMin e xs).
Proof.
  intros Hfin He.
  assert (Hne : xs <> []) by (intro E; subst; contradiction).
  destruct (b64_min_list_spec xs Hfin Hne) as [Hm Hall].
  split.
  - intro E. apply b64_eqb_leb in E as [E1 _]. split; [exact He|].
    intros x Hx. exact (b64_leb_trans _ _ _ E1 (Hall x Hx)).
  - intros [_ Hmin]. apply b64_eqb_leb. split; [apply Hmin | apply Hall]; assumption.
Qed.

Lemma b64_eq_max_list_iff (xs : list float) (e : float) :
  Forall B64.finite xs -> In e xs ->
  ((e =? B64.max_list xs) = true <-> B64.isSampleMax e xs).
Proof.
  intros Hfin He.
  assert (Hne : xs <> []) by (intro E; subst; contradiction).
  destruct (b64_max_list_spec xs Hfin Hne) as [Hm Hall].
  split.
  - intro E. apply b64_eqb_leb in E as [_ E2]. split; [exact He|].
    intros x Hx. exact (b64_leb_trans _ _ _ (Hall x Hx) E2).
  - intros [_ Hmax]. apply b64_eqb_leb. split; [apply Hall | apply Hmax]; assumption.
Qed.

Lemma b64_index_In (xs : list float) (i : Z) :
  (0 <= i < Z.of_nat (List.length xs))%Z -> In (B64.index xs i) xs.
Proof.
  intro H. unfold B64.index.
  destruct (i <? 0)%Z eqn:E; [apply Z.ltb_lt in E; lia|].
  apply nth_In. lia.
Qed.

(** The test of [calculateMaxLoss] holds exactly on a curve that is still
    falling at an edge. *)
Lemma b64_falling_test_iff (profits : list float) :
  Forall B64.finite profits -> profits <> [] ->
  let n := Z.of_nat (List.length profits) in
  ((B64.index profits 0 <? B64.index profits 1)
     && (B64.index profits 0 =? B64.min_list profits)
   || (B64.index profits (n - 1) <? B64.index profits (n - 2))
      && (B64.index profits (n - 1) =? B64.min_list profits)) = true
  <-> B64.EdgeFalling profits.
Proof.
  intros Hfin Hne n. unfold B64.EdgeFalling. fold n.
  assert (Hlen : (1 <= List.length profits)%nat).
  { destruct profits; [congruence | cbn; lia]. }
  assert (H0 : In (B64.index profits 0) profits) by (apply b64_index_In; lia).
  assert (Hl : In (B64.index profits (n - 1)) profits) by (apply b64_index_In; lia).
  rewrite orb_true_iff, !andb_true_iff.
  rewrite (b64_eq_min_list_iff profits _ Hfin H0),
          (b64_eq_min_list_iff profits _ Hfin Hl).
  tauto.
Qed.

(** The test of [calculateMaxProfit] holds exactly on a curve that is still
    rising at its right edge. *)
Lemma b64_rising_test_iff (profits : list float) :
  Forall B64.finite profits -> profits <> [] ->
  let n := Z.of_nat (List.length profits) in
  ((B64.index profits (n - 2) <? B64.index profits (n - 1))
     && (B64.index profits (n - 1) =? B64.max_list profits)) = true
  <-> B64.EdgeRising profits.
Proof.
  intros Hfin Hne n. unfold B64.EdgeRising. fold n.
  assert (Hlen : (1 <= List.length profits)%nat).
  { destruct profits; [congruence | cbn; lia]. }
  assert (Hl : In (B64.index profits (n - 1)) profits) by (apply b64_index_In; lia).
  rewrite andb_true_iff.
  rewrite (b64_eq_max_list_iff profits _ Hfin Hl).
  tauto.
Qed.

(** A NaN sample makes [Math.min] and [Math.max] NaN, and no sample is
    [===] to NaN. *)
Lemma b64_fold_min_nan (xs : list float) : fold_left B64.min_step xs nan = nan.
Proof. induction xs as [|x xs IH]; [reflexivity | exact IH]. Qed.

Lemma b64_fold_max_nan (xs : list float) : fold_left B64.max_step xs nan = nan.
Proof. induction xs as [|x xs IH]; [reflexivity | exact IH]. Qed.

Lemma b64_min_step_nan (acc x : float) : is_nan x = true -> B64.min_step acc x = nan.
Proof. intro H. unfold B64.min_step. rewrite H, orb_true_r. reflexivity. Qed.

Lemma b64_max_step_nan (acc x : float) : is_nan x = true -> B64.max_step acc x = nan.
Proof. intro H. unfold B64.max_step. rewrite H, orb_true_r. reflexivity. Qed.

Lemma b64_fold_min_Exists_nan (xs : list float) :
  Exists (fun x => is_nan x = true) xs ->
  forall acc, fold_left B64.min_step xs acc = nan.
Proof.
  induction 1 as [x xs Hx|x xs Hxs IH]; intro acc; cbn [fold_left].
  - rewrite (b64_min_step_nan acc x Hx). apply b64_fold_min_nan.
  - apply IH.
Qed.

Lemma b64_fold_max_Exists_nan (xs : list float) :
  Exists (fun x => is_nan x = true) xs ->
  forall acc, fold_left B64.max_step xs acc = nan.
Proof.
  induction 1 as [x xs Hx|x xs Hxs IH]; intro acc; cbn [fold_left].
  - rewrite (b64_max_step_nan acc x Hx). apply b64_fold_max_nan.
  - apply IH.
Qed.

Lemma b64_eqb_nan_r (x : float) : (x =? nan) = false.
Proof.
  rewrite eqb_spec. unfold SFeqb.
  change (Prim2SF nan) with S754_nan. destruct (Prim2SF x); reflexivity.
Qed.

End DoubleExtrema.

(* ===================================================================== *)
(** * Binary64: the expiration curve *)
(* ===================================================================== *)

Section DoubleCurve.

Import PrimFloat SpecFloat FloatOps FloatAxioms.
Local Open Scope float_scope.

Lemma mapM_Ret_Forall2 {A B : Type} (f : A -> outcome B) (xs : list A) :
  forall ys : list B,
    mapM f xs = Ret ys <-> Forall2 (fun x y => f x = Ret y) xs ys.
Proof.
  induction xs as [|x xs IH]; intro ys; cbn [mapM].
  - split.
    + intro H. injection H as <-. constructor.
    + intro H. inversion H. reflexivity.
  - split.
    + intro H. destruct (f x) as [y| |] eqn:Ey; cbn [bind] in H; try discriminate.
      destruct (mapM f xs) as [ys'| |] eqn:Eys; cbn [bind] in H; try discriminate.
      injection H as <-. constructor; [exact Ey|]. apply IH. reflexivity.
    + intro H. inversion H as [|? y ? ys' Hy Hys]; subst.
      rewrite Hy. cbn [bind]. apply IH in Hys. rewrite Hys. reflexivity.
Qed.

(** At expiration the pricer is not called: the value of a leg is the same
    for every pricer, and no exception is possible. *)
Lemma b64_legProfitLoss_expiry (strategyLeg : B64.StrategyLeg) (leg : B64.Leg)
    (stockPrice : float) :
  exists v : float,
    forall pricer, B64.legProfitLoss pricer strategyLeg leg stockPrice 0 = Ret v.
Proof.
  unfold B64.legProfitLoss. change (0 =? 0) with true. cbv iota.
  destruct (B64.type strategyLeg), (B64.action strategyLeg);
    eexists; intro pricer; reflexivity.
Qed.

Lemma b64_profitLossFrom_expiry (strategy : B64.Strategy) (stockPrice : float)
    (ls : list B64.Leg) :
  forall (index : nat) (totalPL : float),
    exists v : float,
      forall pricer,
        B64.profitLossFrom pricer strategy stockPrice 0 ls index totalPL = Ret v.
Proof.
  induction ls as [|leg rest IH]; intros index totalPL.
  - exists totalPL. reflexivity.
  - cbn [B64.profitLossFrom].
    destruct (nth_error (B64.legs strategy) index) as [strategyLeg|].
    + destruct (b64_legProfitLoss_expiry strategyLeg leg stockPrice) as [legPL Hleg].
      destruct (IH (S index) (totalPL + legPL)) as [v Hv].
      exists v. intro pricer. rewrite Hleg. cbn [bind]. apply Hv.
    + apply IH.
Qed.

Lemma b64_curve_exists (strategy : B64.Strategy) (ls : list B64.Leg)
    (stockPrices : list float) :
  exists profits : list float,
    List.length profits = List.length stockPrices
    /\ forall pricer,
         B64.calculateProfitLossArray pricer strategy ls stockPrices 0 = Ret profits.
Proof.
  unfold B64.calculateProfitLossArray.
  induction stockPrices as [|price rest [profits [Hlen Hp]]].
  - exists []. split; reflexivity.
  - destruct (b64_profitLossFrom_expiry strategy price ls 0 0) as [v Hv].
    exists (v :: profits). split; [cbn [List.length]; congruence|].
    intro pricer. cbn [mapM]. unfold B64.calculateProfitLoss at 1.
    rewrite Hv. cbn [bind]. rewrite Hp. reflexivity.
Qed.

Lemma b64_infinity_bounds (x : float) :
  B64.notNaN x -> (x <=? infinity) = true /\ (neg_infinity <=? x) = true.
Proof.
  unfold B64.notNaN. intro H.
  assert (Hx : Prim2SF x <> S754_nan).
  { intro E. apply b64_is_nan_spec in E. congruence. }
  rewrite !leb_spec.
  change (Prim2SF infinity) with (S754_infinity false).
  change (Prim2SF neg_infinity) with (S754_infinity true).
  destruct (Prim2SF x) as [s|s| |s m e]; try congruence;
    destruct s; split; reflexivity.
Qed.

Lemma b64_finite_In (xs : list float) (x : float) :
  Forall B64.finite xs -> In x xs -> B64.finite x.
Proof. intros H Hx. rewrite Forall_forall in H. exact (H x Hx). Qed.

(** What [calculateMaxLoss] returns, from the samples it computed. *)
Lemma b64_max_loss_of_samples
    (pricer : B64.Pricer)
    (fuel : nat) (strategy : B64.Strategy) (ls : list B64.Leg)
    (currentPrice : float) (grid profits : list float) :
  B64.generatePriceRange fuel currentPrice 2 = Ret grid ->
  B64.calculateProfitLossArray pricer strategy ls grid 0 = Ret profits ->
  exists r : float,
    B64.calculateMaxLoss pricer fuel strategy ls currentPrice = Ret r
    /\ (r = neg_infinity \/ r = B64.min_list profits)
    /\ (profits <> [] -> Forall B64.finite profits ->
        (r = neg_infinity <-> B64.EdgeFalling profits)
        /\ (~ B64.EdgeFalling profits -> B64.finite r /\ B64.isSampleMin r profits))
    /\ (Exists (fun x => is_nan x = true) profits -> r = nan)
    /\ (profits = [] -> r = infinity).
Proof.
  intros Hgrid Hp. unfold B64.calculateMaxLoss. rewrite Hgrid. cbn [bind].
  rewrite Hp. cbn [bind].
  match goal with |- context [if ?c then _ else _] => destruct c eqn:Ec end.
  - exists neg_infinity. split; [reflexivity|]. split; [left; reflexivity|].
    split; [|split].
    + intros Hne Hfin.
      pose proof (b64_falling_test_iff profits Hfin Hne) as Htest. cbv zeta in Htest.
      split.
      * split; [intros _; apply Htest; exact Ec | reflexivity].
      * intro Hno. exfalso. apply Hno, Htest. exact Ec.
    + intro Hnan. exfalso.
      unfold B64.min_list in Ec. rewrite (b64_fold_min_Exists_nan profits Hnan) in Ec.
      rewrite !b64_eqb_nan_r, !andb_false_r in Ec. discriminate.
    + intros ->. discriminate.
  - exists (B64.min_list profits). split; [reflexivity|].
    split; [right; reflexivity|]. split; [|split].
    + intros Hne Hfin.
      pose proof (b64_falling_test_iff profits Hfin Hne) as Htest. cbv zeta in Htest.
      destruct (b64_min_list_spec profits Hfin Hne) as [Hmin Hall].
      pose proof (b64_finite_In profits _ Hfin Hmin) as Hm.
      split.
      * split.
        -- intro E. rewrite E in Hm. discriminate.
        -- intro He. apply Htest in He. congruence.
      * intros _. split; [exact Hm | split; assumption].
    + intro Hnan. unfold B64.min_list. apply b64_fold_min_Exists_nan. exact Hnan.
    + intros ->. reflexivity.
Qed.

(** What [calculateMaxProfit] returns, from the samples it computed. *)
Lemma b64_max_profit_of_samples
    (pricer : B64.Pricer)
    (fuel : nat) (strategy : B64.Strategy) (ls : list B64.Leg)
    (currentPrice : float) (grid profits : list float) :
  B64.generatePriceRange fuel currentPrice 2 = Ret grid ->
  B64.calculateProfitLossArray pricer strategy ls grid 0 = Ret profits ->
  exists r : float,
    B64.calculateMaxProfit pricer fuel strategy ls currentPrice = Ret r
    /\ (r = infinity \/ r = B64.max_list profits)
    /\ (profits <> [] -> Forall B64.finite profits ->
        (r = infinity <-> B64.EdgeRising profits)
        /\ (~ B64.EdgeRising profits -> B64.finite r /\ B64.isSampleMax r profits))
    /\ (Exists (fun x => is_nan x = true) profits -> r = nan)
    /\ (profits = [] -> r = neg_infinity).
Proof.
  intros Hgrid Hp. unfold B64.calculateMaxProfit. rewrite Hgrid. cbn [bind].
  rewrite Hp. cbn [bind].
  match goal with |- context [if ?c then _ else _] => destruct c eqn:Ec end.
  - exists infinity. split; [reflexivity|]. split; [left; reflexivity|].
    split; [|split].
    + intros Hne Hfin.
      pose proof (b64_rising_test_iff profits Hfin Hne) as Htest. cbv zeta in Htest.
      split.
      * split; [intros _; apply Htest; exact Ec | reflexivity].
      * intro Hno. exfalso. apply Hno, Htest. exact Ec.
    + intro Hnan. exfalso.
      unfold B64.max_list in Ec. rewrite (b64_fold_max_Exists_nan profits Hnan) in Ec.
      rewrite !b64_eqb_nan_r, !andb_false_r in Ec. discriminate.
    + intros ->. discriminate.
  - exists (B64.max_list profits). split; [reflexivity|].
    split; [right; reflexivity|]. split; [|split].
    + intros Hne Hfin.
      pose proof (b64_rising_test_iff profits Hfin Hne) as Htest. cbv zeta in Htest.
      destruct (b64_max_list_spec profits Hfin Hne) as [Hmax Hall].
      pose proof (b64_finite_In profits _ Hfin Hmax) as Hm.
      split.
      * split.
        -- intro E. rewrite E in Hm. discriminate.
        -- intro He. apply Htest in He. congruence.
      * intros _. split; [exact Hm | split; assumption].
    + intro Hnan. unfold B64.max_list. apply b64_fold_max_Exists_nan. exact Hnan.
    + intros ->. reflexivity.
Qed.

End DoubleCurve.

(* ===================================================================== *)
(** * Binary64: the price loop *)
(* ===================================================================== *)

Section DoubleGrid.

Import PrimFloat SpecFloat FloatOps FloatAxioms.
Local Open Scope float_scope.
Set Warnings "-inexact-float".

Lemma b64_priceLoop_fuel_add (fuel k : nat) (price maxPrice step : float)
    (prices r : list float) :
  B64.priceLoop fuel price maxPrice step prices = Ret r ->
  B64.priceLoop (fuel + k) price maxPrice step prices = Ret r.
Proof.
  revert price prices. induction fuel as [|fuel IH]; intros price prices H.
  - discriminate.
  - cbn [B64.priceLoop Nat.add] in *. destruct (price <=? maxPrice); auto.
Qed.

Lemma b64_generatePriceRange_fuel_add (fuel k : nat) (currentPrice rangeFactor : float)
    (r : list float) :
  B64.generatePriceRange fuel currentPrice rangeFactor = Ret r ->
  B64.generatePriceRange (fuel + k) currentPrice rangeFactor = Ret r.
Proof. unfold B64.generatePriceRange. apply b64_priceLoop_fuel_add. Qed.


(** A price that passes the test and that the step does not move is
    never left. *)
Lemma b64_priceLoop_stuck (price maxPrice step : float) :
  (price <=? maxPrice) = true ->
  price + step = price ->
  forall (fuel : nat) (prices : list float),
    B64.priceLoop fuel price maxPrice step prices = OutOfFuel.
Proof.
  intros Hle Hfix fuel. induction fuel as [|fuel IH]; intro prices.
  - reflexivity.
  - cbn [B64.priceLoop]. rewrite Hle, Hfix. apply IH.
Qed.

Lemma b64_increasingb_sound (xs : list float) :
  B64.increasingb xs = true -> B64.StrictlyIncreasing xs.
Proof.
  unfold B64.StrictlyIncreasing.
  induction xs as [|x [|y rest] IH]; intro H.
  - constructor.
  - repeat constructor.
  - cbn [B64.increasingb] in H. apply andb_true_iff in H as [Hxy Hrest].
    constructor; [apply IH; exact Hrest | constructor; exact Hxy].
Qed.


Lemma b64_finite_check (xs : list float) :
  forallb is_finite xs = true -> Forall B64.finite xs.
Proof.
  intro H. apply Forall_forall. intros x Hx.
  rewrite forallb_forall in H. exact (H x Hx).
Qed.



(** C9 fails on the code.  The step is [(maxPrice - minPrice) / 200] in
    binary64, and a positive current price with a range factor above 1 does
    not make the loop end: with current price 1e308 and range factor 2 (the
    call of [calculateMaxProfit] and [calculateMaxLoss]) the upper bound
    and the step are Infinity; with current price 100 and range factor
    [1 + 2^-52] the step is positive but adding it leaves the price where
    it is; with the smallest positive double and range factor 1.5 (the call
    of [findBreakevens]) the step underflows to 0.  In the three cases no
    amount of fuel is enough, and the callers do not return either.  The
    same loop returns 201 values for current price 100 and range factor
    1.5, and, as the claim says, never ends with range factor 1. *)
Theorem price_loop_never_exits :
  ((0 <? 1e308) = true /\ (1 <? 2) = true
   /\ B64.minPrice 1e308 2 = 0 /\ B64.maxPrice 1e308 2 = infinity
   /\ B64.step 1e308 2 = infinity
   /\ forall fuel, B64.generatePriceRange fuel 1e308 2 = OutOfFuel)
  /\ ((0 <? 100) = true /\ (1 <? 1 + 0x1p-52) = true
      /\ (B64.minPrice 100 (1 + 0x1p-52) <? B64.maxPrice 100 (1 + 0x1p-52)) = true
      /\ (0 <? B64.step 100 (1 + 0x1p-52)) = true
      /\ B64.minPrice 100 (1 + 0x1p-52) + B64.step 100 (1 + 0x1p-52)
         = B64.minPrice 100 (1 + 0x1p-52)
      /\ forall fuel, B64.generatePriceRange fuel 100 (1 + 0x1p-52) = OutOfFuel)
  /\ ((0 <? 0x1p-1074) = true /\ (1 <? 1.5) = true
      /\ (B64.minPrice 0x1p-1074 1.5 <? B64.maxPrice 0x1p-1074 1.5) = true
      /\ B64.step 0x1p-1074 1.5 = 0
      /\ forall fuel, B64.generatePriceRange fuel 0x1p-1074 1.5 = OutOfFuel)
  /\ (forall (pricer : B64.Pricer)
             (fuel : nat) (strategy : B64.Strategy) (ls : list B64.Leg),
        B64.calculateMaxProfit pricer fuel strategy ls 1e308 = OutOfFuel
        /\ B64.calculateMaxLoss pricer fuel strategy ls 1e308 = OutOfFuel
        /\ B64.findBreakevens pricer fuel strategy ls 0x1p-1074 = OutOfFuel)
  /\ (exists grid : list float,
        (forall k, B64.generatePriceRange (202 + k) 100 1.5 = Ret grid)
        /\ List.length grid = 201%nat)
  /\ (B64.step 100 1 = 0
      /\ forall fuel, B64.generatePriceRange fuel 100 1 = OutOfFuel).
Proof.
  assert (H1 : forall fuel, B64.generatePriceRange fuel 1e308 2 = OutOfFuel).
  { intros [|fuel]; [reflexivity|].
    unfold B64.generatePriceRange. cbn [B64.priceLoop].
    change (B64.minPrice 1e308 2 <=? B64.maxPrice 1e308 2) with true. cbv iota.
    apply b64_priceLoop_stuck; reflexivity. }
  assert (H2 : forall fuel, B64.generatePriceRange fuel 100 (1 + 0x1p-52) = OutOfFuel).
  { intro fuel. unfold B64.generatePriceRange.
    apply b64_priceLoop_stuck; reflexivity. }
  assert (H3 : forall fuel, B64.generatePriceRange fuel 0x1p-1074 1.5 = OutOfFuel).
  { intro fuel. unfold B64.generatePriceRange.
    apply b64_priceLoop_stuck; reflexivity. }
  split; [|split; [|split; [|split; [|split]]]].
  - repeat (split; [reflexivity|]). exact H1.
  - repeat (split; [reflexivity|]). exact H2.
  - repeat (split; [reflexivity|]). exact H3.
  - intros pricer fuel strategy ls.
    unfold B64.calculateMaxProfit, B64.calculateMaxLoss, B64.findBreakevens,
      B64.defaultRangeFactor.
    rewrite H1, H3. repeat split.
  - eexists. split.
    + intro k. apply b64_generatePriceRange_fuel_add. vm_compute. reflexivity.
    + reflexivity.
  - split; [reflexivity|]. intro fuel. unfold B64.generatePriceRange.
    apply b64_priceLoop_stuck; reflexivity.
Qed.

End DoubleGrid.

(* ===================================================================== *)
(** * Binary64: maximum loss and maximum profit *)
(* ===================================================================== *)

Section DoubleExtremes.

Import PrimFloat SpecFloat FloatOps FloatAxioms.
Local Open Scope float_scope.
Set Warnings "-inexact-float".

(** The three functions that sample the expiration curve do not depend on
    the pricer, and more fuel does not change what they return. *)
Lemma b64_curve_any_pricer (pricer pricer' : B64.Pricer) (strategy : B64.Strategy)
    (ls : list B64.Leg) (stockPrices : list float) :
  B64.calculateProfitLossArray pricer strategy ls stockPrices 0
  = B64.calculateProfitLossArray pricer' strategy ls stockPrices 0.
Proof.
  destruct (b64_curve_exists strategy ls stockPrices) as [profits [_ Hp]].
  rewrite (Hp pricer), (Hp pricer'). reflexivity.
Qed.

Lemma b64_max_loss_run (pricer : B64.Pricer) (fuel k : nat) (strategy : B64.Strategy)
    (ls : list B64.Leg) (currentPrice r : float) :
  B64.calculateMaxLoss B64.idlePricer fuel strategy ls currentPrice = Ret r ->
  B64.calculateMaxLoss pricer (fuel + k) strategy ls currentPrice = Ret r.
Proof.
  unfold B64.calculateMaxLoss.
  destruct (B64.generatePriceRange fuel currentPrice 2) as [grid| |] eqn:E;
    cbn [bind]; try discriminate.
  rewrite (b64_generatePriceRange_fuel_add fuel k _ _ grid E). cbn [bind].
  rewrite (b64_curve_any_pricer pricer B64.idlePricer). exact (fun H => H).
Qed.

Lemma b64_max_profit_run (pricer : B64.Pricer) (fuel k : nat) (strategy : B64.Strategy)
    (ls : list B64.Leg) (currentPrice r : float) :
  B64.calculateMaxProfit B64.idlePricer fuel strategy ls currentPrice = Ret r ->
  B64.calculateMaxProfit pricer (fuel + k) strategy ls currentPrice = Ret r.
Proof.
  unfold B64.calculateMaxProfit.
  destruct (B64.generatePriceRange fuel currentPrice 2) as [grid| |] eqn:E;
    cbn [bind]; try discriminate.
  rewrite (b64_generatePriceRange_fuel_add fuel k _ _ grid E). cbn [bind].
  rewrite (b64_curve_any_pricer pricer B64.idlePricer). exact (fun H => H).
Qed.

Lemma b64_breakevens_run (pricer : B64.Pricer) (fuel k : nat) (strategy : B64.Strategy)
    (ls : list B64.Leg) (currentPrice : float) (r : list float) :
  B64.findBreakevens B64.idlePricer fuel strategy ls currentPrice = Ret r ->
  B64.findBreakevens pricer (fuel + k) strategy ls currentPrice = Ret r.
Proof.
  unfold B64.findBreakevens.
  destruct (B64.generatePriceRange fuel currentPrice B64.defaultRangeFactor)
    as [grid| |] eqn:E; cbn [bind]; try discriminate.
  rewrite (b64_generatePriceRange_fuel_add fuel k _ _ grid E). cbn [bind].
  rewrite (b64_curve_any_pricer pricer B64.idlePricer). exact (fun H => H).
Qed.

(** C7, as the code has it.  [calculateMaxLoss] evaluates the expiration
    curve, sample by sample, on the grid that
    [generatePriceRange(currentPrice, 2)] returns.  When there is a sample
    and all samples are finite, it returns [-Infinity] exactly when an edge
    sample is a minimum of the curve and is strictly lower than its inward
    neighbour, and otherwise the finite minimum of the samples.  When a
    sample is NaN it returns NaN, and on the empty grid it returns
    [Infinity].  So a short call struck at 100 for a premium of 5 has
    maximum loss [-Infinity] at current price 100, and a long call -500; at
    current price 10 the grid has 200 points and ends at 19.9, below
    [2 * currentPrice], and a short call struck at 19.9 for a premium of 1
    gets the finite value 100. *)
Theorem max_loss_edge_rule :
  (forall (pricer : B64.Pricer) (fuel : nat) (strategy : B64.Strategy)
          (ls : list B64.Leg) (currentPrice : float) (grid : list float),
      B64.generatePriceRange fuel currentPrice 2 = Ret grid ->
      exists profits : list float,
        B64.calculateProfitLossArray pricer strategy ls grid 0 = Ret profits
        /\ Forall2
             (fun price pl =>
                B64.calculateProfitLoss pricer strategy ls price 0 = Ret pl)
             grid profits
        /\ exists r : float,
             B64.calculateMaxLoss pricer fuel strategy ls currentPrice = Ret r
             /\ (profits <> [] -> Forall B64.finite profits ->
                 (r = neg_infinity <-> B64.EdgeFalling profits)
                 /\ (~ B64.EdgeFalling profits ->
                     B64.finite r /\ B64.isSampleMin r profits))
             /\ (Exists (fun x => is_nan x = true) profits -> r = nan)
             /\ (profits = [] -> r = infinity))
  /\ (forall (pricer : B64.Pricer) (k : nat),
        B64.calculateMaxLoss pricer (202 + k) B64.Catalog.short_call
          [B64.optionLeg 100 5] 100 = Ret neg_infinity
        /\ B64.calculateMaxLoss pricer (202 + k) B64.Catalog.long_call
             [B64.optionLeg 100 5] 100 = Ret (-500))
  /\ (exists grid : list float,
        (forall k, B64.generatePriceRange (201 + k) 10 2 = Ret grid)
        /\ List.length grid = 200%nat
        /\ last grid nan = 19.9
        /\ forall (pricer : B64.Pricer) (k : nat),
             B64.calculateMaxLoss pricer (201 + k) B64.Catalog.short_call
               [B64.optionLeg 19.9 1] 10 = Ret 100).
Proof.
  split; [|split].
  - intros pricer fuel strategy ls currentPrice grid Hgrid.
    destruct (b64_curve_exists strategy ls grid) as [profits [_ Hp]].
    exists profits. split; [apply Hp|].
    split; [apply mapM_Ret_Forall2; apply Hp|].
    destruct (b64_max_loss_of_samples pricer fuel strategy ls currentPrice grid
                profits Hgrid (Hp pricer)) as [r [Hr [_ Hrule]]].
    exists r. split; [exact Hr | exact Hrule].
  - intros pricer k. split; apply b64_max_loss_run; vm_compute; reflexivity.
  - eexists. split; [|split; [|split]].
    + intro k. apply b64_generatePriceRange_fuel_add. vm_compute. reflexivity.
    + reflexivity.
    + reflexivity.
    + intros pricer k. apply b64_max_loss_run. vm_compute. reflexivity.
Qed.

(** The rule of C7 at work on a short call struck at 100 for a premium of
    5, at current price 100: the 201 samples are finite, the curve is still
    falling at its right edge, and the result is [-Infinity]. *)
Lemma max_loss_edge_rule_witness :
  exists grid profits : list float,
    B64.generatePriceRange 202 100 2 = Ret grid
    /\ B64.calculateProfitLossArray B64.idlePricer B64.Catalog.short_call
         [B64.optionLeg 100 5] grid 0 = Ret profits
    /\ profits <> [] /\ Forall B64.finite profits
    /\ B64.EdgeFalling profits
    /\ B64.calculateMaxLoss B64.idlePricer 202 B64.Catalog.short_call
         [B64.optionLeg 100 5] 100 = Ret neg_infinity.
Proof.
  assert (Hgrid : exists grid, B64.generatePriceRange 202 100 2 = Ret grid).
  { eexists. vm_compute. reflexivity. }
  destruct Hgrid as [grid Hgrid].
  destruct (proj1 max_loss_edge_rule B64.idlePricer 202%nat B64.Catalog.short_call
              [B64.optionLeg 100 5] 100 grid Hgrid)
    as [profits [Hp [_ [r [Hr [Hrule _]]]]]].
  exists grid, profits.
  assert (Hne : profits <> []).
  { vm_compute in Hgrid. injection Hgrid as <-.
    vm_compute in Hp. injection Hp as <-. discriminate. }
  assert (Hfin : Forall B64.finite profits).
  { vm_compute in Hgrid. injection Hgrid as <-.
    vm_compute in Hp. injection Hp as <-.
    apply b64_finite_check. vm_compute. reflexivity. }
  assert (Hinf : r = neg_infinity).
  { assert (E : B64.calculateMaxLoss B64.idlePricer 202 B64.Catalog.short_call
                  [B64.optionLeg 100 5] 100 = Ret neg_infinity)
      by (vm_compute; reflexivity).
    rewrite E in Hr. injection Hr as <-. reflexivity. }
  subst r.
  split; [exact Hgrid|]. split; [exact Hp|]. split; [exact Hne|].
  split; [exact Hfin|]. split; [|exact Hr].
  apply (proj1 (Hrule Hne Hfin)). reflexivity.
Defined.

(** C7 fails as stated: a covered call whose cost basis and premium are
    1e307 is accepted by [validateStrategy], all its fields are finite and
    positive, and at current price 100 [calculateMaxLoss] returns NaN,
    which is neither [-Infinity] nor a finite minimum of the samples. *)
Lemma max_loss_nan_on_valid_legs :
  isValid (B64.validateStrategy (Some B64.Catalog.covered_call)
             [B64.stockLeg 1e307; B64.optionLeg 100 1e307]) = true
  /\ B64.calculateProfitLoss B64.idlePricer B64.Catalog.covered_call
       [B64.stockLeg 1e307; B64.optionLeg 100 1e307] 100 0 = Ret nan
  /\ B64.calculateMaxLoss B64.idlePricer 202 B64.Catalog.covered_call
       [B64.stockLeg 1e307; B64.optionLeg 100 1e307] 100 = Ret nan
  /\ nan <> neg_infinity /\ is_finite nan = false.
Proof.
  split; [reflexivity|]. split; [reflexivity|].
  split; [vm_compute; reflexivity|]. split; [|reflexivity].
  intro E. apply (f_equal is_nan) in E. discriminate.
Qed.

End DoubleExtremes.

(* ===================================================================== *)
(** * Binary64: maximum profit, and loss against profit *)
(* ===================================================================== *)

Section DoubleExtremes2.

Import PrimFloat SpecFloat FloatOps FloatAxioms.
Local Open Scope float_scope.
Set Warnings "-inexact-float".

(** X13.  [calculateMaxProfit] evaluates the expiration curve on the grid
    that [generatePriceRange(currentPrice, 2)] returns.  When there is a
    sample and all samples are finite, it returns [Infinity] exactly when
    the last sample is a maximum of the curve and is strictly higher than
    the sample before it, and otherwise the finite maximum of the samples;
    the left edge is not examined.  When a sample is NaN it returns NaN,
    and on the empty grid [-Infinity].  So a long call struck at 100 for a
    premium of 5 has maximum profit [Infinity] at current price 100, and a
    short call 500; at current price 10 the grid ends at 19.9, and a long
    call struck at 19.9 for a premium of 1 gets the finite value -100. *)
Theorem max_profit_edge_rule :
  (forall (pricer : B64.Pricer) (fuel : nat) (strategy : B64.Strategy)
          (ls : list B64.Leg) (currentPrice : float) (grid : list float),
      B64.generatePriceRange fuel currentPrice 2 = Ret grid ->
      exists profits : list float,
        B64.calculateProfitLossArray pricer strategy ls grid 0 = Ret profits
        /\ Forall2
             (fun price pl =>
                B64.calculateProfitLoss pricer strategy ls price 0 = Ret pl)
             grid profits
        /\ exists r : float,
             B64.calculateMaxProfit pricer fuel strategy ls currentPrice = Ret r
             /\ (profits <> [] -> Forall B64.finite profits ->
                 (r = infinity <-> B64.EdgeRising profits)
                 /\ (~ B64.EdgeRising profits ->
                     B64.finite r /\ B64.isSampleMax r profits))
             /\ (Exists (fun x => is_nan x = true) profits -> r = nan)
             /\ (profits = [] -> r = neg_infinity))
  /\ (forall (pricer : B64.Pricer) (k : nat),
        B64.calculateMaxProfit pricer (202 + k) B64.Catalog.long_call
          [B64.optionLeg 100 5] 100 = Ret infinity
        /\ B64.calculateMaxProfit pricer (202 + k) B64.Catalog.short_call
             [B64.optionLeg 100 5] 100 = Ret 500)
  /\ (forall (pricer : B64.Pricer) (k : nat),
        B64.calculateMaxProfit pricer (201 + k) B64.Catalog.long_call
          [B64.optionLeg 19.9 1] 10 = Ret (-100)).
Proof.
  split; [|split].
  - intros pricer fuel strategy ls currentPrice grid Hgrid.
    destruct (b64_curve_exists strategy ls grid) as [profits [_ Hp]].
    exists profits. split; [apply Hp|].
    split; [apply mapM_Ret_Forall2; apply Hp|].
    destruct (b64_max_profit_of_samples pricer fuel strategy ls currentPrice grid
                profits Hgrid (Hp pricer)) as [r [Hr [_ Hrule]]].
    exists r. split; [exact Hr | exact Hrule].
  - intros pricer k. split; apply b64_max_profit_run; vm_compute; reflexivity.
  - intros pricer k. apply b64_max_profit_run. vm_compute. reflexivity.
Qed.

Lemma max_profit_edge_rule_witness :
  exists grid profits : list float,
    B64.generatePriceRange 202 100 2 = Ret grid
    /\ B64.calculateProfitLossArray B64.idlePricer B64.Catalog.long_call
         [B64.optionLeg 100 5] grid 0 = Ret profits
    /\ profits <> [] /\ Forall B64.finite profits
    /\ B64.EdgeRising profits
    /\ B64.calculateMaxProfit B64.idlePricer 202 B64.Catalog.long_call
         [B64.optionLeg 100 5] 100 = Ret infinity.
Proof.
  assert (Hgrid : exists grid, B64.generatePriceRange 202 100 2 = Ret grid).
  { eexists. vm_compute. reflexivity. }
  destruct Hgrid as [grid Hgrid].
  destruct (proj1 max_profit_edge_rule B64.idlePricer 202%nat B64.Catalog.long_call
              [B64.optionLeg 100 5] 100 grid Hgrid)
    as [profits [Hp [_ [r [Hr [Hrule _]]]]]].
  exists grid, profits.
  assert (Hne : profits <> []).
  { vm_compute in Hgrid. injection Hgrid as <-.
    vm_compute in Hp. injection Hp as <-. discriminate. }
  assert (Hfin : Forall B64.finite profits).
  { vm_compute in Hgrid. injection Hgrid as <-.
    vm_compute in Hp. injection Hp as <-.
    apply b64_finite_check. vm_compute. reflexivity. }
  assert (Hinf : r = infinity).
  { assert (E : B64.calculateMaxProfit B64.idlePricer 202 B64.Catalog.long_call
                  [B64.optionLeg 100 5] 100 = Ret infinity)
      by (vm_compute; reflexivity).
    rewrite E in Hr. injection Hr as <-. reflexivity. }
  subst r.
  split; [exact Hgrid|]. split; [exact Hp|]. split; [exact Hne|].
  split; [exact Hfin|]. split; [|exact Hr].
  apply (proj1 (Hrule Hne Hfin)). reflexivity.
Defined.

(** X26.  On every grid that [generatePriceRange(currentPrice, 2)] returns,
    [calculateMaxLoss] and [calculateMaxProfit] read the same samples.
    When there is a sample and all samples are finite, the maximum loss is
    [<=] the maximum profit.  On the empty grid they come out the other way
    round, [Infinity] and [-Infinity]; with a NaN sample both are NaN. *)
Theorem max_loss_below_max_profit
    (pricer : B64.Pricer) (fuel : nat) (strategy : B64.Strategy)
    (ls : list B64.Leg) (currentPrice : float) (grid : list float) :
  B64.generatePriceRange fuel currentPrice 2 = Ret grid ->
  exists (profits : list float) (lo hi : float),
    B64.calculateProfitLossArray pricer strategy ls grid 0 = Ret profits
    /\ B64.calculateMaxLoss pricer fuel strategy ls currentPrice = Ret lo
    /\ B64.calculateMaxProfit pricer fuel strategy ls currentPrice = Ret hi
    /\ (profits <> [] -> Forall B64.finite profits -> (lo <=? hi) = true)
    /\ (profits = [] -> lo = infinity /\ hi = neg_infinity)
    /\ (Exists (fun x => is_nan x = true) profits -> lo = nan /\ hi = nan).
Proof.
  intro Hgrid.
  destruct (b64_curve_exists strategy ls grid) as [profits [_ Hp]].
  destruct (b64_max_loss_of_samples pricer fuel strategy ls currentPrice grid
              profits Hgrid (Hp pricer)) as [lo [Hlo [Hlo' [_ [Hlon Hloe]]]]].
  destruct (b64_max_profit_of_samples pricer fuel strategy ls currentPrice grid
              profits Hgrid (Hp pricer)) as [hi [Hhi [Hhi' [_ [Hhin Hhie]]]]].
  exists profits, lo, hi.
  split; [apply Hp|]. split; [exact Hlo|]. split; [exact Hhi|].
  split; [|split].
  - intros Hne Hfin.
    destruct (b64_min_list_spec profits Hfin Hne) as [Hmin Hmin'].
    destruct (b64_max_list_spec profits Hfin Hne) as [Hmax Hmax'].
    pose proof (b64_finite_notNaN _ (b64_finite_In profits _ Hfin Hmin)) as Nmin.
    pose proof (b64_finite_notNaN _ (b64_finite_In profits _ Hfin Hmax)) as Nmax.
    destruct Hlo' as [->| ->], Hhi' as [->| ->].
    + reflexivity.
    + apply (b64_infinity_bounds _ Nmax).
    + apply (b64_infinity_bounds _ Nmin).
    + apply Hmax'. exact Hmin.
  - intro E. split; [apply Hloe | apply Hhie]; exact E.
  - intro E. split; [apply Hlon | apply Hhin]; exact E.
Qed.

Lemma max_loss_below_max_profit_witness :
  exists (grid profits : list float) (lo hi : float),
    B64.generatePriceRange 202 100 2 = Ret grid
    /\ B64.calculateProfitLossArray B64.idlePricer B64.Catalog.bull_call_spread
         [B64.optionLeg 100 5; B64.optionLeg 105 3] grid 0 = Ret profits
    /\ profits <> [] /\ Forall B64.finite profits
    /\ B64.calculateMaxLoss B64.idlePricer 202 B64.Catalog.bull_call_spread
         [B64.optionLeg 100 5; B64.optionLeg 105 3] 100 = Ret lo
    /\ B64.calculateMaxProfit B64.idlePricer 202 B64.Catalog.bull_call_spread
         [B64.optionLeg 100 5; B64.optionLeg 105 3] 100 = Ret hi
    /\ (lo <=? hi) = true.
Proof.
  assert (Hgrid : exists grid, B64.generatePriceRange 202 100 2 = Ret grid).
  { eexists. vm_compute. reflexivity. }
  destruct Hgrid as [grid Hgrid].
  destruct (max_loss_below_max_profit B64.idlePricer 202%nat
              B64.Catalog.bull_call_spread
              [B64.optionLeg 100 5; B64.optionLeg 105 3] 100 grid Hgrid)
    as [profits [lo [hi [Hp [Hlo [Hhi [Hle _]]]]]]].
  exists grid, profits, lo, hi.
  assert (Hne : profits <> []).
  { vm_compute in Hgrid. injection Hgrid as <-.
    vm_compute in Hp. injection Hp as <-. discriminate. }
  assert (Hfin : Forall B64.finite profits).
  { vm_compute in Hgrid. injection Hgrid as <-.
    vm_compute in Hp. injection Hp as <-.
    apply b64_finite_check. vm_compute. reflexivity. }
  split; [exact Hgrid|]. split; [exact Hp|]. split; [exact Hne|].
  split; [exact Hfin|]. split; [exact Hlo|]. split; [exact Hhi|].
  exact (Hle Hne Hfin).
Defined.

End DoubleExtremes2.

(* ===================================================================== *)
(** * Binary64: the scan for breakevens *)
(* ===================================================================== *)

Section DoubleScan.

Import PrimFloat SpecFloat FloatOps FloatAxioms.
Local Open Scope float_scope.
Set Warnings "-inexact-float".

Lemma b64_breakevenStep_app (priceRange profits breakevens : list float) (i : nat) :
  B64.breakevenStep priceRange profits breakevens i
  = breakevens ++ B64.breakevenStep priceRange profits [] i.
Proof.
  unfold B64.breakevenStep. destruct (_ || _)%bool; [reflexivity|].
  rewrite app_nil_r. reflexivity.
Qed.

Lemma b64_breakevenStep_none (priceRange profits : list float) (i : nat) :
  B64.crossingAt profits i = false -> B64.breakevenStep priceRange profits [] i = [].
Proof. unfold B64.breakevenStep, B64.crossingAt. intros ->. reflexivity. Qed.

Lemma b64_breakevenStep_length (priceRange profits : list float) (i : nat) :
  (List.length (B64.breakevenStep priceRange profits [] i) <= 1)%nat
  /\ (B64.breakevenStep priceRange profits [] i = [] ->
      B64.crossingAt profits i = false).
Proof.
  unfold B64.breakevenStep, B64.crossingAt.
  destruct (_ || _)%bool; cbn [app List.length].
  - split; [lia | discriminate].
  - split; [lia | reflexivity].
Qed.

Lemma b64_fold_breakevenStep (priceRange profits : list float) (l : list nat) :
  forall breakevens : list float,
    fold_left (B64.breakevenStep priceRange profits) l breakevens
    = breakevens ++ flat_map (B64.breakevenStep priceRange profits []) l.
Proof.
  induction l as [|i l IH]; intro breakevens.
  - cbn [fold_left flat_map]. rewrite app_nil_r. reflexivity.
  - cbn [fold_left flat_map]. rewrite IH, b64_breakevenStep_app, <- app_assoc.
    reflexivity.
Qed.

Lemma b64_breakevenScan_flat_map (priceRange profits : list float) :
  B64.breakevenScan priceRange profits
  = flat_map (B64.breakevenStep priceRange profits [])
      (seq 1 (List.length profits - 1)%nat).
Proof. unfold B64.breakevenScan. rewrite b64_fold_breakevenStep. reflexivity. Qed.

Lemma b64_scan_length (priceRange profits : list float) (l : list nat) :
  (List.length (flat_map (B64.breakevenStep priceRange profits []) l)
   <= List.length l)%nat.
Proof.
  induction l as [|i l IH]; [cbn; lia|].
  cbn [flat_map List.length]. rewrite length_app.
  pose proof (proj1 (b64_breakevenStep_length priceRange profits i)). lia.
Qed.

Lemma b64_index_nth (xs : list float) (i : nat) :
  B64.index xs (Z.of_nat i) = nth i xs nan.
Proof.
  unfold B64.index.
  destruct (Z.of_nat i <? 0)%Z eqn:E; [apply Z.ltb_lt in E; lia|].
  rewrite Nat2Z.id. reflexivity.
Qed.

Lemma b64_crossingAt_S (profits : list float) (j : nat) :
  B64.crossingAt profits (S j)
  = ((nth j profits nan <=? 0) && (0 <=? nth (S j) profits nan)
     || (0 <=? nth j profits nan) && (nth (S j) profits nan <=? 0)).
Proof.
  unfold B64.crossingAt.
  replace (Z.of_nat (S j) - 1)%Z with (Z.of_nat j) by lia.
  rewrite !b64_index_nth. reflexivity.
Qed.

(** A number that is not NaN is below 0, a zero, or above 0. *)
Lemma b64_sign_cases (x : float) :
  B64.notNaN x ->
  ((x <? 0) = true /\ (x <=? 0) = true /\ (0 <=? x) = false /\ (0 <? x) = false)
  \/ ((x <? 0) = false /\ (x <=? 0) = true /\ (0 <=? x) = true /\ (0 <? x) = false)
  \/ ((x <? 0) = false /\ (x <=? 0) = false /\ (0 <=? x) = true /\ (0 <? x) = true).
Proof.
  intro Hx.
  assert (H0 : B64.notNaN 0) by reflexivity.
  destruct (b64_notNaN_compare x 0 Hx H0) as [c E].
  pose proof (b64_compare_cases x 0) as H. rewrite E in H.
  destruct c; intuition.
Qed.

Lemma b64_crossing_false_sign (a b : float) :
  B64.notNaN a -> B64.notNaN b ->
  (((a <=? 0) && (0 <=? b) || (0 <=? a) && (b <=? 0)) = false
   <-> ((0 <? a) = true /\ (0 <? b) = true)
       \/ ((a <? 0) = true /\ (b <? 0) = true)).
Proof.
  intros Ha Hb.
  destruct (b64_sign_cases a Ha) as [[A1 [A2 [A3 A4]]]|[[A1 [A2 [A3 A4]]]|[A1 [A2 [A3 A4]]]]],
           (b64_sign_cases b Hb) as [[B1 [B2 [B3 B4]]]|[[B1 [B2 [B3 B4]]]|[B1 [B2 [B3 B4]]]]];
    rewrite A1, A2, A3, A4, B1, B2, B3, B4; cbn [andb orb];
    split; intro H; try discriminate; try tauto;
    destruct H as [[? ?]|[? ?]]; discriminate.
Qed.

Lemma b64_no_crossing_one_sign (xs : list float) (n : nat) :
  List.length xs = S (S n) ->
  Forall B64.notNaN xs ->
  (forall j, (j <= n)%nat -> B64.crossingAt xs (S j) = false)
  <-> (forall i, (i <= S n)%nat -> (0 <? nth i xs nan) = true)
      \/ (forall i, (i <= S n)%nat -> (nth i xs nan <? 0) = true).
Proof.
  intros Hlen Hnn.
  assert (Hn : forall i, (i <= S n)%nat -> B64.notNaN (nth i xs nan)).
  { intros i Hi. rewrite Forall_forall in Hnn. apply Hnn, nth_In. lia. }
  assert (Hc : forall j, (j <= n)%nat ->
             (B64.crossingAt xs (S j) = false
              <-> ((0 <? nth j xs nan) = true /\ (0 <? nth (S j) xs nan) = true)
                  \/ ((nth j xs nan <? 0) = true /\ (nth (S j) xs nan <? 0) = true))).
  { intros j Hj. rewrite b64_crossingAt_S.
    apply b64_crossing_false_sign; apply Hn; lia. }
  assert (Hexcl : forall x, (0 <? x) = true -> (x <? 0) = true -> False).
  { intros x H1 H2. apply b64_ltb_not_leb in H1. apply b64_ltb_leb in H2. congruence. }
  split.
  - intro H.
    destruct (proj1 (Hc 0%nat ltac:(lia)) (H 0%nat ltac:(lia))) as [[H0 _]|[H0 _]].
    + left. induction i as [|i IHi]; intro Hi; [exact H0|].
      destruct (proj1 (Hc i ltac:(lia)) (H i ltac:(lia))) as [[_ Hs]|[Hs _]];
        [exact Hs|].
      specialize (IHi ltac:(lia)). exfalso. exact (Hexcl _ IHi Hs).
    + right. induction i as [|i IHi]; intro Hi; [exact H0|].
      destruct (proj1 (Hc i ltac:(lia)) (H i ltac:(lia))) as [[Hs _]|[_ Hs]];
        [|exact Hs].
      specialize (IHi ltac:(lia)). exfalso. exact (Hexcl _ Hs IHi).
  - intros [H|H] j Hj; apply (Hc j Hj).
    + left. split; apply H; lia.
    + right. split; apply H; lia.
Qed.

(** X17.  On every grid that [generatePriceRange(currentPrice)] returns,
    [findBreakevens] returns at most one breakeven per pair of adjacent
    samples of the expiration curve.  When the curve has at least two
    samples and none is NaN, it returns no breakeven exactly when the
    samples are all strictly positive or all strictly negative. *)
Theorem no_breakeven_iff_one_sign
    (pricer : B64.Pricer) (fuel : nat) (strategy : B64.Strategy)
    (ls : list B64.Leg) (currentPrice : float) (grid : list float) :
  B64.generatePriceRange fuel currentPrice 1.5 = Ret grid ->
  exists profits bs : list float,
    B64.calculateProfitLossArray pricer strategy ls grid 0 = Ret profits
    /\ B64.findBreakevens pricer fuel strategy ls currentPrice = Ret bs
    /\ (List.length bs <= List.length profits - 1)%nat
    /\ ((2 <= List.length profits)%nat -> Forall B64.notNaN profits ->
        (bs = []
         <-> (forall x, In x profits -> (0 <? x) = true)
             \/ (forall x, In x profits -> (x <? 0) = true))).
Proof.
  intro Hgrid.
  destruct (b64_curve_exists strategy ls grid) as [profits [_ Hp]].
  exists profits, (B64.breakevenScan grid profits).
  split; [apply Hp|]. split.
  { unfold B64.findBreakevens, B64.defaultRangeFactor.
    rewrite Hgrid. cbn [bind]. rewrite (Hp pricer). reflexivity. }
  rewrite b64_breakevenScan_flat_map. split.
  - pose proof (b64_scan_length grid profits (seq 1 (List.length profits - 1))) as H.
    rewrite length_seq in H. exact H.
  - intros Hlen Hnn.
    destruct (List.length profits) as [|[|n]] eqn:El; try lia.
    change (S (S n) - 1)%nat with (S n).
    assert (Hnil : flat_map (B64.breakevenStep grid profits []) (seq 1 (S n)) = []
                   <-> (forall j, (j <= n)%nat -> B64.crossingAt profits (S j) = false)).
    { split.
      - intros H j Hj. apply (b64_breakevenStep_length grid).
        assert (Hin : In (S j) (seq 1 (S n))) by (apply in_seq; lia).
        revert H Hin. generalize (seq 1 (S n)). intros l H Hin.
        induction l as [|i l IH]; [contradiction|].
        cbn [flat_map] in H. apply app_eq_nil in H as [Hi Hl].
        destruct Hin as [->|Hin]; [exact Hi | exact (IH Hl Hin)].
      - intro H.
        assert (Hall : forall i, In i (seq 1 (S n)) ->
                         B64.breakevenStep grid profits [] i = []).
        { intros i Hi. apply in_seq in Hi. destruct i as [|j]; [lia|].
          apply b64_breakevenStep_none. apply H. lia. }
        revert Hall. generalize (seq 1 (S n)). intros l Hall.
        induction l as [|i l IH]; [reflexivity|].
        cbn [flat_map]. rewrite (Hall i (or_introl eq_refl)). cbn [app].
        apply IH. intros i' Hi'. apply Hall. right. exact Hi'. }
    rewrite Hnil, (b64_no_crossing_one_sign profits n El Hnn).
    assert (Hin : forall P : float -> Prop,
               (forall i, (i <= S n)%nat -> P (nth i profits nan))
               <-> (forall x, In x profits -> P x)).
    { intro P. split.
      - intros H x Hx. destruct (In_nth profits x nan Hx) as [i [Hi <-]].
        apply H. lia.
      - intros H i Hi. apply H. apply nth_In. lia. }
    rewrite (Hin (fun x => (0 <? x) = true)), (Hin (fun x => (x <? 0) = true)).
    reflexivity.
Qed.

(** The rule at work on a long call struck at 100 for a premium of 5, at
    current price 100: the curve has 201 samples, none is NaN, it changes
    sign, and the scan returns breakevens. *)
Lemma no_breakeven_iff_one_sign_witness :
  exists grid profits bs : list float,
    B64.generatePriceRange 202 100 1.5 = Ret grid
    /\ B64.calculateProfitLossArray B64.idlePricer B64.Catalog.long_call
         [B64.optionLeg 100 5] grid 0 = Ret profits
    /\ B64.findBreakevens B64.idlePricer 202 B64.Catalog.long_call
         [B64.optionLeg 100 5] 100 = Ret bs
    /\ (2 <= List.length profits)%nat /\ Forall B64.notNaN profits
    /\ (List.length bs <= List.length profits - 1)%nat
    /\ (bs = []
        <-> (forall x, In x profits -> (0 <? x) = true)
            \/ (forall x, In x profits -> (x <? 0) = true)).
Proof.
  assert (Hgrid : exists grid, B64.generatePriceRange 202 100 1.5 = Ret grid).
  { eexists. vm_compute. reflexivity. }
  destruct Hgrid as [grid Hgrid].
  destruct (no_breakeven_iff_one_sign B64.idlePricer 202%nat B64.Catalog.long_call
              [B64.optionLeg 100 5] 100 grid Hgrid)
    as [profits [bs [Hp [Hbs [Hlen Hiff]]]]].
  exists grid, profits, bs.
  assert (H2 : (2 <= List.length profits)%nat).
  { vm_compute in Hgrid. injection Hgrid as <-.
    vm_compute in Hp. injection Hp as <-. cbn [List.length]. lia. }
  assert (Hnn : Forall B64.notNaN profits).
  { vm_compute in Hgrid. injection Hgrid as <-.
    vm_compute in Hp. injection Hp as <-.
    apply b64_Forall_finite_notNaN, b64_finite_check. vm_compute. reflexivity. }
  split; [exact Hgrid|]. split; [exact Hp|]. split; [exact Hbs|].
  split; [exact H2|]. split; [exact Hnn|]. split; [exact Hlen|].
  exact (Hiff H2 Hnn).
Defined.

End DoubleScan.

(* ===================================================================== *)
(** * Binary64: a missing field *)
(* ===================================================================== *)

Section DoubleMissing.

Import PrimFloat SpecFloat FloatOps FloatAxioms.
Local Open Scope float_scope.
Set Warnings "-inexact-float".

(** NaN is absorbing for the arithmetic of the payoff rules. *)
Lemma b64_sub_nan_r (x : float) : x - nan = nan.
Proof.
  apply Prim2SF_inj. rewrite sub_spec. change (Prim2SF nan) with S754_nan.
  unfold SF64sub. destruct (Prim2SF x); reflexivity.
Qed.

Lemma b64_sub_nan_l (x : float) : nan - x = nan.
Proof.
  apply Prim2SF_inj. rewrite sub_spec. change (Prim2SF nan) with S754_nan.
  reflexivity.
Qed.

Lemma b64_add_nan_r (x : float) : x + nan = nan.
Proof.
  apply Prim2SF_inj. rewrite add_spec. change (Prim2SF nan) with S754_nan.
  unfold SF64add. destruct (Prim2SF x); reflexivity.
Qed.

Lemma b64_add_nan_l (x : float) : nan + x = nan.
Proof.
  apply Prim2SF_inj. rewrite add_spec. change (Prim2SF nan) with S754_nan.
  reflexivity.
Qed.

Lemma b64_mul_nan_l (x : float) : nan * x = nan.
Proof.
  apply Prim2SF_inj. rewrite mul_spec. change (Prim2SF nan) with S754_nan.
  reflexivity.
Qed.

Lemma b64_legProfitLoss_missing_field (pricer : B64.Pricer)
    (strategyLeg : B64.StrategyLeg) (leg : B64.Leg) (stockPrice : float) :
  B64.lacksField strategyLeg leg ->
  B64.legProfitLoss pricer strategyLeg leg stockPrice 0 = Ret nan.
Proof.
  unfold B64.legProfitLoss. change (0 =? 0) with true. cbv iota.
  intros [[Hty [Hact Hc]]|[Hty [Hact [Hk|Hp]]]].
  - rewrite Hty, Hact, Hc. cbn [B64.toNumber].
    rewrite b64_sub_nan_r, b64_mul_nan_l. reflexivity.
  - rewrite Hk. cbn [B64.toNumber]. rewrite b64_sub_nan_r, b64_sub_nan_l.
    change (B64.max nan 0) with nan.
    destruct (B64.type strategyLeg); [| |congruence];
      destruct (B64.action strategyLeg); try congruence; cbn [bind];
      rewrite ?b64_sub_nan_r, ?b64_sub_nan_l, !b64_mul_nan_l; reflexivity.
  - rewrite Hp. cbn [B64.toNumber].
    destruct (B64.type strategyLeg); [| |congruence];
      destruct (B64.action strategyLeg); try congruence; cbn [bind];
      rewrite ?b64_sub_nan_r, ?b64_sub_nan_l, !b64_mul_nan_l; reflexivity.
Qed.

Lemma b64_profitLossFrom_from_nan (pricer : B64.Pricer) (strategy : B64.Strategy)
    (stockPrice : float) (ls : list B64.Leg) :
  forall index : nat,
    B64.profitLossFrom pricer strategy stockPrice 0 ls index nan = Ret nan.
Proof.
  induction ls as [|leg rest IH]; intro index; [reflexivity|].
  cbn [B64.profitLossFrom].
  destruct (nth_error (B64.legs strategy) index) as [strategyLeg|]; [|apply IH].
  destruct (b64_legProfitLoss_expiry strategyLeg leg stockPrice) as [v Hv].
  rewrite Hv. cbn [bind]. rewrite b64_add_nan_l. apply IH.
Qed.

Lemma b64_profitLossFrom_missing_field (pricer : B64.Pricer)
    (strategy : B64.Strategy) (stockPrice : float) (ls : list B64.Leg) :
  forall (index : nat) (totalPL : float),
    (exists i strategyLeg leg,
        nth_error (B64.legs strategy) (index + i) = Some strategyLeg
        /\ nth_error ls i = Some leg
        /\ B64.lacksField strategyLeg leg) ->
    B64.profitLossFrom pricer strategy stockPrice 0 ls index totalPL = Ret nan.
Proof.
  induction ls as [|leg rest IH]; intros index totalPL [i [sl [leg' [H1 [H2 Hbad]]]]].
  - destruct i; discriminate.
  - cbn [B64.profitLossFrom]. destruct i as [|i].
    + rewrite Nat.add_0_r in H1. rewrite H1. injection H2 as <-.
      rewrite (b64_legProfitLoss_missing_field pricer sl leg stockPrice Hbad).
      cbn [bind]. rewrite b64_add_nan_r. apply b64_profitLossFrom_from_nan.
    + assert (Hrest : exists i0 strategyLeg leg0,
                 nth_error (B64.legs strategy) (S index + i0) = Some strategyLeg
                 /\ nth_error rest i0 = Some leg0
                 /\ B64.lacksField strategyLeg leg0).
      { exists i, sl, leg'. split; [|split; [exact H2 | exact Hbad]].
        rewrite <- H1. f_equal. lia. }
      destruct (nth_error (B64.legs strategy) index) as [strategyLeg|];
        [|apply IH; exact Hrest].
      destruct (b64_legProfitLoss_expiry strategyLeg leg stockPrice) as [v Hv].
      rewrite Hv. cbn [bind]. apply IH. exact Hrest.
Qed.

Lemma mapM_constant {A B : Type} (f : A -> outcome B) (y : B) (l : list A) :
  (forall x, f x = Ret y) -> mapM f l = Ret (repeat y (List.length l)).
Proof.
  intro Hf. induction l as [|x l IH]; [reflexivity|].
  cbn [mapM List.length repeat]. rewrite Hf. cbn [bind]. rewrite IH. reflexivity.
Qed.

Lemma b64_index_repeat_nan (n : nat) (i : Z) : B64.index (repeat nan n) i = nan.
Proof.
  unfold B64.index. destruct (i <? 0)%Z; [reflexivity|].
  destruct (Nat.lt_ge_cases (Z.to_nat i) n) as [H|H].
  - apply nth_repeat_lt. exact H.
  - apply nth_overflow. rewrite repeat_length. exact H.
Qed.

(** X23.  A leg that lacks a field its payoff rule reads (the cost basis
    of owned stock, which [validateStrategy] does not inspect, or the
    strike or the premium of a bought or sold option) raises no error: at
    expiration the profit or loss of the whole position is NaN at every
    price; on every grid that the price loop returns [findBreakevens]
    returns no breakeven, and when the grid is not empty
    [calculateMaxProfit] and [calculateMaxLoss] return NaN. *)
Theorem missing_field_gives_nan
    (pricer : B64.Pricer) (strategy : B64.Strategy) (ls : list B64.Leg) :
  (exists i strategyLeg leg,
      nth_error (B64.legs strategy) i = Some strategyLeg
      /\ nth_error ls i = Some leg
      /\ B64.lacksField strategyLeg leg) ->
  (forall stockPrice : float,
      B64.calculateProfitLoss pricer strategy ls stockPrice 0 = Ret nan)
  /\ (forall (fuel : nat) (currentPrice : float) (grid : list float),
        B64.generatePriceRange fuel currentPrice 1.5 = Ret grid ->
        B64.findBreakevens pricer fuel strategy ls currentPrice = Ret [])
  /\ (forall (fuel : nat) (currentPrice : float) (grid : list float),
        B64.generatePriceRange fuel currentPrice 2 = Ret grid ->
        grid <> [] ->
        B64.calculateMaxProfit pricer fuel strategy ls currentPrice = Ret nan
        /\ B64.calculateMaxLoss pricer fuel strategy ls currentPrice = Ret nan).
Proof.
  intro Hbad.
  assert (Hpl : forall stockPrice : float,
             B64.calculateProfitLoss pricer strategy ls stockPrice 0 = Ret nan).
  { intro stockPrice. apply b64_profitLossFrom_missing_field. exact Hbad. }
  assert (Hcurve : forall grid : list float,
             B64.calculateProfitLossArray pricer strategy ls grid 0
             = Ret (repeat nan (List.length grid))).
  { intro grid. unfold B64.calculateProfitLossArray. apply mapM_constant. exact Hpl. }
  split; [exact Hpl|]. split.
  - intros fuel currentPrice grid Hgrid.
    unfold B64.findBreakevens, B64.defaultRangeFactor.
    rewrite Hgrid. cbn [bind]. rewrite Hcurve. cbn [bind]. apply f_equal.
    rewrite b64_breakevenScan_flat_map.
    induction (seq 1 (List.length (repeat nan (List.length grid)) - 1)) as [|i l IH];
      [reflexivity|].
    cbn [flat_map]. rewrite IH, app_nil_r.
    apply b64_breakevenStep_none. unfold B64.crossingAt.
    rewrite !b64_index_repeat_nan. reflexivity.
  - intros fuel currentPrice grid Hgrid Hne.
    assert (Hex : Exists (fun x => is_nan x = true) (repeat nan (List.length grid))).
    { destruct grid as [|p grid]; [congruence|]. left. reflexivity. }
    destruct (b64_max_profit_of_samples pricer fuel strategy ls currentPrice grid
                _ Hgrid (Hcurve grid)) as [hi [Hhi [_ [_ [Hhin _]]]]].
    destruct (b64_max_loss_of_samples pricer fuel strategy ls currentPrice grid
                _ Hgrid (Hcurve grid)) as [lo [Hlo [_ [_ [Hlon _]]]]].
    rewrite (Hhin Hex) in Hhi. rewrite (Hlon Hex) in Hlo. split; assumption.
Qed.

(** The theorem at work on a covered call whose stock leg has no cost
    basis: [validateStrategy] accepts the legs, and every figure is NaN. *)
Lemma missing_field_gives_nan_witness :
  let ls := [B64.mkLeg None None None None None; B64.optionLeg 105 3] in
  (exists i strategyLeg leg,
      nth_error (B64.legs B64.Catalog.covered_call) i = Some strategyLeg
      /\ nth_error ls i = Some leg
      /\ B64.lacksField strategyLeg leg)
  /\ isValid (B64.validateStrategy (Some B64.Catalog.covered_call) ls) = true
  /\ (forall stockPrice : float,
         B64.calculateProfitLoss B64.idlePricer B64.Catalog.covered_call ls
           stockPrice 0 = Ret nan)
  /\ B64.findBreakevens B64.idlePricer 202 B64.Catalog.covered_call ls 100 = Ret []
  /\ B64.calculateMaxProfit B64.idlePricer 202 B64.Catalog.covered_call ls 100
     = Ret nan
  /\ B64.calculateMaxLoss B64.idlePricer 202 B64.Catalog.covered_call ls 100
     = Ret nan.
Proof.
  intro ls.
  assert (Hbad : exists i strategyLeg leg,
             nth_error (B64.legs B64.Catalog.covered_call) i = Some strategyLeg
             /\ nth_error ls i = Some leg
             /\ B64.lacksField strategyLeg leg).
  { exists 0%nat. eexists. eexists. split; [reflexivity|]. split; [reflexivity|].
    left. repeat split. }
  destruct (missing_field_gives_nan B64.idlePricer B64.Catalog.covered_call ls Hbad)
    as [Hpl [Hbe Hmax]].
  assert (H15 : exists grid, B64.generatePriceRange 202 100 1.5 = Ret grid).
  { eexists. vm_compute. reflexivity. }
  assert (H2 : exists grid, B64.generatePriceRange 202 100 2 = Ret grid /\ grid <> []).
  { eexists. split; [vm_compute; reflexivity | discriminate]. }
  destruct H15 as [g15 H15]. destruct H2 as [g2 [H2 Hne]].
  split; [exact Hbad|]. split; [reflexivity|]. split; [exact Hpl|].
  split; [exact (Hbe 202%nat 100 g15 H15)|].
  exact (Hmax 202%nat 100 g2 H2 Hne).
Defined.

End DoubleMissing.

(* ===================================================================== *)
(** * The catalog and its lookup *)
(* ===================================================================== *)

Section DoubleCatalog.

Import PrimFloat SpecFloat FloatOps FloatAxioms.
Local Open Scope float_scope.
Set Warnings "-inexact-float".

Lemma b64_getStrategy_entry (strategyKey : string) (strategy : B64.Strategy) :
  B64.getStrategy strategyKey = Some (B64.Entry strategy)
  <-> In (strategyKey, strategy) B64.Catalog.strategies.
Proof.
  split.
  - unfold B64.getStrategy.
    destruct (find _ B64.Catalog.strategies) as [[k s]|] eqn:E.
    + intro H. injection H as <-. apply find_some in E as [Hin Hk].
      cbn [fst] in Hk. apply String.eqb_eq in Hk. subst k. exact Hin.
    + destruct (existsb _ _); discriminate.
  - intro H. unfold B64.Catalog.strategies in H. cbn [In] in H.
    repeat (destruct H as [H|H]; [injection H as <- <-; reflexivity|]).
    contradiction.
Qed.

Lemma b64_getStrategy_inherited (strategyKey : string) :
  In strategyKey B64.objectPrototypeKeys ->
  B64.getStrategy strategyKey = Some (B64.Inherited strategyKey).
Proof.
  intro H. unfold B64.objectPrototypeKeys in H. cbn [In] in H.
  repeat (destruct H as [H|H]; [subst strategyKey; reflexivity|]).
  contradiction.
Qed.

(** X19.  [getStrategy] returns a strategy of the catalog exactly for the
    keys of the catalog, each key giving its own entry; for the names of
    the members that every object inherits from [Object.prototype]
    ([constructor], [toString], ...) it returns that member, which is truthy
    and is not a strategy; for every other key it returns [null]. *)
Theorem getStrategy_lookup (strategyKey : string) :
  (forall strategy : B64.Strategy,
      B64.getStrategy strategyKey = Some (B64.Entry strategy)
      <-> In (strategyKey, strategy) B64.Catalog.strategies)
  /\ (forall key : string,
        B64.getStrategy strategyKey = Some (B64.Inherited key)
        <-> key = strategyKey /\ In strategyKey B64.objectPrototypeKeys)
  /\ (B64.getStrategy strategyKey = None
      <-> ~ In strategyKey (map fst B64.Catalog.strategies)
          /\ ~ In strategyKey B64.objectPrototypeKeys).
Proof.
  split; [intro strategy; apply b64_getStrategy_entry|]. split.
  - intro key. split.
    + unfold B64.getStrategy.
      destruct (find _ B64.Catalog.strategies) as [[k s]|]; [discriminate|].
      destruct (existsb _ _) eqn:E; [|discriminate].
      intro H. injection H as <-. split; [reflexivity|].
      apply existsb_exists in E as [k [Hin Hk]].
      apply String.eqb_eq in Hk. subst k. exact Hin.
    + intros [-> Hin]. apply b64_getStrategy_inherited. exact Hin.
  - split.
    + intro Hnone. split.
      * intro Hin. apply in_map_iff in Hin as [[k s] [Hk Hin]].
        cbn [fst] in Hk. subst k. apply b64_getStrategy_entry in Hin. congruence.
      * intro Hin. apply b64_getStrategy_inherited in Hin. congruence.
    + intros [Hcat Hproto]. unfold B64.getStrategy.
      destruct (find _ B64.Catalog.strategies) as [[k s]|] eqn:E.
      * exfalso. apply Hcat. apply find_some in E as [Hin Hk].
        cbn [fst] in Hk. apply String.eqb_eq in Hk. subst k.
        apply in_map_iff. exists (strategyKey, s). split; [reflexivity | exact Hin].
      * destruct (existsb _ _) eqn:Ex; [|reflexivity].
        exfalso. apply Hproto. apply existsb_exists in Ex as [k [Hin Hk]].
        apply String.eqb_eq in Hk. subst k. exact Hin.
Qed.

Ltac catalog_template :=
  split;
  [ first [ exists 1%positive; reflexivity
          | exists 2%positive; reflexivity
          | exists 100%positive; reflexivity ]
  | split;
    [ first [ left; reflexivity
            | right; first [ exists 0%Z; reflexivity
                           | exists 5%Z; reflexivity
                           | exists (-5)%Z; reflexivity
                           | exists 10%Z; reflexivity
                           | exists (-10)%Z; reflexivity ] ]
    | first [ reflexivity | left; reflexivity | right; reflexivity ] ] ].

Lemma b64_catalog_entry_templates (strategyKey : string) (strategy : B64.Strategy) :
  In (strategyKey, strategy) B64.Catalog.strategies ->
  B64.legs strategy <> []
  /\ Forall B64.catalogTemplate (B64.legs strategy)
  /\ Exists (fun strategyLeg => B64.type strategyLeg <> stock) (B64.legs strategy).
Proof.
  intro H. unfold B64.Catalog.strategies in H. cbn [In] in H.
  repeat (destruct H as [H|H];
          [injection H as <- <-;
           split; [discriminate|];
           split;
           [ repeat (apply Forall_cons; [catalog_template|]); apply Forall_nil
           | first [ apply Exists_cons_hd; discriminate
                   | apply Exists_cons_tl, Exists_cons_hd; discriminate ] ]
          |]).
  contradiction.
Qed.

(** X20.  Every strategy that [getStrategy] returns from the catalog has
    at least one leg and at least one option leg, and each of its templates
    has a positive whole quantity, a strike offset that is absent or a whole
    number, and an action that matches its type: [own] for a stock template,
    [buy] or [sell] for a call or put template. *)
Theorem catalog_templates (strategyKey : string) (strategy : B64.Strategy) :
  B64.getStrategy strategyKey = Some (B64.Entry strategy) ->
  B64.legs strategy <> []
  /\ Forall B64.catalogTemplate (B64.legs strategy)
  /\ Exists (fun strategyLeg => B64.type strategyLeg <> stock) (B64.legs strategy).
Proof.
  intro H. apply b64_getStrategy_entry in H.
  exact (b64_catalog_entry_templates _ _ H).
Qed.

Lemma catalog_templates_witness :
  B64.getStrategy "iron-condor" = Some (B64.Entry B64.Catalog.iron_condor)
  /\ B64.legs B64.Catalog.iron_condor <> []
  /\ Forall B64.catalogTemplate (B64.legs B64.Catalog.iron_condor)
  /\ Exists (fun strategyLeg => B64.type strategyLeg <> stock)
       (B64.legs B64.Catalog.iron_condor).
Proof.
  split; [reflexivity|].
  apply (catalog_templates "iron-condor" B64.Catalog.iron_condor). reflexivity.
Defined.

Lemma b64_generateDefaultLeg_shape (pricer : B64.Pricer) (currentPrice : float)
    (marketParams : B64.MarketParams) (strategyLeg : B64.StrategyLeg) :
  B64.returningPricer pricer ->
  exists dl : B64.DefaultLeg,
    B64.generateDefaultLeg pricer currentPrice marketParams
      (B64.mp_daysToExpiration marketParams / 365) strategyLeg
    = Ret dl
    /\ B64.defaultLegOf pricer currentPrice marketParams strategyLeg dl.
Proof.
  intro Hp. unfold B64.generateDefaultLeg, B64.defaultLegOf. cbv zeta.
  destruct (B64.type strategyLeg) eqn:Et.
  - match goal with |- context [bind (pricer ?a ?b ?c) _] =>
      destruct (Hp a b c) as [p Hpv]; rewrite Hpv end.
    cbn [bind]. eexists. split; [reflexivity|].
    cbn [B64.dl_action B64.dl_type B64.dl_quantity B64.dl_fields B64.riskFreeRate
         B64.volatility B64.strike B64.premium B64.costBasis].
    repeat (split; [reflexivity|]). split; [|reflexivity].
    exists p. split; reflexivity.
  - match goal with |- context [bind (pricer ?a ?b ?c) _] =>
      destruct (Hp a b c) as [p Hpv]; rewrite Hpv end.
    cbn [bind]. eexists. split; [reflexivity|].
    cbn [B64.dl_action B64.dl_type B64.dl_quantity B64.dl_fields B64.riskFreeRate
         B64.volatility B64.strike B64.premium B64.costBasis].
    repeat (split; [reflexivity|]). split; [|reflexivity].
    exists p. split; reflexivity.
  - eexists. split; [reflexivity|]. cbn. repeat split.
Qed.

Lemma mapM_Forall2_total {A B : Type} (f : A -> outcome B) (P : A -> B -> Prop)
    (l : list A) :
  (forall x, exists y, f x = Ret y /\ P x y) ->
  exists ys, mapM f l = Ret ys /\ Forall2 P l ys.
Proof.
  intro H. induction l as [|x l [ys [Hys HP]]].
  - exists []. split; [reflexivity | constructor].
  - destruct (H x) as [y [Hy Hxy]]. exists (y :: ys). split.
    + cbn [mapM]. rewrite Hy. cbn [bind]. rewrite Hys. reflexivity.
    + constructor; assumption.
Qed.

(** X21.  With a pricer that returns a number for every argument,
    [generateDefaultLegs] returns [[]] for a key that [getStrategy] does
    not find, throws a [TypeError] for a key that [getStrategy] finds on
    [Object.prototype] (the member has no [legs]), and for a key of the
    catalog returns one leg per template, in template order, each built
    from its template. *)
Theorem default_legs_match_templates
    (pricer : B64.Pricer) (strategyKey : string) (currentPrice : float)
    (marketParams : B64.MarketParams) :
  B64.returningPricer pricer ->
  (B64.getStrategy strategyKey = None ->
   B64.generateDefaultLegs pricer strategyKey currentPrice marketParams = Ret [])
  /\ (In strategyKey B64.objectPrototypeKeys ->
      B64.generateDefaultLegs pricer strategyKey currentPrice marketParams
      = Throw B64.msgNoLegs)
  /\ (forall strategy : B64.Strategy,
        B64.getStrategy strategyKey = Some (B64.Entry strategy) ->
        exists dls : list B64.DefaultLeg,
          B64.generateDefaultLegs pricer strategyKey currentPrice marketParams
          = Ret dls
          /\ List.length dls = List.length (B64.legs strategy)
          /\ Forall2 (B64.defaultLegOf pricer currentPrice marketParams)
               (B64.legs strategy) dls).
Proof.
  intro Hp. split; [|split].
  - intro H. unfold B64.generateDefaultLegs. rewrite H. reflexivity.
  - intro H. unfold B64.generateDefaultLegs.
    rewrite (b64_getStrategy_inherited strategyKey H). reflexivity.
  - intros strategy H. unfold B64.generateDefaultLegs. rewrite H.
    destruct (mapM_Forall2_total
                (B64.generateDefaultLeg pricer currentPrice marketParams
                   (B64.mp_daysToExpiration marketParams / 365))
                (B64.defaultLegOf pricer currentPrice marketParams)
                (B64.legs strategy)) as [dls [Hdls HP]].
    { intro sl. apply b64_generateDefaultLeg_shape. exact Hp. }
    exists dls. split; [exact Hdls|]. split; [|exact HP].
    symmetry. exact (Forall2_length HP).
Qed.

Lemma default_legs_match_templates_witness :
  let pricer : B64.Pricer := fun _ _ _ => Ret 1.005 in
  let marketParams := B64.mkMarketParams 100 25 5 30 in
  B64.returningPricer pricer
  /\ B64.generateDefaultLegs pricer "nothing" 100 marketParams = Ret []
  /\ B64.generateDefaultLegs pricer "constructor" 100 marketParams
     = Throw B64.msgNoLegs
  /\ exists dls : list B64.DefaultLeg,
       B64.generateDefaultLegs pricer "covered-call" 100 marketParams = Ret dls
       /\ List.length dls = 2%nat
       /\ Forall2 (B64.defaultLegOf pricer 100 marketParams)
            (B64.legs B64.Catalog.covered_call) dls
       /\ map (fun dl => B64.premium (B64.dl_fields dl)) dls = [None; Some 1].
Proof.
  intros pricer marketParams.
  assert (Hp : B64.returningPricer pricer).
  { intros o s t. exists 1.005. reflexivity. }
  destruct (default_legs_match_templates pricer "covered-call" 100 marketParams Hp)
    as [_ [_ Hcat]].
  destruct (default_legs_match_templates pricer "nothing" 100 marketParams Hp)
    as [Hnone _].
  destruct (default_legs_match_templates pricer "constructor" 100 marketParams Hp)
    as [_ [Hproto _]].
  split; [exact Hp|]. split; [apply Hnone; reflexivity|].
  split; [apply Hproto; cbn; tauto|].
  destruct (Hcat B64.Catalog.covered_call eq_refl) as [dls [Hdls [Hlen HP]]].
  exists dls. split; [exact Hdls|]. split; [exact Hlen|]. split; [exact HP|].
  vm_compute in Hdls. injection Hdls as <-. reflexivity.
Defined.

End DoubleCatalog.

(* ===================================================================== *)
(** * Binary64: opposite positions *)
(* ===================================================================== *)

Section DoubleMirror.

Import PrimFloat SpecFloat FloatOps FloatAxioms.
Local Open Scope float_scope.
Set Warnings "-inexact-float".

(** Rounding to nearest is symmetric under a change of sign: the
    operations on specified floats commute with [SFopp], up to the sign of
    a zero result. *)
Section Symmetry.

Variables prec emax : Z.

Lemma binary_round_aux_opp (s : bool) (mx ex : Z) (lx : location) :
  binary_round_aux prec emax (negb s) mx ex lx
  = SFopp (binary_round_aux prec emax s mx ex lx).
Proof.
  unfold binary_round_aux.
  destruct (shr_fexp prec emax mx ex lx) as [mrs' e'].
  destruct (shr_fexp prec emax _ e' loc_Exact) as [mrs'' e''].
  destruct (shr_m mrs''); [reflexivity| |reflexivity].
  destruct (Z.leb e'' (emax - prec)); reflexivity.
Qed.

Lemma binary_round_opp (s : bool) (mx : positive) (ex : Z) :
  binary_round prec emax (negb s) mx ex = SFopp (binary_round prec emax s mx ex).
Proof.
  unfold binary_round.
  destruct (shl_align mx ex _) as [mz ez]. apply binary_round_aux_opp.
Qed.

Lemma binary_normalize_opp (m e : Z) (szero : bool) :
  B64.opposite_sf (binary_normalize prec emax m e szero)
    (binary_normalize prec emax (- m) e szero).
Proof.
  destruct m as [|p|p]; cbn [Z.opp binary_normalize].
  - right. split; exact I.
  - left. apply (binary_round_opp false).
  - left. rewrite (binary_round_opp false). 
    destruct (binary_round prec emax false p e) as [s|s| |s m' e']; cbn;
      rewrite ?negb_involutive; reflexivity.
Qed.

Lemma cond_Zopp_negb (s : bool) (m : Z) : cond_Zopp (negb s) m = (- cond_Zopp s m)%Z.
Proof. destruct s; cbn; lia. Qed.

Lemma SFsub_swap (a b : spec_float) :
  B64.opposite_sf (SFsub prec emax a b) (SFsub prec emax b a).
Proof.
  destruct a as [sa|sa| |sa ma ea], b as [sb|sb| |sb mb eb]; cbn [SFsub];
    try (left; reflexivity);
    try (destruct sa, sb; cbn; solve [left; reflexivity | right; split; exact I]);
    try (destruct sa; cbn; solve [left; reflexivity | right; split; exact I]);
    try (destruct sb; cbn; solve [left; reflexivity | right; split; exact I]).
  rewrite (Z.min_comm eb ea).
  match goal with |- B64.opposite_sf (binary_normalize _ _ ?x _ _) (binary_normalize _ _ ?y _ _) =>
    replace y with (- x)%Z by lia end.
  apply binary_normalize_opp.
Qed.

Lemma SFmul_opp_l (a q : spec_float) :
  SFmul prec emax (SFopp a) q = SFopp (SFmul prec emax a q).
Proof.
  destruct a as [sa|sa| |sa ma ea], q as [sq|sq| |sq mq eq]; cbn [SFmul SFopp];
    try reflexivity;
    try (destruct sa, sq; reflexivity).
  replace (xorb (negb sa) sq) with (negb (xorb sa sq)) by (destruct sa, sq; reflexivity).
  apply binary_round_aux_opp.
Qed.

Lemma SFmul_opposite (a b q : spec_float) :
  B64.opposite_sf a b -> B64.opposite_sf (SFmul prec emax a q) (SFmul prec emax b q).
Proof.
  intros [->|[Ha Hb]].
  - left. apply SFmul_opp_l.
  - destruct a as [sa| | |]; try contradiction.
    destruct b as [sb| | |]; try contradiction.
    destruct q as [sq|sq| |sq mq eq]; cbn [SFmul].
    + right. split; exact I.
    + left. reflexivity.
    + left. reflexivity.
    + right. split; exact I.
Qed.

Lemma SFadd_opp (a c : spec_float) :
  B64.opposite_sf (SFadd prec emax a c) (SFadd prec emax (SFopp a) (SFopp c)).
Proof.
  destruct a as [sa|sa| |sa ma ea], c as [sc|sc| |sc mc ec]; cbn [SFadd SFopp];
    try (left; reflexivity);
    try (destruct sa, sc; cbn; solve [left; reflexivity | right; split; exact I]).
  rewrite !cond_Zopp_negb.
  match goal with |- B64.opposite_sf (binary_normalize _ _ ?x _ _) (binary_normalize _ _ ?y _ _) =>
    replace y with (- x)%Z by lia end.
  apply binary_normalize_opp.
Qed.

Lemma SFadd_opposite (a b c d : spec_float) :
  B64.opposite_sf a b -> B64.opposite_sf c d ->
  B64.opposite_sf (SFadd prec emax a c) (SFadd prec emax b d).
Proof.
  intros [->|[Ha Hb]] [->|[Hc Hd]].
  - apply SFadd_opp.
  - destruct c as [sc| | |]; try contradiction.
    destruct d as [sd| | |]; try contradiction.
    destruct a as [sa|sa| |sa ma ea]; cbn [SFadd SFopp];
      try (left; reflexivity).
    destruct sa, sc, sd; cbn; solve [left; reflexivity | right; split; exact I].
  - destruct a as [sa| | |]; try contradiction.
    destruct b as [sb| | |]; try contradiction.
    destruct c as [sc|sc| |sc mc ec]; cbn [SFadd SFopp];
      try (left; reflexivity).
    destruct sa, sb, sc; cbn; solve [left; reflexivity | right; split; exact I].
  - destruct a as [sa| | |]; try contradiction.
    destruct b as [sb| | |]; try contradiction.
    destruct c as [sc| | |]; try contradiction.
    destruct d as [sd| | |]; try contradiction.
    destruct sa, sb, sc, sd; cbn; right; split; exact I.
Qed.


End Symmetry.

Lemma b64_opposite_zero : B64.opposite 0 0.
Proof. right. split; exact I. Qed.

Lemma b64_opposite_sub (x y : float) : B64.opposite (x - y) (y - x).
Proof. unfold B64.opposite. rewrite !sub_spec. apply SFsub_swap. Qed.

Lemma b64_opposite_mul (x y q : float) : B64.opposite x y -> B64.opposite (x * q) (y * q).
Proof. unfold B64.opposite. rewrite !mul_spec. apply SFmul_opposite. Qed.

Lemma b64_opposite_add (a b c d : float) :
  B64.opposite a b -> B64.opposite c d -> B64.opposite (a + c) (b + d).
Proof. unfold B64.opposite. rewrite !add_spec. apply SFadd_opposite. Qed.

Lemma b64_opposite_negation (a b : float) : B64.opposite a b -> B64.negationOf a b.
Proof.
  unfold B64.opposite, B64.negationOf. intros [H|[Ha Hb]].
  - rewrite <- opp_spec in H. apply Prim2SF_inj in H. subst b.
    destruct (is_nan a) eqn:E.
    + left. split; [reflexivity|]. apply b64_is_nan_eq in E. subst a. reflexivity.
    + right. rewrite eqb_spec, opp_spec. unfold SFeqb.
      rewrite SFcompare_refl; [reflexivity|].
      intro N. rewrite <- opp_spec in N. apply b64_is_nan_spec in N.
      assert (Ea : Prim2SF a = S754_nan).
      { apply b64_is_nan_spec in N. rewrite opp_spec in N.
        destruct (Prim2SF a); try discriminate. reflexivity. }
      apply b64_is_nan_spec in Ea. congruence.
  - right. rewrite eqb_spec, opp_spec. unfold SFeqb.
    destruct (Prim2SF a); try contradiction.
    destruct (Prim2SF b); try contradiction. reflexivity.
Qed.

(** At expiration the mirrored template gives a leg the opposite profit or
    loss. *)
Lemma b64_legProfitLoss_mirror (pricer : B64.Pricer)
    (strategyLeg : B64.StrategyLeg) (leg : B64.Leg) (stockPrice : float) :
  B64.type strategyLeg <> stock ->
  exists a b : float,
    B64.legProfitLoss pricer strategyLeg leg stockPrice 0 = Ret a
    /\ B64.legProfitLoss pricer (B64.mirrorLeg strategyLeg) leg stockPrice 0 = Ret b
    /\ B64.opposite a b.
Proof.
  intro Hty. unfold B64.legProfitLoss. cbn [B64.mirrorLeg B64.type B64.action B64.quantity].
  change (0 =? 0) with true. cbv iota.
  destruct (B64.type strategyLeg); [| |congruence];
    destruct (B64.action strategyLeg); cbn [bind];
    eexists; eexists; (split; [reflexivity|]); (split; [reflexivity|]);
    try (apply b64_opposite_mul, b64_opposite_mul, b64_opposite_sub);
    apply b64_opposite_zero.
Qed.

Lemma b64_profitLossFrom_mirror (pricer : B64.Pricer) (strategy : B64.Strategy)
    (stockPrice : float) (ls : list B64.Leg) :
  B64.optionsOnly strategy ->
  forall (index : nat) (t t' : float),
    B64.opposite t t' ->
    exists a b : float,
      B64.profitLossFrom pricer strategy stockPrice 0 ls index t = Ret a
      /\ B64.profitLossFrom pricer (B64.mirror strategy) stockPrice 0 ls index t'
         = Ret b
      /\ B64.opposite a b.
Proof.
  intro Hopt. induction ls as [|leg rest IH]; intros index t t' Ht.
  - exists t, t'. repeat split. exact Ht.
  - cbn [B64.profitLossFrom B64.mirror B64.legs].
    rewrite nth_error_map.
    destruct (nth_error (B64.legs strategy) index) as [strategyLeg|] eqn:E;
      cbn [option_map]; [|apply IH; exact Ht].
    assert (Hty : B64.type strategyLeg <> stock).
    { unfold B64.optionsOnly in Hopt. rewrite Forall_forall in Hopt.
      apply Hopt. apply (nth_error_In _ _ E). }
    destruct (b64_legProfitLoss_mirror pricer strategyLeg leg stockPrice Hty)
      as [a [b [Ha [Hb Hab]]]].
    rewrite Ha, Hb. cbn [bind]. apply IH. apply b64_opposite_add; assumption.
Qed.

(** X10.  For a strategy without stock templates, exchanging buy and sell
    in every template negates the profit or loss at expiration, at every
    price and for every leg list, in binary64: the opposite position
    returns NaN when the position returns NaN, and otherwise a number that
    is [===] to the negation of what the position returns. *)
Theorem mirror_negates_profit_loss
    (pricer : B64.Pricer) (strategy : B64.Strategy) (ls : list B64.Leg)
    (stockPrice : float) :
  B64.optionsOnly strategy ->
  exists a b : float,
    B64.calculateProfitLoss pricer strategy ls stockPrice 0 = Ret a
    /\ B64.calculateProfitLoss pricer (B64.mirror strategy) ls stockPrice 0 = Ret b
    /\ B64.negationOf a b.
Proof.
  intro Hopt. unfold B64.calculateProfitLoss.
  destruct (b64_profitLossFrom_mirror pricer strategy stockPrice ls Hopt 0%nat 0 0
              b64_opposite_zero) as [a [b [Ha [Hb Hab]]]].
  exists a, b. split; [exact Ha|]. split; [exact Hb|].
  apply b64_opposite_negation. exact Hab.
Qed.

(** The bear call spread is the mirror of the bull call spread: with the
    legs struck at 100 and 105 for premiums of 5 and 3 the two are worth
    300 and -300 at 110; with both premiums at 1.7e307 both are NaN. *)
Lemma mirror_negates_profit_loss_witness :
  B64.optionsOnly B64.Catalog.bull_call_spread
  /\ B64.legs (B64.mirror B64.Catalog.bull_call_spread)
     = B64.legs B64.Catalog.bear_call_spread
  /\ (exists a b : float,
        B64.calculateProfitLoss B64.idlePricer B64.Catalog.bull_call_spread
          [B64.optionLeg 100 5; B64.optionLeg 105 3] 110 0 = Ret a
        /\ B64.calculateProfitLoss B64.idlePricer
             (B64.mirror B64.Catalog.bull_call_spread)
             [B64.optionLeg 100 5; B64.optionLeg 105 3] 110 0 = Ret b
        /\ B64.negationOf a b)
  /\ B64.calculateProfitLoss B64.idlePricer B64.Catalog.bull_call_spread
       [B64.optionLeg 100 5; B64.optionLeg 105 3] 110 0 = Ret 300
  /\ B64.calculateProfitLoss B64.idlePricer (B64.mirror B64.Catalog.bull_call_spread)
       [B64.optionLeg 100 5; B64.optionLeg 105 3] 110 0 = Ret (-300)
  /\ B64.calculateProfitLoss B64.idlePricer B64.Catalog.bull_call_spread
       [B64.optionLeg 100 1.7e307; B64.optionLeg 105 1.7e307] 110 0 = Ret nan
  /\ B64.calculateProfitLoss B64.idlePricer (B64.mirror B64.Catalog.bull_call_spread)
       [B64.optionLeg 100 1.7e307; B64.optionLeg 105 1.7e307] 110 0 = Ret nan.
Proof.
  assert (Hopt : B64.optionsOnly B64.Catalog.bull_call_spread).
  { repeat constructor; discriminate. }
  split; [exact Hopt|]. split; [reflexivity|].
  split; [apply (mirror_negates_profit_loss B64.idlePricer
                   B64.Catalog.bull_call_spread); exact Hopt|].
  repeat split.
Defined.

End DoubleMirror.

(* ===================================================================== *)
(** * Binary64: the concrete runs of the exact layer *)
(* ===================================================================== *)

Section DoubleRuns.

Import PrimFloat SpecFloat FloatOps FloatAxioms.
Local Open Scope float_scope.
Set Warnings "-inexact-float".

(** The runs that the exact layer evaluates come out the same in binary64,
    where every value they meet is exact. *)

(** Long call struck at 100 for a premium of 5: -500 at 100, +500 at 110,
    and the buy rule at every strike, premium and price. *)
Lemma b64_run_long_call_profit (pricer : B64.Pricer) (vol rate cb : B64.value) :
  B64.calculateProfitLoss pricer B64.Catalog.long_call
    [B64.mkLeg (Some 100) (Some 5) vol rate cb] 100 0 = Ret (-500)
  /\ B64.calculateProfitLoss pricer B64.Catalog.long_call
       [B64.mkLeg (Some 100) (Some 5) vol rate cb] 110 0 = Ret 500
  /\ forall k p stockPrice : float,
       B64.calculateProfitLoss pricer B64.Catalog.long_call
         [B64.mkLeg (Some k) (Some p) vol rate cb] stockPrice 0
       = Ret (0 + (B64.max (stockPrice - k) 0 - p) * 1 * 100).
Proof. split; [|split]; reflexivity. Qed.

(** [generatePriceRange(100, 1.5)]: 201 values from 50 to 150, strictly
    increasing. *)
Lemma b64_run_price_grid_100 :
  exists grid : list float,
    (forall k, B64.generatePriceRange (202 + k) 100 1.5 = Ret grid)
    /\ List.length grid = 201%nat
    /\ hd_error grid = Some 50
    /\ last grid nan = 150
    /\ B64.StrictlyIncreasing grid.
Proof.
  eexists. split; [|split; [|split; [|split]]].
  - intro k. apply b64_generatePriceRange_fuel_add. vm_compute. reflexivity.
  - reflexivity.
  - reflexivity.
  - reflexivity.
  - apply b64_increasingb_sound. vm_compute. reflexivity.
Qed.

(** The breakevens of the long call struck at 100 for a premium of 5, at
    current price 100: 105, twice. *)
Lemma b64_run_long_call_breakevens (pricer : B64.Pricer) (k : nat) :
  B64.findBreakevens pricer (202 + k) B64.Catalog.long_call
    [B64.optionLeg 100 5] 100 = Ret [105; 105].
Proof. apply b64_breakevens_run. vm_compute. reflexivity. Qed.

(** A premium of exactly 0 is rejected. *)
Lemma b64_run_zero_premium :
  B64.validateStrategy (Some B64.Catalog.long_call) [B64.optionLeg 100 0]
  = mkValidationResult false ["Leg 1: Invalid premium"%string].
Proof. reflexivity. Qed.

(** Bull call spread struck at 100 and 105 with both premiums 5, at current
    price 100: a hundred NaN breakevens, then 100. *)
Lemma b64_run_bull_call_spread (pricer : B64.Pricer) (k : nat) :
  exists bs : list float,
    B64.findBreakevens pricer (202 + k) B64.Catalog.bull_call_spread
      [B64.optionLeg 100 5; B64.optionLeg 105 5] 100 = Ret bs
    /\ List.length bs = 101%nat
    /\ (forall i, (i < 100)%nat -> is_nan (nth i bs 0) = true)
    /\ nth 100 bs 0 = 100.
Proof.
  eexists. split; [apply b64_breakevens_run; vm_compute; reflexivity|].
  split; [reflexivity|]. split; [|reflexivity].
  intros i Hi.
  do 100 (destruct i as [|i]; [reflexivity|]). lia.
Qed.

End DoubleRuns.
